(** * analyse-carbone-site: a shallow embedding of [app.py]

    The development follows the layout of the program:

    - Python values the program computes with: [str] (a sequence of Unicode
      code points), [int] (as [Z]) and [float] (IEEE 754 binary64, as the
      standard library's [spec_float] at precision 53);
    - the builtins and third-party calls the program relies on
      ([str.lower], [sum], [urllib.parse], [tldextract], [BeautifulSoup],
      [re], [requests]) as interfaces;
    - the functions of [app.py], one definition each, under their names;
    - the properties of the specification. *)

From Stdlib Require Import ZArith NArith QArith Qabs List Ascii String Lia.
From Stdlib Require Import Floats.SpecFloat.
From stdpp Require Import gmap strings list sorting.

#[local] Open Scope Z_scope.
#[local] Set Warnings "-register-all,-clear-no-such-hyp".

(* ===================================================================== *)
(** * Python strings *)
(* ===================================================================== *)

(** A Python [str] is a sequence of code points. *)
Definition str := list N.

(** String literals of the source are written as Rocq strings (UTF-8
    bytes) and decoded to code points by [pystr]. *)
Fixpoint utf8_decode (bs : list N) : str :=
  match bs with
  | [] => []
  | b :: r =>
      if (b <? 128)%N then b :: utf8_decode r
      else if (b <? 224)%N then
        match r with
        | c1 :: r1 =>
            N.lor (N.shiftl (N.land b 31) 6) (N.land c1 63) :: utf8_decode r1
        | _ => []
        end
      else if (b <? 240)%N then
        match r with
        | c1 :: c2 :: r2 =>
            N.lor (N.shiftl (N.land b 15) 12)
              (N.lor (N.shiftl (N.land c1 63) 6) (N.land c2 63))
              :: utf8_decode r2
        | _ => []
        end
      else
        match r with
        | c1 :: c2 :: c3 :: r3 =>
            N.lor (N.shiftl (N.land b 7) 18)
              (N.lor (N.shiftl (N.land c1 63) 12)
                 (N.lor (N.shiftl (N.land c2 63) 6) (N.land c3 63)))
              :: utf8_decode r3
        | _ => []
        end
  end.

Definition pystr (s : string) : str :=
  utf8_decode (map N_of_ascii (list_ascii_of_string s)).

(** The number of bytes of a code point in UTF-8. *)
Definition utf8_width (c : N) : Z :=
  if (c <? 128)%N then 1
  else if (c <? 2048)%N then 2
  else if (c <? 65536)%N then 3
  else 4.

(** The code points U+D800 to U+DFFF, which UTF-8 does not encode. *)
Definition is_surrogate (c : N) : bool := ((55296 <=? c) && (c <=? 57343))%N.

(** [s.startswith(p)] *)
Fixpoint startswith (s p : str) : bool :=
  match p, s with
  | [], _ => true
  | _ :: _, [] => false
  | a :: p', b :: s' => (a =? b)%N && startswith s' p'
  end.

(** [p in s]: [p] is a substring of [s]. *)
Fixpoint str_in (p s : str) : bool :=
  startswith s p ||
  match s with
  | [] => false
  | _ :: s' => str_in p s'
  end.

(** [s.count(p)]: the matches are found left to right, and the search
    resumes after the end of each match, so matches never overlap.
    [skip] is the number of code points still covered by the last match. *)
Fixpoint count_from (p : str) (skip : nat) (s : str) : Z :=
  match s with
  | [] => 0
  | _ :: s' =>
      match skip with
      | S k => count_from p k s'
      | O =>
          if startswith s p then 1 + count_from p (length p - 1)%nat s'
          else count_from p 0%nat s'
      end
  end.

Definition str_count (s p : str) : Z :=
  match p with
  | [] => Z.of_nat (length s) + 1
  | _ :: _ => count_from p 0%nat s
  end.

(** Unicode white space, as [str.isspace], [str.strip] and the [\s] class
    of [re] on [str] patterns see it. *)
Definition is_space (c : N) : bool :=
  ((9 <=? c) && (c <=? 13) || (28 <=? c) && (c <=? 32) || (c =? 133)
   || (c =? 160) || (c =? 5760) || (8192 <=? c) && (c <=? 8202)
   || (c =? 8232) || (c =? 8233) || (c =? 8239) || (c =? 8287)
   || (c =? 12288))%N.

(** [re.sub(r"\s+", " ", s)] *)
Fixpoint collapse_spaces (in_run : bool) (s : str) : str :=
  match s with
  | [] => []
  | c :: s' =>
      if is_space c then
        if in_run then collapse_spaces true s'
        else 32%N :: collapse_spaces true s'
      else c :: collapse_spaces false s'
  end.

Fixpoint lstrip (s : str) : str :=
  match s with
  | c :: s' => if is_space c then lstrip s' else s
  | [] => []
  end.

(** [s.strip()] *)
Definition strip (s : str) : str := rev (lstrip (rev (lstrip s))).

(** [str(n)] for an [int]. *)
Fixpoint digits_of_pos (fuel : nat) (n : N) (acc : str) : str :=
  match fuel with
  | O => acc
  | S fuel' =>
      let acc' := (48 + n mod 10)%N :: acc in
      if (n <? 10)%N then acc' else digits_of_pos fuel' (n / 10)%N acc'
  end.

Definition str_of_int (z : Z) : str :=
  let n := Z.to_N (Z.abs z) in
  let ds := digits_of_pos (S (N.to_nat (N.log2 n))) n [] in
  if z <? 0 then 45%N :: ds else ds.

(* ===================================================================== *)
(** * Python floats *)
(* ===================================================================== *)

(** A Python [float] is an IEEE 754 binary64 number: precision 53,
    exponents below 1024, round to nearest even. *)
Definition float := spec_float.
Definition prec : Z := 53.
Definition emax : Z := 1024.

Definition fmul : float -> float -> float := SFmul prec emax.
Definition fdiv : float -> float -> float := SFdiv prec emax.
Definition fadd : float -> float -> float := SFadd prec emax.

Definition is_finite (x : float) : bool :=
  match x with
  | S754_zero _ | S754_finite _ _ _ => true
  | _ => false
  end.

(** The binary64 number nearest to [a / d], ties to even, with the sign
    [neg]; [a] is not negative.  The quotient is taken with at least 64
    significant bits, and a last bit records a non-zero remainder, so one
    rounding to 53 bits gives the correctly rounded quotient. *)
Definition float_of_ratio (neg : bool) (a : Z) (d : positive) : float :=
  if a =? 0 then S754_zero neg
  else
    let k := Z.max 0 (64 + Z.log2 (Z.pos d) - Z.log2 a) in
    let n := a * 2 ^ k in
    let q := n / Z.pos d in
    let sticky := if n mod Z.pos d =? 0 then 0 else 1 in
    let m := 2 * q + sticky in
    binary_normalize prec emax (if neg then - m else m) (- k - 1) neg.

(** Python exceptions raised by the modelled code. *)
Inductive exn :=
| ValueError (msg : str)
| TypeError
| ZeroDivisionError
| OverflowError
| UnicodeEncodeError.

Inductive result (A : Type) :=
| Ok (a : A)
| Raise (e : exn).
Arguments Ok {A} a.
Arguments Raise {A} e.

Definition bind {A B} (r : result A) (k : A -> result B) : result B :=
  match r with
  | Ok a => k a
  | Raise e => Raise e
  end.

Notation "'try!' x := r 'in' k" := (bind r (fun x => k))
  (at level 10, x name, r at level 100, k at level 200).

(** [len(s.encode("utf-8"))]: the number of bytes of the UTF-8 encoding;
    [encode] raises [UnicodeEncodeError] on a surrogate code point. *)
Definition utf8_len (s : str) : result Z :=
  if existsb is_surrogate s then Raise UnicodeEncodeError
  else Ok (fold_right (fun c n => utf8_width c + n) 0 s).

(** [float(n)] for an [int] that a float can hold: the nearest float. *)
Definition to_float (n : Z) : float := binary_normalize prec emax n 0 false.

(** [float(n)] for any [int], as the arithmetic operators convert an [int]
    operand: [OverflowError] when the integer is too large. *)
Definition float_of_int (n : Z) : result float :=
  let x := to_float n in
  if is_finite x then Ok x else Raise OverflowError.

(** [a / b] on two [int]s: the correctly rounded quotient.  Python raises
    [ZeroDivisionError] for [b = 0] and [OverflowError] for a quotient
    beyond the largest float; the program divides lengths and counts by
    positive constants only, so neither is reachable, and the model
    answers NaN and infinity there. *)
Definition int_truediv (a b : Z) : float :=
  match b with
  | Z0 => S754_nan
  | Zpos d => float_of_ratio (a <? 0) (Z.abs a) d
  | Zneg d => float_of_ratio (0 <? a) (Z.abs a) d
  end.

(** [int(x)] for a [float]: truncation towards zero.  Python raises on NaN
    and on the infinities; the program truncates finite values only (see
    [score_arg_finite]), and the model answers 0 there. *)
Definition int_of_float (x : float) : Z :=
  match x with
  | S754_finite s m e =>
      let a := if 0 <=? e then Z.pos m * 2 ^ e else Z.pos m / 2 ^ (- e) in
      if s then - a else a
  | _ => 0
  end.

(** The integer nearest to [n / d], ties to the even one ([0 <= n]). *)
Definition round_half_even (n : Z) (d : Z) : Z :=
  let q := n / d in
  let r := n mod d in
  match 2 * r ?= d with
  | Lt => q
  | Gt => q + 1
  | Eq => if Z.even q then q else q + 1
  end.

(** The magnitude of a finite non-zero float, scaled by [10 ^ ndigits] and
    rounded to the nearest integer, ties to even. *)
Definition scaled_magnitude (m : positive) (e : Z) (ndigits : Z) : Z :=
  if 0 <=? e then Z.pos m * 2 ^ e * 10 ^ ndigits
  else round_half_even (Z.pos m * 10 ^ ndigits) (2 ^ (- e)).

(** [round(x, ndigits)] for [0 <= ndigits]: the exact value of [x] is
    rounded to [ndigits] decimals (ties to even), and the float nearest to
    that decimal is returned; zeros, infinities and NaN are returned
    unchanged. *)
Definition py_round (x : float) (ndigits : Z) : float :=
  match x with
  | S754_finite s m e =>
      float_of_ratio s (scaled_magnitude m e ndigits)
        (Z.to_pos (10 ^ ndigits))
  | _ => x
  end.

(** [format(x, ".1f")] *)
Definition format_1f (x : float) : str :=
  match x with
  | S754_nan => pystr "nan"
  | S754_infinity s => pystr (if s then "-inf" else "inf")
  | S754_zero s => pystr (if s then "-0.0" else "0.0")
  | S754_finite s m e =>
      let t := scaled_magnitude m e 1 in
      (if s then [45%N] else [])
        ++ str_of_int (t / 10) ++ [46%N] ++ str_of_int (t mod 10)
  end.

(** Float literals of the source. *)
Definition float_lit (n : Z) (d : positive) : float :=
  float_of_ratio (n <? 0) (Z.abs n) d.

(* ===================================================================== *)
(** * Builtins whose tables are outside the program *)
(* ===================================================================== *)

(** [str.lower] follows the Unicode character database, and [sum] over
    floats differs between interpreter versions (plain left-to-right
    additions, or compensated ones); both are taken as given. *)
Class Builtins := {
  str_lower : str -> str;
  sum_floats : list float -> float
}.

(* ===================================================================== *)
(** * CONFIG GLOBALE *)
(* ===================================================================== *)

Definition RSE_KEYWORDS : list str := map pystr [
  "rse"; "responsabilité sociétale"; "responsabilité sociale";
  "responsabilite sociétale"; "responsabilite sociale";
  "développement durable"; "developpement durable"; "durable";
  "environnement"; "environnemental"; "impact environnemental";
  "transition écologique"; "transition ecologique"; "transition énergétique";
  "transition energetique";
  "esg"; "csr"; "sustainability"; "sustainable"; "sustainable development"
]%string.

Definition CARBON_KEYWORDS : list str := map pystr [
  "bilan carbone"; "empreinte carbone"; "émissions de co2";
  "emissions de co2"; "émissions carbone"; "emissions carbone";
  "gaz à effet de serre"; "gaz a effet de serre";
  "co2"; "réduction des émissions"; "reduction des emissions";
  "neutralité carbone"; "neutralite carbone";
  "décarbonation"; "decarbonation";
  "scope 1"; "scope 2"; "scope 3"
]%string.

Definition GREEN_IT_KEYWORDS : list str := map pystr [
  "numérique responsable"; "numerique responsable";
  "éco-conception"; "eco-conception"; "eco conception";
  "site éco-conçu"; "site eco-concu";
  "green it";
  "hébergement vert"; "hebergement vert";
  "hébergement écologique"; "hebergement ecologique";
  "data center vert";
  "sobriété numérique"; "sobriete numerique"
]%string.

Definition MAX_PAGES : Z := 20.
Definition REQUEST_TIMEOUT : Z := 10.
Definition USER_AGENT : str :=
  pystr "CarbonPOCBot/0.1 (+for research & prospecting)".

Definition DEFAULT_WEIGHT_MULTIPLIER : float := float_lit 3 1.
Definition DEFAULT_ENERGY_PER_GB_KWH : float := float_lit 5 10.
Definition DEFAULT_CARBON_INTENSITY_G_PER_KWH : float := float_lit 300 1.

(* ===================================================================== *)
(** * Keyword scorer: [count_keywords], [analyze_text] *)
(* ===================================================================== *)

Record text_scores := {
  ts_rse_hits : Z;
  ts_carbon_hits : Z;
  ts_green_it_hits : Z;
  ts_rse_score : Z;
  ts_carbon_score : Z;
  ts_green_it_score : Z
}.

(** The inner function of [analyze_text]; [max_hits] defaults to 20 and
    every call of the program leaves it at that. *)
Definition score_from_hits (hits max_hits : Z) : Z :=
  if hits <=? 0 then 0
  else if hits >=? max_hits then 100
  else int_of_float (fmul (int_truediv hits max_hits) (to_float 100)).

Section Scorer.
Context {B : Builtins}.

(** The body of the [for kw in keywords] loop, [count] being the running
    total. *)
Fixpoint count_keywords_loop (text_lower : str) (keywords : list str)
    (count : Z) : Z :=
  match keywords with
  | [] => count
  | kw :: rest =>
      let kw_lower := str_lower kw in
      let count :=
        if str_in kw_lower text_lower
        then count + str_count text_lower kw_lower
        else count in
      count_keywords_loop text_lower rest count
  end.

Definition count_keywords (text : str) (keywords : list str) : Z :=
  let text_lower := str_lower text in
  count_keywords_loop text_lower keywords 0.

Definition analyze_text (text : str) : text_scores :=
  let rse_hits := count_keywords text RSE_KEYWORDS in
  let carbon_hits := count_keywords text CARBON_KEYWORDS in
  let green_it_hits := count_keywords text GREEN_IT_KEYWORDS in
  {| ts_rse_hits := rse_hits;
     ts_carbon_hits := carbon_hits;
     ts_green_it_hits := green_it_hits;
     ts_rse_score := score_from_hits rse_hits 20;
     ts_carbon_score := score_from_hits carbon_hits 20;
     ts_green_it_score := score_from_hits green_it_hits 20 |}.

End Scorer.

(* ===================================================================== *)
(** * Third-party calls and the network *)
(* ===================================================================== *)

(** What the program reads of [urlparse(u)]. *)
Record url_parts := {
  scheme : str;
  netloc : str
}.

(** The results of the library calls the program makes, as functions of
    their arguments:
    - [urlparse(u)] and [urljoin(base, href)], which raise [ValueError]
      on a URL they reject (a network location with an unmatched square
      bracket, for one);
    - [tldextract.extract(x)], of which the program reads [domain] and
      [suffix];
    - the queries on [BeautifulSoup(html, "html.parser")]: for each
      [a] of [find_all("a", href=True)] its [href] and [get_text()]; the
      title text when the document has a title; [len(find_all(tag))];
      the [rel] lists of [find_all("link", rel=True)]; the [style] values
      of [find_all(style=True)]; the [href] values of
      [find_all("link", href=True)]; and [get_text(separator=" ")] once
      the [script], [style] and [noscript] elements are removed;
    - group 1 of [re.search(r"font-family\s*:\s*([^;]+)", style)]. *)
Class WebLibs := {
  urlparse : str -> result url_parts;
  urljoin : str -> str -> result str;
  tld_domain : str -> str;
  tld_suffix : str -> str;
  soup_anchors : str -> list (str * str);
  soup_title : str -> option str;
  soup_count : string -> str -> Z;
  soup_link_rels : str -> list (list str);
  soup_styles : str -> list str;
  soup_link_hrefs : str -> list str;
  soup_visible_text : str -> str;
  re_font_family : str -> option str
}.

(** What [requests.get(url, headers=..., timeout=REQUEST_TIMEOUT)] gives:
    an exception, or a response with its status code, its [Content-Type]
    header when it has one, and its decoded body. *)
Inductive http_outcome :=
| HttpException
| HttpResponse (status_code : Z) (content_type : option str) (text : str).

Class Network := {
  requests_get : str -> http_outcome
}.

(* ===================================================================== *)
(** * FONCTIONS TECHNIQUES *)
(* ===================================================================== *)

(** [f"{a}.{b}"] *)
Definition dotted (a b : str) : str := a ++ pystr "." ++ b.

(** [sep.join(parts)] *)
Fixpoint str_join (sep : str) (parts : list str) : str :=
  match parts with
  | [] => []
  | [p] => p
  | p :: rest => p ++ sep ++ str_join sep rest
  end.

(** Truth value of an optional string: [None] and [""] are false. *)
Definition truthy (o : option str) : option str :=
  match o with
  | Some (c :: s) => Some (c :: s)
  | _ => None
  end.

Record page_info := {
  pi_url : str;
  pi_title : str;
  pi_html_kb : float;
  pi_num_images : Z;
  pi_num_scripts : Z;
  pi_num_stylesheets : Z;
  pi_headings_h1 : Z;
  pi_headings_h2 : Z;
  pi_headings_h3 : Z;
  pi_num_inline_fonts : Z;
  pi_font_resources : gset str;
  pi_text : str;
  pi_scores : text_scores
}.

(** The values held by the dictionaries the program returns. *)
Inductive value :=
| VNone
| VBool (b : bool)
| VInt (n : Z)
| VFloat (x : float)
| VStr (s : str)
| VPages (ps : list page_info)
| VDict (d : gmap string value).

Abbreviation dict := (gmap string value).

(** The stems scored by [find_candidate_links]. *)
Definition link_stems : list str := map pystr [
  "rse"; "responsabilite"; "responsabilité";
  "developpement-durable"; "developpement durable";
  "durable"; "environnement"; "carbone"; "co2";
  "csr"; "sustainab"
]%string.

(** [sorted(links, key=lambda x: x[1], reverse=True)]: a stable sort by
    decreasing score; an element is inserted before the first element
    whose score is not larger, hence before its equals that came later. *)
Fixpoint insert_by_score (x : str * Z) (l : list (str * Z)) : list (str * Z) :=
  match l with
  | [] => [x]
  | y :: l' => if x.2 <? y.2 then y :: insert_by_score x l' else x :: l
  end.

Definition sorted_by_score (links : list (str * Z)) : list (str * Z) :=
  foldr insert_by_score [] links.

(** The [for url, sc in links] loop of [find_candidate_links]. *)
Fixpoint rank_loop (max_links : Z) (links : list (str * Z))
    (seen : gset str) (ranked_links : list str) : list str :=
  match links with
  | [] => ranked_links
  | (url, sc) :: rest =>
      let '(seen, ranked_links) :=
        if bool_decide (url ∉ seen)
        then ({[url]} ∪ seen, ranked_links ++ [url])
        else (seen, ranked_links) in
      if Z.of_nat (length ranked_links) >=? max_links then ranked_links
      else rank_loop max_links rest seen ranked_links
  end.

Section Program.
Context {B : Builtins} {L : WebLibs} {N : Network}.

Definition normalize_base_url (url : str) : result str :=
  let url :=
    if negb (startswith url (pystr "http")) then pystr "https://" ++ url
    else url in
  try! parsed := urlparse url in
  let base := scheme parsed ++ pystr "://" ++ netloc parsed in
  Ok base.

Definition is_internal_link (link base_domain : str) : result bool :=
  match link with
  | [] => Ok false
  | _ :: _ =>
      try! parsed := urlparse link in
      match netloc parsed with
      | [] => Ok true
      | _ :: _ =>
          let domain :=
            dotted (tld_domain (netloc parsed)) (tld_suffix (netloc parsed)) in
          Ok (bool_decide (domain = base_domain))
      end
  end.

Definition fetch_page (url : str) : option str :=
  match requests_get url with
  | HttpResponse status_code content_type text =>
      if (status_code =? 200)
         && str_in (pystr "text/html") (default [] content_type)
      then Some text
      else None
  | HttpException => None
  end.

Definition extract_text (html : str) : str :=
  let text := soup_visible_text html in
  let text := collapse_spaces false text in
  strip text.

(** The score of one link: 5 for each stem found in the URL or in the
    anchor text. *)
Fixpoint link_score_loop (url_lower text : str) (stems : list str)
    (score : Z) : Z :=
  match stems with
  | [] => score
  | kw :: rest =>
      let score :=
        if str_in kw url_lower || str_in kw text then score + 5 else score in
      link_score_loop url_lower text rest score
  end.

(** The [for a in soup.find_all("a", href=True)] loop: the links it
    appends, in order; an exception of [urljoin] or of [is_internal_link]
    ends it. *)
Fixpoint collect_links (base_url base_domain : str)
    (anchors : list (str * str)) : result (list (str * Z)) :=
  match anchors with
  | [] => Ok []
  | (href, a_text) :: rest =>
      try! full_url := urljoin base_url href in
      try! internal := is_internal_link full_url base_domain in
      if negb internal
      then collect_links base_url base_domain rest
      else
        let text := str_lower a_text in
        let url_lower := str_lower full_url in
        let score := link_score_loop url_lower text link_stems 0 in
        try! links := collect_links base_url base_domain rest in
        Ok ((full_url, score) :: links)
  end.

Definition find_candidate_links (base_url html : str) (max_links : Z)
    : result (list str) :=
  let base_domain := dotted (tld_domain base_url) (tld_suffix base_url) in
  try! links := collect_links base_url base_domain (soup_anchors html) in
  let links := sorted_by_score links in
  Ok (rank_loop max_links links ∅ []).

Definition analyze_page (html url : str) : result page_info :=
  let title := default [] (soup_title html) in
  let headings_h1 := soup_count "h1" html in
  let headings_h2 := soup_count "h2" html in
  let headings_h3 := soup_count "h3" html in
  let num_images := soup_count "img" html in
  let num_scripts := soup_count "script" html in
  let stylesheets :=
    filter (fun rel => pystr "stylesheet" ∈ map str_lower rel)
      (soup_link_rels html) in
  let num_stylesheets := Z.of_nat (length stylesheets) in
  try! html_bytes := utf8_len html in
  let html_kb := py_round (int_truediv html_bytes 1024) 1 in
  let font_families : gset str :=
    list_to_set
      (omap (fun style => strip <$> re_font_family (str_lower style))
         (soup_styles html)) in
  let font_resources : gset str :=
    list_to_set
      (filter (fun href =>
                 str_in (pystr "fonts.googleapis.com") (str_lower href)
                 || str_in (pystr "font") (str_lower href))
         (soup_link_hrefs html)) in
  let num_inline_fonts := Z.of_nat (size font_families) in
  let text := extract_text html in
  let text_scores := analyze_text text in
  Ok
  {| pi_url := url;
     pi_title := title;
     pi_html_kb := html_kb;
     pi_num_images := num_images;
     pi_num_scripts := num_scripts;
     pi_num_stylesheets := num_stylesheets;
     pi_headings_h1 := headings_h1;
     pi_headings_h2 := headings_h2;
     pi_headings_h3 := headings_h3;
     pi_num_inline_fonts := num_inline_fonts;
     pi_font_resources := font_resources;
     pi_text := text;
     pi_scores := text_scores |}.

End Program.

(* ===================================================================== *)
(** * [analyze_website] *)
(* ===================================================================== *)

(** [sum] and [max] over [int]s.  [max] of an empty sequence raises; the
    program takes it over [pages_data], which always holds the home page,
    and the model answers 0 there. *)
Definition py_sum (l : list Z) : Z := foldl Z.add 0 l.

Definition py_max (l : list Z) : Z :=
  match l with
  | [] => 0
  | x :: l' => foldl Z.max x l'
  end.

Section Crawl.
Context {B : Builtins} {L : WebLibs} {N : Network}.

(** The [for link in candidate_links] loop. *)
Fixpoint crawl_loop (max_pages : Z) (candidate_links : list str)
    (visited : gset str) (pages_data : list page_info)
    : result (list page_info) :=
  match candidate_links with
  | [] => Ok pages_data
  | link :: rest =>
      if Z.of_nat (length pages_data) >=? max_pages then Ok pages_data
      else if bool_decide (link ∈ visited)
      then crawl_loop max_pages rest visited pages_data
      else
        let visited := {[link]} ∪ visited in
        match truthy (fetch_page link) with
        | None => crawl_loop max_pages rest visited pages_data
        | Some html =>
            try! page_info := analyze_page html link in
            crawl_loop max_pages rest visited (pages_data ++ [page_info])
        end
  end.

(** The dictionary returned when the home page cannot be fetched. *)
Definition failed_report (base_url : str) : result dict :=
  try! parsed := urlparse base_url in
  Ok (list_to_map [
    ("domain", VStr (netloc parsed));
    ("url", VStr base_url);
    ("error", VStr (pystr "Impossible de récupérer la page d'accueil"));
    ("pages_details", VPages [])
  ]%string).

(** The part of [analyze_website] after the crawl loop. *)
Definition site_report (base_url domain : str) (pages_data : list page_info)
    : dict :=
  let total_rse_hits := py_sum (map (ts_rse_hits ∘ pi_scores) pages_data) in
  let total_carbon_hits :=
    py_sum (map (ts_carbon_hits ∘ pi_scores) pages_data) in
  let total_green_it_hits :=
    py_sum (map (ts_green_it_hits ∘ pi_scores) pages_data) in
  let has_bilan_carbone_explicit :=
    existsb (fun p => str_in (pystr "bilan carbone") (str_lower (pi_text p)))
      pages_data in
  let has_rse_content := 0 <? total_rse_hits in
  let has_carbon_mentions := 0 <? total_carbon_hits in
  let has_green_it := 0 <? total_green_it_hits in
  let global_rse_score := py_max (map (ts_rse_score ∘ pi_scores) pages_data) in
  let global_carbon_score :=
    py_max (map (ts_carbon_score ∘ pi_scores) pages_data) in
  let global_green_it_score :=
    py_max (map (ts_green_it_score ∘ pi_scores) pages_data) in
  let pages_scanned := Z.of_nat (length pages_data) in
  let total_html_kb := sum_floats (map pi_html_kb pages_data) in
  let avg_html_kb :=
    if 0 <? pages_scanned
    then py_round (fdiv total_html_kb (to_float pages_scanned)) 1
    else S754_zero false in
  let total_images := py_sum (map pi_num_images pages_data) in
  let total_scripts := py_sum (map pi_num_scripts pages_data) in
  let total_stylesheets := py_sum (map pi_num_stylesheets pages_data) in
  let total_h1 := py_sum (map pi_headings_h1 pages_data) in
  let total_h2 := py_sum (map pi_headings_h2 pages_data) in
  let total_h3 := py_sum (map pi_headings_h3 pages_data) in
  let all_font_resources : gset str :=
    ⋃ (map pi_font_resources pages_data) in
  let num_font_resources := Z.of_nat (size all_font_resources) in
  let summary_parts :=
    [ if has_rse_content
      then pystr "L'entreprise communique sur la RSE / l'environnement."
      else pystr "Aucun contenu RSE clair trouvé sur les pages analysées.";
      if has_carbon_mentions
      then
        if has_bilan_carbone_explicit
        then pystr "Mention explicite d'un bilan carbone."
        else pystr "Mention d'émissions carbone / CO2, sans bilan carbone clairement identifié."
      else pystr "Aucune mention significative de carbone / CO2 trouvée.";
      if has_green_it
      then pystr "Des éléments de numérique responsable / green IT sont mentionnés."
      else pystr "Pas de mention de numérique responsable / site éco-conçu détectée.";
      pystr "Crawl de " ++ str_of_int pages_scanned ++ pystr " pages pour "
        ++ format_1f total_html_kb ++ pystr " Ko de HTML (moyenne "
        ++ format_1f avg_html_kb ++ pystr " Ko/page)." ] in
  let summary := str_join (pystr " ") summary_parts in
  list_to_map [
    ("domain", VStr domain);
    ("url", VStr base_url);
    ("pages_scanned", VInt pages_scanned);
    ("has_rse_content", VBool has_rse_content);
    ("has_carbon_mentions", VBool has_carbon_mentions);
    ("has_bilan_carbone_explicit", VBool has_bilan_carbone_explicit);
    ("has_green_it", VBool has_green_it);
    ("global_rse_score", VInt global_rse_score);
    ("global_carbon_score", VInt global_carbon_score);
    ("global_green_it_score", VInt global_green_it_score);
    ("total_rse_hits", VInt total_rse_hits);
    ("total_carbon_hits", VInt total_carbon_hits);
    ("total_green_it_hits", VInt total_green_it_hits);
    ("total_html_kb", VFloat total_html_kb);
    ("avg_html_kb", VFloat avg_html_kb);
    ("total_images", VInt total_images);
    ("total_scripts", VInt total_scripts);
    ("total_stylesheets", VInt total_stylesheets);
    ("total_h1", VInt total_h1);
    ("total_h2", VInt total_h2);
    ("total_h3", VInt total_h3);
    ("num_font_resources", VInt num_font_resources);
    ("summary", VStr summary);
    ("pages_details", VPages pages_data)
  ]%string.

(** The pages the crawl analyses: the home page, then the candidates. *)
Definition crawl_pages (base_url html_home : str) (max_pages : Z)
    : result (list page_info) :=
  try! home_info := analyze_page html_home base_url in
  try! candidate_links := find_candidate_links base_url html_home 50 in
  let visited : gset str := {[base_url]} in
  let pages_data := [home_info] in
  crawl_loop max_pages candidate_links visited pages_data.

Definition analyze_website (url : str) (max_pages : Z) : result dict :=
  try! base_url := normalize_base_url url in
  let html_home := fetch_page base_url in
  match truthy html_home with
  | None => failed_report base_url
  | Some html_home =>
      let domain := dotted (tld_domain base_url) (tld_suffix base_url) in
      try! pages_data := crawl_pages base_url html_home max_pages in
      Ok (site_report base_url domain pages_data)
  end.

(** The candidates the loop fetches: those not visited before, an earlier
    occurrence included. *)
Fixpoint fresh_links (candidate_links : list str) (visited : gset str)
    : list str :=
  match candidate_links with
  | [] => []
  | link :: rest =>
      if bool_decide (link ∈ visited) then fresh_links rest visited
      else link :: fresh_links rest ({[link]} ∪ visited)
  end.

(** Those of them whose fetch gives a page. *)
Definition fetched_links (candidate_links : list str) (visited : gset str)
    : list str :=
  filter (fun link => is_Some (truthy (fetch_page link)))
    (fresh_links candidate_links visited).

(** [p] is the record of the page fetched at [link]. *)
Definition page_of (link : str) (p : page_info) : Prop :=
  exists html,
    truthy (fetch_page link) = Some html /\ analyze_page html link = Ok p.

End Crawl.

(** [m] is the largest element of [l]. *)
Definition is_maximum (m : Z) (l : list Z) : Prop :=
  m ∈ l /\ forall x, x ∈ l -> x <= m.

(* ===================================================================== *)
(** * [estimate_site_carbon] *)
(* ===================================================================== *)

(** [v * w] for a dictionary value [v] and a float [w]. *)
Definition value_times_float (v : value) (w : float) : result float :=
  match v with
  | VFloat x => Ok (fmul x w)
  | VInt n => try! x := float_of_int n in Ok (fmul x w)
  | VBool b => Ok (fmul (to_float (if b then 1 else 0)) w)
  | VNone | VStr _ | VPages _ | VDict _ => Raise TypeError
  end.

(** The local variables of [estimate_site_carbon] when it returns. *)
Record carbon_locals := {
  avg_kb_per_page : float;
  gb_per_view : float;
  kwh_per_view : float;
  gco2_per_view : float;
  monthly_gco2 : float;
  monthly_kgco2 : float;
  yearly_kgco2 : float
}.

Definition carbon_chain (avg_html_kb : value) (monthly_page_views : Z)
    (weight_multiplier energy_per_gb_kwh carbon_intensity_g_per_kwh : float)
    : result carbon_locals :=
  try! avg_kb_per_page := value_times_float avg_html_kb weight_multiplier in
  let gb_per_view := fdiv avg_kb_per_page (to_float (1024 * 1024)) in
  let kwh_per_view := fmul gb_per_view energy_per_gb_kwh in
  let gco2_per_view := fmul kwh_per_view carbon_intensity_g_per_kwh in
  try! views := float_of_int monthly_page_views in
  let monthly_gco2 := fmul gco2_per_view views in
  let monthly_kgco2 := fdiv monthly_gco2 (to_float 1000) in
  let yearly_kgco2 := fmul monthly_kgco2 (to_float 12) in
  Ok {| avg_kb_per_page := avg_kb_per_page;
        gb_per_view := gb_per_view;
        kwh_per_view := kwh_per_view;
        gco2_per_view := gco2_per_view;
        monthly_gco2 := monthly_gco2;
        monthly_kgco2 := monthly_kgco2;
        yearly_kgco2 := yearly_kgco2 |}.

(** The dictionary [estimate_site_carbon] returns. *)
Definition carbon_result (l : carbon_locals) (monthly_page_views : Z)
    (weight_multiplier energy_per_gb_kwh carbon_intensity_g_per_kwh : float)
    : dict :=
  list_to_map [
    ("avg_kb_per_page", VFloat (py_round (avg_kb_per_page l) 1));
    ("gco2_per_page_view", VFloat (py_round (gco2_per_view l) 4));
    ("monthly_kgco2", VFloat (py_round (monthly_kgco2 l) 2));
    ("yearly_kgco2", VFloat (py_round (yearly_kgco2 l) 2));
    ("assumptions", VDict (list_to_map [
       ("monthly_page_views", VInt monthly_page_views);
       ("weight_multiplier", VFloat weight_multiplier);
       ("energy_per_gb_kwh", VFloat energy_per_gb_kwh);
       ("carbon_intensity_g_per_kwh", VFloat carbon_intensity_g_per_kwh)
     ]))
  ]%string.

Definition estimate_site_carbon (site_result : dict) (monthly_page_views : Z)
    (weight_multiplier energy_per_gb_kwh carbon_intensity_g_per_kwh : float)
    : result dict :=
  match site_result !! "avg_html_kb"%string with
  | None | Some VNone =>
      Raise (ValueError
               (pystr "Le résultat du site ne contient pas 'avg_html_kb'."))
  | Some avg_html_kb =>
      try! l := carbon_chain avg_html_kb monthly_page_views weight_multiplier
                  energy_per_gb_kwh carbon_intensity_g_per_kwh in
      Ok (carbon_result l monthly_page_views weight_multiplier
            energy_per_gb_kwh carbon_intensity_g_per_kwh)
  end.

(** The call with the default model constants. *)
Definition estimate_site_carbon_default (site_result : dict)
    (monthly_page_views : Z) : result dict :=
  estimate_site_carbon site_result monthly_page_views
    DEFAULT_WEIGHT_MULTIPLIER DEFAULT_ENERGY_PER_GB_KWH
    DEFAULT_CARBON_INTENSITY_G_PER_KWH.


(* ===================================================================== *)
(** * Reading values off floats and dictionaries *)
(* ===================================================================== *)

(** The rational number a finite float stands for. *)
Definition float_Q (x : float) : Q :=
  match x with
  | S754_finite s m e =>
      let a := if s then Z.neg m else Z.pos m in
      if 0 <=? e then inject_Z (a * 2 ^ e) else a # Z.to_pos (2 ^ (- e))
  | _ => 0%Q
  end.

(** [d] holds the float [x], as one of its values or as a value of one of
    its nested dictionaries. *)
Definition exposes (d : dict) (x : float) : Prop :=
  (exists k, d !! k = Some (VFloat x))
  \/ (exists k d' k', d !! k = Some (VDict d') /\ d' !! k' = Some (VFloat x)).

(** A site report that holds an average page size only. *)
Definition report_with_avg (avg_html_kb : float) : dict :=
  {[ "avg_html_kb"%string := VFloat avg_html_kb ]}.

(* ===================================================================== *)
(** * Reference libraries for the worked examples *)
(* ===================================================================== *)

(** The examples below run the program on concrete pages.  They use the
    following instances of the interfaces, which give the libraries'
    answers on the inputs of the examples:
    - [str.lower] on code points below 256 (Basic Latin and Latin-1), and
      [sum] by additions from the left;
    - [urlparse] and [urljoin] on URLs made of a scheme, a host and a
      path, [tldextract] with the public suffixes [com], [org], [net],
      [fr], [uk] and [co.uk];
    - the parser on documents made of text and of
      [<a href='...'>...</a>] elements only;
    - a network given by the table of its pages. *)

Definition latin1_lower (c : N) : N :=
  if ((65 <=? c) && (c <=? 90)
      || (192 <=? c) && (c <=? 222) && negb (c =? 215))%N
  then (c + 32)%N else c.

Definition ref_builtins : Builtins := {|
  str_lower := map latin1_lower;
  sum_floats := foldl fadd (to_float 0)
|}.

Definition is_ascii_letter (c : N) : bool :=
  ((65 <=? c) && (c <=? 90) || (97 <=? c) && (c <=? 122))%N.

Definition is_scheme_char (c : N) : bool :=
  (is_ascii_letter c || (48 <=? c) && (c <=? 57)
   || (c =? 43) || (c =? 45) || (c =? 46))%N.

(** The code points before the first one that satisfies [stop], and the
    rest from that one on. *)
Fixpoint split_at (stop : N -> bool) (s : str) : str * str :=
  match s with
  | [] => ([], [])
  | c :: s' =>
      if stop c then ([], s)
      else let '(a, b) := split_at stop s' in (c :: a, b)
  end.

(** [urlsplit]: the scheme (when the text before the first colon is one)
    and what follows it. *)
Definition ref_split_scheme (url : str) : str * str :=
  match split_at (N.eqb 58) url with
  | (c :: pre, _ :: rest) =>
      if is_ascii_letter c && forallb is_scheme_char pre
      then (map latin1_lower (c :: pre), rest)
      else ([], url)
  | _ => ([], url)
  end.

Definition is_netloc_end (c : N) : bool :=
  ((c =? 47) || (c =? 63) || (c =? 35))%N.

(** The network location and what follows it. *)
Definition ref_split_netloc (rest : str) : str * str :=
  if startswith rest (pystr "//")
  then split_at is_netloc_end (drop 2 rest)
  else ([], rest).

Definition ref_scheme (url : str) : str := (ref_split_scheme url).1.
Definition ref_netloc (url : str) : str :=
  (ref_split_netloc (ref_split_scheme url).2).1.

(** [urlparse]: a network location with one of the two square brackets
    only is rejected. *)
Definition ref_urlparse (url : str) : result url_parts :=
  let loc := ref_netloc url in
  if xorb (bool_decide (91%N ∈ loc)) (bool_decide (93%N ∈ loc))
  then Raise (ValueError (pystr "Invalid IPv6 URL"))
  else Ok {| scheme := ref_scheme url; netloc := loc |}.

(** [urljoin] for a base [scheme://host] and a reference that is a full
    URL, starts with [//], [/], [?] or [#], is empty, or is a plain
    relative path; it parses both, and raises as [urlparse] does. *)
Definition ref_urljoin (base href : str) : result str :=
  match base, href with
  | [], _ => Ok href
  | _, [] => Ok base
  | _, c :: _ =>
      try! b := ref_urlparse base in
      try! h := ref_urlparse href in
      if negb (bool_decide (scheme h = [])) then Ok href
      else if startswith href (pystr "//")
      then Ok (scheme b ++ pystr ":" ++ href)
      else
        let root := scheme b ++ pystr "://" ++ netloc b in
        if (c =? 47)%N then Ok (root ++ href)
        else if ((c =? 63) || (c =? 35))%N then Ok (base ++ href)
        else Ok (root ++ pystr "/" ++ href)
  end.

(** [s.split(".")] *)
Fixpoint split_dots (s : str) : list str :=
  match s with
  | [] => [[]]
  | c :: s' =>
      if (c =? 46)%N then [] :: split_dots s'
      else
        match split_dots s' with
        | l :: ls => (c :: l) :: ls
        | [] => [[c]]
        end
  end.

Definition ref_suffixes : list (list str) :=
  map (fun s => split_dots (pystr s)) ["co.uk"; "com"; "org"; "net"; "fr"; "uk"]%string.

(** The host [tldextract] works on: the network location of a URL, or the
    argument itself when it has no scheme, without the port. *)
Definition ref_host (x : str) : str :=
  let loc := match ref_netloc x with
             | [] => (split_at is_netloc_end x).1
             | loc => loc
             end in
  map latin1_lower (split_at (N.eqb 58) loc).1.

(** The labels before the longest public suffix, and that suffix. *)
Fixpoint split_suffix (labels : list str) : list str * list str :=
  match labels with
  | [] => ([], [])
  | l :: ls =>
      if bool_decide (labels ∈ ref_suffixes) then ([], labels)
      else let '(a, b) := split_suffix ls in (l :: a, b)
  end.

Definition ref_tld_domain (x : str) : str :=
  default [] (last (split_suffix (split_dots (ref_host x))).1).

Definition ref_tld_suffix (x : str) : str :=
  str_join (pystr ".") (split_suffix (split_dots (ref_host x))).2.

(** The nodes of a parsed document. *)
Inductive soup_node :=
| TextNode (t : str)
| AnchorNode (href t : str).

Inductive parse_state :=
| InText (acc : str)
| InHref (acc : str)
| InAnchor (href acc : str).

Definition text_node (acc : str) : list soup_node :=
  match acc with
  | [] => []
  | _ => [TextNode acc]
  end.

(** [skip] code points of an opening or closing tag are still to pass. *)
Fixpoint ref_parse (skip : nat) (st : parse_state) (s : str)
    : list soup_node :=
  match s with
  | [] =>
      match st with
      | InText acc => text_node acc
      | _ => []
      end
  | c :: s' =>
      match skip with
      | S k => ref_parse k st s'
      | O =>
          match st with
          | InText acc =>
              if startswith s (pystr "<a href='")
              then text_node acc ++ ref_parse 8 (InHref []) s'
              else ref_parse 0 (InText (acc ++ [c])) s'
          | InHref acc =>
              if startswith s (pystr "'>")
              then ref_parse 1 (InAnchor acc []) s'
              else ref_parse 0 (InHref (acc ++ [c])) s'
          | InAnchor href acc =>
              if startswith s (pystr "</a>")
              then AnchorNode href acc :: ref_parse 3 (InText []) s'
              else ref_parse 0 (InAnchor href (acc ++ [c])) s'
          end
      end
  end.

Definition ref_soup (html : str) : list soup_node :=
  ref_parse 0 (InText []) html.

Definition ref_anchors (html : str) : list (str * str) :=
  omap (fun n => match n with
                 | AnchorNode href t => Some (href, t)
                 | TextNode _ => None
                 end) (ref_soup html).

Definition ref_visible_text (html : str) : str :=
  str_join (pystr " ")
    (omap (fun n => match n with
                    | TextNode t => Some t
                    | AnchorNode _ [] => None
                    | AnchorNode _ t => Some t
                    end) (ref_soup html)).

Definition ref_weblibs : WebLibs := {|
  urlparse := ref_urlparse;
  urljoin := ref_urljoin;
  tld_domain := ref_tld_domain;
  tld_suffix := ref_tld_suffix;
  soup_anchors := ref_anchors;
  soup_title := fun _ => None;
  soup_count := fun _ _ => 0;
  soup_link_rels := fun _ => [];
  soup_styles := fun _ => [];
  soup_link_hrefs := fun _ => [];
  soup_visible_text := ref_visible_text;
  re_font_family := fun _ => None
|}.

(** A network that serves the pages of a table as HTML, and fails on
    every other URL. *)
Fixpoint table_get (pages : list (str * http_outcome)) (url : str)
    : http_outcome :=
  match pages with
  | [] => HttpException
  | (u, o) :: rest => if bool_decide (u = url) then o else table_get rest url
  end.

Definition table_network (pages : list (str * http_outcome)) : Network :=
  {| requests_get := table_get pages |}.

Definition html_page (body : string) : http_outcome :=
  HttpResponse 200 (Some (pystr "text/html; charset=utf-8")) (pystr body).

(** A network on which an empty body is a failure. *)
Definition blank_as_failure (N : Network) : Network := {|
  requests_get url :=
    match @requests_get N url with
    | HttpResponse _ _ [] => HttpException
    | o => o
    end
|}.

(** [s * n] *)
Fixpoint str_repeat (n : nat) (s : str) : str :=
  match n with
  | O => []
  | S n' => s ++ str_repeat n' s
  end.

(** The networks of the examples: one that serves nothing; one whose home
    page is an empty HTML response; and a small site whose home page links
    to a page about RSE, to a missing page and to an empty one. *)
Definition dead_network : Network := table_network [].

Definition blank_network : Network :=
  table_network [ (pystr "https://example.com", html_page "") ].

Definition demo_network : Network :=
  table_network [
    (pystr "https://example.com",
     html_page "Bilan Carbone <a href='/rse'>Notre RSE</a><a href='/gone'>Contact</a><a href='/blank'>Vide</a>");
    (pystr "https://example.com/rse", html_page "rse rse");
    (pystr "https://example.com/gone",
     HttpResponse 404 (Some (pystr "text/html")) (pystr "Not Found"));
    (pystr "https://example.com/blank", html_page "")
  ].

(** A site whose home page holds an anchor that [urljoin] rejects. *)
Definition bracket_network : Network :=
  table_network [
    (pystr "https://example.com", html_page "<a href='//['>x</a>")
  ].

(** The vocabulary the statements about [find_candidate_links] use: a stem
    matches a link when the lowercased URL or the lowercased anchor text
    contains it; the order of the ranking is by decreasing score. *)
Definition stem_matches (url_lower text kw : str) : bool :=
  str_in kw url_lower || str_in kw text.

Definition by_score_desc (p q : str * Z) : Prop := q.2 <= p.2.

(** The document of the ranking examples: six links, two of which match
    a stem, one external and one repeated. *)
Definition demo_links : str :=
  pystr "<a href='/a'>x</a><a href='/bilan-carbone'>y</a><a href='https://other.org/rse'>RSE</a><a href='/b'>Notre RSE</a><a href='/a'>rse</a><a href='/c'>z</a>".

(* ===================================================================== *)
(** * The keys of the dictionaries *)
(* ===================================================================== *)

(** The keys of a report of a crawl, in the order of the dictionary
    literal of [analyze_website], and those of a failure report. *)
Definition REPORT_KEYS : list string := [
  "domain"; "url"; "pages_scanned"; "has_rse_content";
  "has_carbon_mentions"; "has_bilan_carbone_explicit"; "has_green_it";
  "global_rse_score"; "global_carbon_score"; "global_green_it_score";
  "total_rse_hits"; "total_carbon_hits"; "total_green_it_hits";
  "total_html_kb"; "avg_html_kb"; "total_images"; "total_scripts";
  "total_stylesheets"; "total_h1"; "total_h2"; "total_h3";
  "num_font_resources"; "summary"; "pages_details"
]%string.

Definition FAILURE_KEYS : list string :=
  [ "domain"; "url"; "error"; "pages_details" ]%string.

Definition ESTIMATE_KEYS : list string :=
  [ "avg_kb_per_page"; "gco2_per_page_view"; "monthly_kgco2";
    "yearly_kgco2"; "assumptions" ]%string.

(** A text in which white space occurs as single spaces (U+0020) only;
    [prev] tells that the code point before the text is white space. *)
Fixpoint single_spaced (prev : bool) (t : str) : bool :=
  match t with
  | [] => true
  | c :: t' =>
      if is_space c then (c =? 32)%N && negb prev && single_spaced true t'
      else single_spaced false t'
  end.

(* ===================================================================== *)
(** * INTERFACE STREAMLIT: the submit handler *)
(* ===================================================================== *)

(** The exceptions of the handler: [KeyError] for a key a dictionary does
    not hold, besides those of the functions it calls. *)
Inductive ui_exn :=
| KeyError (key : string)
| Other (e : exn).

Definition handler (A : Type) : Type := ui_exn + A.

Definition hbind {A B} (r : handler A) (k : A -> handler B) : handler B :=
  match r with
  | inr a => k a
  | inl e => inl e
  end.

Notation "'do!' x := r 'in' k" := (hbind r (fun x => k))
  (at level 10, x name, r at level 100, k at level 200).

Definition lift {A} (r : result A) : handler A :=
  match r with
  | Ok a => inr a
  | Raise e => inl (Other e)
  end.

(** [d[key]] *)
Definition getitem (d : dict) (key : string) : handler value :=
  match d !! key with
  | Some v => inr v
  | None => inl (KeyError key)
  end.

(** [v == []] *)
Definition is_empty_list (v : value) : bool :=
  match v with
  | VPages [] => true
  | _ => false
  end.

(** [round(v, ndigits)] for [0 <= ndigits]: a float is rounded, an [int]
    or a [bool] gives the [int] itself, anything else has no
    [__round__]. *)
Definition round_value (v : value) (ndigits : Z) : result value :=
  match v with
  | VFloat x => Ok (VFloat (py_round x ndigits))
  | VInt n => Ok (VInt n)
  | VBool b => Ok (VInt (if b then 1 else 0))
  | VNone | VStr _ | VPages _ | VDict _ => Raise TypeError
  end.

(** What the page displays after a submission: an error message, or the
    entries of the report and of the estimate, each under its key and in
    the order in which the page reads them. *)
Inductive display :=
| StError (message : value)
| StReport (shown : list (string * value)).

(** The bounds of the number input for the monthly page views. *)
Definition MIN_MONTHLY_VIEWS : Z := 100.
Definition MAX_MONTHLY_VIEWS : Z := 1000000.

Section Submit.
Context {B : Builtins} {L : WebLibs} {N : Network}.

(** The body of [if submitted:] down to the carbon metrics, for the text
    of the URL input and the value of the number input: the calls it
    makes and its reads of the two dictionaries.  The table of the pages
    and the download button, which come after, are not part of it. *)
Definition on_submit (url_input : str) (monthly_views : Z)
    : handler display :=
  if bool_decide (strip url_input = []) then
    inr (StError (VStr (pystr "Merci d'indiquer une URL valide.")))
  else
    do! site_result := lift (analyze_website url_input MAX_PAGES) in
    do! failed :=
      (if bool_decide ("error"%string ∈ dom site_result)
       then do! pages_details := getitem site_result "pages_details" in
            inr (is_empty_list pages_details)
       else inr false) in
    if (failed : bool) then
      do! message := getitem site_result "error" in
      inr (StError message)
    else
      do! carbon :=
        lift (estimate_site_carbon_default site_result monthly_views) in
      do! summary := getitem site_result "summary" in
      do! global_rse_score := getitem site_result "global_rse_score" in
      do! global_carbon_score := getitem site_result "global_carbon_score" in
      do! global_green_it_score :=
        getitem site_result "global_green_it_score" in
      do! pages_scanned := getitem site_result "pages_scanned" in
      do! total_html_kb := getitem site_result "total_html_kb" in
      do! total_html_kb_shown := lift (round_value total_html_kb 1) in
      do! avg_html_kb := getitem site_result "avg_html_kb" in
      do! total_images := getitem site_result "total_images" in
      do! total_scripts := getitem site_result "total_scripts" in
      do! total_stylesheets := getitem site_result "total_stylesheets" in
      do! avg_kb_per_page := getitem carbon "avg_kb_per_page" in
      do! gco2_per_page_view := getitem carbon "gco2_per_page_view" in
      do! monthly_kgco2 := getitem carbon "monthly_kgco2" in
      do! yearly_kgco2 := getitem carbon "yearly_kgco2" in
      inr (StReport [
        ("summary", summary);
        ("global_rse_score", global_rse_score);
        ("global_carbon_score", global_carbon_score);
        ("global_green_it_score", global_green_it_score);
        ("pages_scanned", pages_scanned);
        ("total_html_kb", total_html_kb_shown);
        ("avg_html_kb", avg_html_kb);
        ("total_images", total_images);
        ("total_scripts", total_scripts);
        ("total_stylesheets", total_stylesheets);
        ("avg_kb_per_page", avg_kb_per_page);
        ("gco2_per_page_view", gco2_per_page_view);
        ("monthly_kgco2", monthly_kgco2);
        ("yearly_kgco2", yearly_kgco2)
      ]%string).

End Submit.
(* ===================================================================== *)
(** * Properties of the string builtins *)
(* ===================================================================== *)

Lemma startswith_nil (s : str) : startswith s [] = true.
Proof. by destruct s. Qed.

Lemma startswith_app (p s : str) : startswith (p ++ s) p = true.
Proof.
  induction p as [|a p IH]; simpl; [apply startswith_nil|].
  by rewrite N.eqb_refl.
Qed.

Lemma str_in_nil (s : str) : str_in [] s = true.
Proof. destruct s; simpl; by rewrite ?startswith_nil. Qed.

Lemma str_in_cons_false (p : str) (c : N) (s : str) :
  str_in p (c :: s) = false -> str_in p s = false.
Proof. simpl. by intros [_ ?]%orb_false_iff. Qed.

Lemma str_in_false_startswith (p s : str) :
  str_in p s = false -> startswith s p = false.
Proof. destruct s; simpl; by intros [? _]%orb_false_iff. Qed.

Lemma count_from_nonneg (p : str) (s : str) (k : nat) : 0 <= count_from p k s.
Proof.
  revert k. induction s as [|c s IH]; intros k; cbn [count_from]; [lia|].
  destruct k; [|apply IH].
  destruct (startswith (c :: s) p); [|apply IH].
  specialize (IH (length p - 1)%nat). lia.
Qed.

Lemma str_count_nonneg (s p : str) : 0 <= str_count s p.
Proof. destruct p; simpl; [lia|apply count_from_nonneg]. Qed.

(** A text that does not contain the pattern has no match, whatever part
    of it is skipped first. *)
Lemma count_from_absent (p s : str) (k : nat) :
  str_in p s = false -> count_from p k s = 0.
Proof.
  revert k. induction s as [|c s IH]; intros k Hin; [done|].
  pose proof (str_in_false_startswith _ _ Hin) as Hsw.
  apply str_in_cons_false in Hin.
  cbn [count_from]. destruct k; [rewrite Hsw|]; by apply IH.
Qed.

Lemma str_count_absent (s p : str) : str_in p s = false -> str_count s p = 0.
Proof.
  destruct p as [|a p]; [by rewrite str_in_nil|].
  apply count_from_absent.
Qed.

(** Skipping [k] code points is dropping them. *)
Lemma count_from_skip (p l s : str) :
  count_from p (length l) (l ++ s) = count_from p 0 s.
Proof. induction l as [|c l IH]; [done|]. simpl. apply IH. Qed.

(** [str.count] counts matches from the left without overlap: a match at
    the head counts for one and the search resumes after it; otherwise
    the search moves on by one code point. *)
Lemma str_count_match (p s : str) :
  p <> [] -> str_count (p ++ s) p = 1 + str_count s p.
Proof.
  destruct p as [|a p]; [done|intros _].
  pose proof (startswith_app (a :: p) s) as Hsw.
  change (count_from (a :: p) 0 ((a :: p) ++ s)
          = 1 + count_from (a :: p) 0 s).
  rewrite <- app_comm_cons in *. cbn [count_from]. rewrite Hsw.
  replace (length (a :: p) - 1)%nat with (length p) by (simpl; lia).
  by rewrite count_from_skip.
Qed.

Lemma str_count_no_match (p s : str) (c : N) :
  startswith (c :: s) p = false -> str_count (c :: s) p = str_count s p.
Proof.
  destruct p as [|a p]; [by rewrite startswith_nil|].
  intros Hsw. unfold str_count. cbn [count_from]. by rewrite Hsw.
Qed.

Lemma str_count_empty_text (p : str) : p <> [] -> str_count [] p = 0.
Proof. by destruct p. Qed.

(* ===================================================================== *)
(** * Keyword scorer *)
(* ===================================================================== *)

Lemma py_sum_from (a : Z) (l : list Z) : foldl Z.add a l = a + py_sum l.
Proof.
  unfold py_sum. revert a.
  induction l as [|x l IH]; intros a; simpl; [lia|].
  rewrite (IH (a + x)), (IH (0 + x)). lia.
Qed.

Lemma py_sum_cons (x : Z) (l : list Z) : py_sum (x :: l) = x + py_sum l.
Proof. unfold py_sum at 1. simpl. apply py_sum_from. Qed.

Lemma py_sum_app (l1 l2 : list Z) : py_sum (l1 ++ l2) = py_sum l1 + py_sum l2.
Proof.
  induction l1 as [|x l1 IH]; [done|].
  rewrite <- app_comm_cons, !py_sum_cons, IH. lia.
Qed.

Lemma py_sum_nonneg (l : list Z) : Forall (fun x => 0 <= x) l -> 0 <= py_sum l.
Proof.
  induction 1 as [|x l Hx _ IH]; [done|]. rewrite py_sum_cons. lia.
Qed.

Section ScorerFacts.
Context {B : Builtins}.

(** The guard [if kw_lower in text_lower] changes nothing: a keyword that
    is absent has a count of 0. *)
Lemma count_keywords_loop_sum (text_lower : str) (keywords : list str)
    (count : Z) :
  count_keywords_loop text_lower keywords count
  = count + py_sum (map (fun kw => str_count text_lower (str_lower kw))
                      keywords).
Proof.
  revert count. induction keywords as [|kw rest IH]; intros count.
  - unfold py_sum. simpl. lia.
  - cbn [count_keywords_loop map]. rewrite IH, py_sum_cons.
    destruct (str_in (str_lower kw) text_lower) eqn:Hin; [lia|].
    rewrite (str_count_absent _ _ Hin). lia.
Qed.

Lemma count_keywords_sum (text : str) (keywords : list str) :
  count_keywords text keywords
  = py_sum (map (fun kw => str_count (str_lower text) (str_lower kw))
              keywords).
Proof. unfold count_keywords. rewrite count_keywords_loop_sum. lia. Qed.

Lemma count_keywords_nonneg (text : str) (keywords : list str) :
  0 <= count_keywords text keywords.
Proof.
  rewrite count_keywords_sum. apply py_sum_nonneg, Forall_map, Forall_forall.
  intros kw _. apply str_count_nonneg.
Qed.

(** No occurrence of any keyword: no hit. *)
Lemma count_keywords_none (text : str) (keywords : list str) :
  (forall kw, kw ∈ keywords -> str_count (str_lower text) (str_lower kw) = 0) ->
  count_keywords text keywords = 0.
Proof.
  intros Hnone. rewrite count_keywords_sum.
  induction keywords as [|kw rest IH]; [done|].
  cbn [map]. rewrite py_sum_cons, Hnone, IH; [done| |left].
  intros kw' Hkw'. apply Hnone. by right.
Qed.

End ScorerFacts.

(** The float arithmetic of [score_from_hits] is exact enough on the 19
    counts strictly between 0 and 20: the truncation is [5 * hits]. *)
Lemma score_from_hits_mid (hits : Z) :
  0 < hits < 20 -> score_from_hits hits 20 = 5 * hits.
Proof.
  intros Hh.
  assert (Hcases : Exists (fun k => hits = k) (seqZ 1 19)).
  { apply Exists_exists. exists hits. split; [|done].
    apply elem_of_seqZ. lia. }
  vm_compute seqZ in Hcases.
  repeat (apply Exists_cons in Hcases as [->|Hcases]; [by vm_compute|]).
  by apply Exists_nil in Hcases.
Qed.

(** The value [int] is applied to is a finite float. *)
Lemma score_arg_finite (hits : Z) :
  0 < hits < 20 ->
  is_finite (fmul (int_truediv hits 20) (to_float 100)) = true.
Proof.
  intros Hh.
  assert (Hcases : Exists (fun k => hits = k) (seqZ 1 19)).
  { apply Exists_exists. exists hits. split; [|done].
    apply elem_of_seqZ. lia. }
  vm_compute seqZ in Hcases.
  repeat (apply Exists_cons in Hcases as [->|Hcases]; [by vm_compute|]).
  by apply Exists_nil in Hcases.
Qed.

Lemma score_from_hits_20 (hits : Z) :
  score_from_hits hits 20
  = if hits <=? 0 then 0 else if 20 <=? hits then 100 else hits * 100 / 20.
Proof.
  destruct (Z.leb_spec hits 0) as [Hle|Hgt].
  - unfold score_from_hits. by rewrite (proj2 (Z.leb_le _ _) Hle).
  - destruct (Z.leb_spec 20 hits) as [Hge|Hlt].
    + unfold score_from_hits.
      rewrite (proj2 (Z.leb_gt _ _) Hgt).
      by rewrite (proj2 (Z.geb_le _ _) Hge).
    + rewrite score_from_hits_mid by lia.
      replace (hits * 100) with (5 * hits * 20) by lia.
      by rewrite Z.div_mul.
Qed.

Lemma score_from_hits_range (hits : Z) : 0 <= score_from_hits hits 20 <= 100.
Proof.
  rewrite score_from_hits_20.
  destruct (Z.leb_spec hits 0); [lia|].
  destruct (Z.leb_spec 20 hits); [lia|].
  split; [apply Z.div_pos; lia|].
  apply Z.div_le_upper_bound; lia.
Qed.

(** ** C2 *)

(** C2. For every text and every keyword list (the three fixed lists among
    them), the raw hit count of [count_keywords] is the sum, over the
    keywords, of the number of non-overlapping occurrences of the
    lowercased keyword in the lowercased text ([aa] occurs twice in
    [aaaa]); [analyze_text] applies it to the three fixed lists; the score
    derived from [hits] is 0 when [hits <= 0], 100 when [hits >= 20] and
    [floor(hits / 20 * 100)] otherwise; 20 hits score 100, 10 hits score
    50, no hit scores 0: a text made of [rse] 20 times has an RSE score of
    100, of [rse] 10 times a score of 50, and a text without any keyword
    has 0 hits and a score of 0. *)
Theorem keyword_scorer_correct `{Builtins} (text : str) (keywords : list str)
    (hits : Z) :
  count_keywords text keywords
  = py_sum (map (fun kw => str_count (str_lower text) (str_lower kw))
              keywords)
  /\ str_count (pystr "aaaa") (pystr "aa") = 2
  /\ analyze_text text
     = {| ts_rse_hits := count_keywords text RSE_KEYWORDS;
          ts_carbon_hits := count_keywords text CARBON_KEYWORDS;
          ts_green_it_hits := count_keywords text GREEN_IT_KEYWORDS;
          ts_rse_score := score_from_hits (count_keywords text RSE_KEYWORDS) 20;
          ts_carbon_score :=
            score_from_hits (count_keywords text CARBON_KEYWORDS) 20;
          ts_green_it_score :=
            score_from_hits (count_keywords text GREEN_IT_KEYWORDS) 20 |}
  /\ score_from_hits hits 20
     = (if hits <=? 0 then 0 else if 20 <=? hits then 100
        else hits * 100 / 20)
  /\ score_from_hits 20 20 = 100
  /\ score_from_hits 10 20 = 50
  /\ score_from_hits 0 20 = 0
  /\ (let s := analyze_text (B:=ref_builtins) (str_repeat 20 (pystr "rse "))
      in ts_rse_hits s = 20 /\ ts_rse_score s = 100)
  /\ (let s := analyze_text (B:=ref_builtins) (str_repeat 10 (pystr "RSE "))
      in ts_rse_hits s = 10 /\ ts_rse_score s = 50)
  /\ (let s := analyze_text (B:=ref_builtins) (pystr "Bonjour le monde")
      in ts_rse_hits s = 0 /\ ts_rse_score s = 0).
Proof.
  split; [apply count_keywords_sum|].
  split; [by vm_compute|].
  split; [reflexivity|].
  split; [apply score_from_hits_20|].
  by vm_compute.
Qed.

(* ===================================================================== *)
(** * Carbon estimator *)
(* ===================================================================== *)

(** Looking a key up in a dictionary written as a literal. *)
Ltac dict_lookup :=
  repeat first
    [ rewrite lookup_insert_eq
    | rewrite lookup_insert_ne by (intros ?; discriminate)
    | rewrite lookup_empty ];
  try reflexivity.

Lemma to_float_small_ok (n : Z) :
  is_finite (to_float n) = true -> float_of_int n = Ok (to_float n).
Proof. unfold float_of_int. by intros ->. Qed.

Lemma estimate_site_carbon_missing (site_result : dict) (views : Z)
    (wm e ci : float) :
  site_result !! "avg_html_kb"%string = None ->
  estimate_site_carbon site_result views wm e ci
  = Raise (ValueError
             (pystr "Le résultat du site ne contient pas 'avg_html_kb'.")).
Proof. unfold estimate_site_carbon. by intros ->. Qed.

Lemma estimate_site_carbon_float (site_result : dict) (avg : float)
    (views : Z) (wm e ci : float) :
  site_result !! "avg_html_kb"%string = Some (VFloat avg) ->
  estimate_site_carbon site_result views wm e ci
  = (try! l := carbon_chain (VFloat avg) views wm e ci in
     Ok (carbon_result l views wm e ci)).
Proof. unfold estimate_site_carbon. by intros ->. Qed.

(** ** C1 *)

(** C1. For every average HTML size, monthly page views and model
    constants, [estimate_site_carbon] computes exactly the chain
    [avgKbPerPage = avgHtmlKb * weightMultiplier],
    [gbPerView = avgKbPerPage / (1024*1024)],
    [kwhPerView = gbPerView * energyPerGbKwh],
    [gco2PerView = kwhPerView * carbonIntensityGPerKwh],
    [monthlyKgCo2 = gco2PerView * monthlyPageViews / 1000],
    [yearlyKgCo2 = monthlyKgCo2 * 12] in binary64 arithmetic, returns
    these figures rounded, and its default constants are 3.0, 0.5 and
    300. *)
Theorem carbon_chain_exact (site_result : dict) (avgHtmlKb : float)
    (monthlyPageViews : Z) (views : float)
    (weightMultiplier energyPerGbKwh carbonIntensityGPerKwh : float) :
  site_result !! "avg_html_kb"%string = Some (VFloat avgHtmlKb) ->
  float_of_int monthlyPageViews = Ok views ->
  let avgKbPerPage := fmul avgHtmlKb weightMultiplier in
  let gbPerView := fdiv avgKbPerPage (to_float (1024 * 1024)) in
  let kwhPerView := fmul gbPerView energyPerGbKwh in
  let gco2PerView := fmul kwhPerView carbonIntensityGPerKwh in
  let monthlyKgCo2 := fdiv (fmul gco2PerView views) (to_float 1000) in
  let yearlyKgCo2 := fmul monthlyKgCo2 (to_float 12) in
  (exists l,
     carbon_chain (VFloat avgHtmlKb) monthlyPageViews weightMultiplier
       energyPerGbKwh carbonIntensityGPerKwh = Ok l
     /\ avg_kb_per_page l = avgKbPerPage
     /\ gb_per_view l = gbPerView
     /\ kwh_per_view l = kwhPerView
     /\ gco2_per_view l = gco2PerView
     /\ monthly_kgco2 l = monthlyKgCo2
     /\ yearly_kgco2 l = yearlyKgCo2)
  /\ (exists r,
        estimate_site_carbon site_result monthlyPageViews weightMultiplier
          energyPerGbKwh carbonIntensityGPerKwh = Ok r
        /\ r !! "avg_kb_per_page"%string
           = Some (VFloat (py_round avgKbPerPage 1))
        /\ r !! "gco2_per_page_view"%string
           = Some (VFloat (py_round gco2PerView 4))
        /\ r !! "monthly_kgco2"%string
           = Some (VFloat (py_round monthlyKgCo2 2))
        /\ r !! "yearly_kgco2"%string
           = Some (VFloat (py_round yearlyKgCo2 2)))
  /\ (float_Q DEFAULT_WEIGHT_MULTIPLIER == 3)%Q
  /\ (float_Q DEFAULT_ENERGY_PER_GB_KWH == 1 # 2)%Q
  /\ (float_Q DEFAULT_CARBON_INTENSITY_G_PER_KWH == 300)%Q
  /\ estimate_site_carbon_default site_result monthlyPageViews
     = estimate_site_carbon site_result monthlyPageViews
         DEFAULT_WEIGHT_MULTIPLIER DEFAULT_ENERGY_PER_GB_KWH
         DEFAULT_CARBON_INTENSITY_G_PER_KWH.
Proof.
  intros Hget Hviews. cbv zeta.
  split; [|split].
  - eexists. split.
    + unfold carbon_chain. cbn [value_times_float bind]. rewrite Hviews.
      cbn [bind]. reflexivity.
    + repeat split; reflexivity.
  - eexists. split.
    + rewrite (estimate_site_carbon_float _ _ _ _ _ _ Hget).
      unfold carbon_chain. cbn [value_times_float bind]. rewrite Hviews.
      cbn [bind]. reflexivity.
    + unfold carbon_result. cbn [list_to_map foldr uncurry fst snd].
      repeat split; dict_lookup.
  - repeat split; reflexivity.
Qed.

(** One input for it: an average of 100 KB and 10000 page views. *)
Lemma carbon_chain_exact_witness :
  exists r,
    estimate_site_carbon (report_with_avg (to_float 100)) 10000
      DEFAULT_WEIGHT_MULTIPLIER DEFAULT_ENERGY_PER_GB_KWH
      DEFAULT_CARBON_INTENSITY_G_PER_KWH = Ok r
    /\ r !! "yearly_kgco2"%string = Some (VFloat (float_lit 515 100)).
Proof.
  destruct (carbon_chain_exact (report_with_avg (to_float 100))
              (to_float 100) 10000 (to_float 10000)
              DEFAULT_WEIGHT_MULTIPLIER DEFAULT_ENERGY_PER_GB_KWH
              DEFAULT_CARBON_INTENSITY_G_PER_KWH)
    as (_ & (r & Hr & _ & _ & _ & Hy) & _).
  - reflexivity.
  - reflexivity.
  - exists r. split; [exact Hr|]. rewrite Hy. reflexivity.
Defined.

(** ** C7 *)

(** The entries of a dictionary literal are those of its list. *)
Lemma lookup_literal (l : list (string * value)) (k : string) (v : value) :
  (list_to_map l : dict) !! k = Some v -> (k, v) ∈ l.
Proof. apply elem_of_list_to_map_2. Qed.

(** The evaluation both statements of C7 rest on. *)
Lemma carbon_example_displayed_aux :
  exists r,
    estimate_site_carbon (report_with_avg (to_float 100)) 10000
      (to_float 3) (float_lit 5 10) (to_float 300) = Ok r
    /\ r !! "gco2_per_page_view"%string = Some (VFloat (float_lit 429 10000))
    /\ r !! "monthly_kgco2"%string = Some (VFloat (float_lit 43 100))
    /\ r !! "yearly_kgco2"%string = Some (VFloat (float_lit 515 100)).
Proof.
  eexists. split; [reflexivity|].
  unfold carbon_result. cbn [list_to_map foldr uncurry fst snd].
  repeat split; dict_lookup.
Qed.

(** C7, as the code has it. For [avgHtmlKb = 100], 10000 page views and
    the constants 3.0, 0.5 and 300, the displayed outputs are
    [avgKbPerPage = 300.0], [gco2PerView = 0.0429], [monthlyKgCo2 = 0.43]
    and [yearlyKgCo2 = 5.15]: the roundings (1, 4, 2 and 2 decimals) of
    the chain values 300, 0.04291534423828125, 0.4291534423828125 and
    5.14984130859375, which the binary64 chain computes exactly. *)
Theorem carbon_example_displayed :
  exists r l,
    estimate_site_carbon (report_with_avg (to_float 100)) 10000
      (to_float 3) (float_lit 5 10) (to_float 300) = Ok r
    /\ carbon_chain (VFloat (to_float 100)) 10000
         (to_float 3) (float_lit 5 10) (to_float 300) = Ok l
    /\ r !! "avg_kb_per_page"%string = Some (VFloat (float_lit 300 1))
    /\ r !! "gco2_per_page_view"%string = Some (VFloat (float_lit 429 10000))
    /\ r !! "monthly_kgco2"%string = Some (VFloat (float_lit 43 100))
    /\ r !! "yearly_kgco2"%string = Some (VFloat (float_lit 515 100))
    /\ (float_Q (avg_kb_per_page l) == 300)%Q
    /\ (float_Q (gco2_per_view l) == 4291534423828125 # 100000000000000000)%Q
    /\ (float_Q (monthly_kgco2 l) == 4291534423828125 # 10000000000000000)%Q
    /\ (float_Q (yearly_kgco2 l) == 514984130859375 # 100000000000000)%Q.
Proof.
  eexists. eexists.
  split; [reflexivity|].
  split; [reflexivity|].
  unfold carbon_result. cbn [list_to_map foldr uncurry fst snd].
  repeat split; dict_lookup.
Qed.

(** C7, as it is stated, fails: each displayed figure is away from the
    stated one by more than half a unit of its last displayed decimal
    (0.0429 against 0.042, 0.43 against 0.42, 5.15 against 5.04). *)
Lemma carbon_example_not_as_stated :
  exists r g m y,
    estimate_site_carbon (report_with_avg (to_float 100)) 10000
      (to_float 3) (float_lit 5 10) (to_float 300) = Ok r
    /\ r !! "gco2_per_page_view"%string = Some (VFloat g)
    /\ r !! "monthly_kgco2"%string = Some (VFloat m)
    /\ r !! "yearly_kgco2"%string = Some (VFloat y)
    /\ (8 # 10000 < Qabs (float_Q g - (42 # 1000)))%Q
    /\ (9 # 1000 < Qabs (float_Q m - (42 # 100)))%Q
    /\ (1 # 10 < Qabs (float_Q y - (504 # 100)))%Q.
Proof.
  destruct carbon_example_displayed_aux as (r & Hr & Hg & Hm & Hy).
  exists r, (float_lit 429 10000), (float_lit 43 100), (float_lit 515 100).
  repeat split; try assumption; reflexivity.
Qed.

(** ** C8 *)

(** C8, as the code has it. For every valid input the result holds
    exactly five entries: the four display values, rounded to 1, 4, 2 and
    2 decimals, and the dictionary of the four assumptions the estimate
    was computed under. *)
Theorem carbon_result_entries (site_result : dict) (avg_html_kb : float)
    (monthly_page_views : Z) (views : float)
    (weight_multiplier energy_per_gb_kwh carbon_intensity_g_per_kwh : float) :
  site_result !! "avg_html_kb"%string = Some (VFloat avg_html_kb) ->
  float_of_int monthly_page_views = Ok views ->
  exists r l a,
    estimate_site_carbon site_result monthly_page_views weight_multiplier
      energy_per_gb_kwh carbon_intensity_g_per_kwh = Ok r
    /\ carbon_chain (VFloat avg_html_kb) monthly_page_views weight_multiplier
         energy_per_gb_kwh carbon_intensity_g_per_kwh = Ok l
    /\ dom r = list_to_set [ "avg_kb_per_page"; "gco2_per_page_view";
                              "monthly_kgco2"; "yearly_kgco2";
                              "assumptions" ]%string
    /\ r !! "avg_kb_per_page"%string
       = Some (VFloat (py_round (avg_kb_per_page l) 1))
    /\ r !! "gco2_per_page_view"%string
       = Some (VFloat (py_round (gco2_per_view l) 4))
    /\ r !! "monthly_kgco2"%string
       = Some (VFloat (py_round (monthly_kgco2 l) 2))
    /\ r !! "yearly_kgco2"%string
       = Some (VFloat (py_round (yearly_kgco2 l) 2))
    /\ r !! "assumptions"%string = Some (VDict a)
    /\ dom a = list_to_set [ "monthly_page_views"; "weight_multiplier";
                              "energy_per_gb_kwh";
                              "carbon_intensity_g_per_kwh" ]%string
    /\ a !! "monthly_page_views"%string = Some (VInt monthly_page_views)
    /\ a !! "weight_multiplier"%string = Some (VFloat weight_multiplier)
    /\ a !! "energy_per_gb_kwh"%string = Some (VFloat energy_per_gb_kwh)
    /\ a !! "carbon_intensity_g_per_kwh"%string
       = Some (VFloat carbon_intensity_g_per_kwh).
Proof.
  intros Hget Hviews.
  rewrite (estimate_site_carbon_float _ _ _ _ _ _ Hget).
  unfold carbon_chain. cbn [value_times_float bind]. rewrite Hviews.
  cbn [bind]. eexists. eexists.
  exists (list_to_map [
    ("monthly_page_views", VInt monthly_page_views);
    ("weight_multiplier", VFloat weight_multiplier);
    ("energy_per_gb_kwh", VFloat energy_per_gb_kwh);
    ("carbon_intensity_g_per_kwh", VFloat carbon_intensity_g_per_kwh)
  ]%string).
  split; [reflexivity|]. split; [reflexivity|].
  unfold carbon_result.
  split; [by rewrite dom_list_to_map_L|].
  do 5 (split; [cbn [list_to_map foldr uncurry fst snd]; dict_lookup|]).
  split; [by rewrite dom_list_to_map_L|].
  cbn [list_to_map foldr uncurry fst snd].
  repeat split; dict_lookup.
Qed.

Lemma carbon_result_entries_witness :
  exists r a,
    estimate_site_carbon (report_with_avg (to_float 100)) 10000
      (to_float 3) (float_lit 5 10) (to_float 300) = Ok r
    /\ r !! "assumptions"%string = Some (VDict a)
    /\ a !! "monthly_page_views"%string = Some (VInt 10000).
Proof.
  destruct (carbon_result_entries (report_with_avg (to_float 100))
              (to_float 100) 10000 (to_float 10000)
              (to_float 3) (float_lit 5 10) (to_float 300))
    as (r & l & a & Hr & _ & _ & _ & _ & _ & _ & Ha & _ & Hv & _).
  - reflexivity.
  - reflexivity.
  - exists r, a. by repeat split.
Defined.

Lemma VDict_inj (d1 d2 : dict) : VDict d1 = VDict d2 -> d1 = d2.
Proof. by intros [= ->]. Qed.

(** An entry of a dictionary literal is either another value than the
    one looked for, or the nested dictionary. *)
Ltac entry_differs H :=
  apply (f_equal snd) in H; cbn [snd] in H;
  lazymatch type of H with
  | VDict ?d = VDict _ => apply VDict_inj in H; subst d
  | _ => vm_compute in H; discriminate H
  end.

(** C8, as it is stated, fails: on the input of C7, the unrounded values
    of [gco2_per_view], [monthly_kgco2] and [yearly_kgco2] are held
    nowhere in the result, neither at the top nor under [assumptions]. *)
Lemma carbon_result_hides_unrounded :
  exists r l,
    estimate_site_carbon (report_with_avg (to_float 100)) 10000
      (to_float 3) (float_lit 5 10) (to_float 300) = Ok r
    /\ carbon_chain (VFloat (to_float 100)) 10000
         (to_float 3) (float_lit 5 10) (to_float 300) = Ok l
    /\ ~ exposes r (gco2_per_view l)
    /\ ~ exposes r (monthly_kgco2 l)
    /\ ~ exposes r (yearly_kgco2 l).
Proof.
  eexists. eexists.
  split; [reflexivity|]. split; [reflexivity|].
  unfold carbon_result.
  repeat split; intros [(k & Hk)|(k & d' & k' & Hk & Hk')];
    apply lookup_literal in Hk;
    repeat (apply elem_of_cons in Hk as [Hk|Hk]; [entry_differs Hk|]);
    try (by apply elem_of_nil in Hk);
    apply lookup_literal in Hk';
    repeat (apply elem_of_cons in Hk' as [Hk'|Hk']; [entry_differs Hk'|]);
    by apply elem_of_nil in Hk'.
Qed.


(* ===================================================================== *)
(** * Calls that may raise *)
(* ===================================================================== *)

Lemma bind_Ok {A C : Type} (r : result A) (k : A -> result C) (c : C) :
  bind r k = Ok c <-> exists a, r = Ok a /\ k a = Ok c.
Proof.
  destruct r as [a|e]; cbn [bind]; split.
  - intros Hk. by exists a.
  - by intros (a' & [= <-] & Hk).
  - done.
  - by intros (a' & ? & _).
Qed.

Lemma bind_Raise {A C : Type} (r : result A) (k : A -> result C) (e : exn) :
  r = Raise e -> bind r k = Raise e.
Proof. by intros ->. Qed.

(* ===================================================================== *)
(** * Domain classifier *)
(* ===================================================================== *)

Section ClassifierFacts.
Context {L : WebLibs}.

Lemma is_internal_link_empty (base_domain : str) :
  is_internal_link [] base_domain = Ok false.
Proof. reflexivity. Qed.

(** A URL that [urlparse] rejects: its exception goes through. *)
Lemma is_internal_link_rejected (link base_domain : str) (e : exn) :
  link <> [] -> urlparse link = Raise e ->
  is_internal_link link base_domain = Raise e.
Proof. destruct link; [done|]. intros _ Hparse. cbn. by rewrite Hparse. Qed.

Lemma is_internal_link_relative (link base_domain : str)
    (parsed : url_parts) :
  link <> [] -> urlparse link = Ok parsed -> netloc parsed = [] ->
  is_internal_link link base_domain = Ok true.
Proof.
  destruct link; [done|]. intros _ Hparse Hloc. cbn.
  rewrite Hparse. cbn [bind]. by rewrite Hloc.
Qed.

Lemma is_internal_link_host (link base_domain : str) (parsed : url_parts) :
  link <> [] -> urlparse link = Ok parsed -> netloc parsed <> [] ->
  is_internal_link link base_domain
  = Ok (bool_decide (dotted (tld_domain (netloc parsed))
                       (tld_suffix (netloc parsed)) = base_domain)).
Proof.
  destruct link; [done|]. intros _ Hparse Hloc. cbn.
  rewrite Hparse. cbn [bind]. by destruct (netloc parsed).
Qed.

(** [is_internal_link] returns exactly on the empty string and on the
    URLs [urlparse] accepts. *)
Lemma is_internal_link_returns (link base_domain : str) (internal : bool) :
  is_internal_link link base_domain = Ok internal ->
  link = [] \/ exists parsed, urlparse link = Ok parsed.
Proof.
  destruct link as [|c link]; [by left|]. cbn.
  destruct (urlparse (c :: link)) as [parsed|e]; [|done].
  intros _. right. by exists parsed.
Qed.

End ClassifierFacts.

(** ** C9 *)

(** C9, as the code has it. For every non-empty URL string that
    [urlparse] accepts and every base registrable domain,
    [is_internal_link] returns an answer: internal when the URL has no
    host component, and otherwise internal exactly when the registrable
    domain of its host (domain and public suffix joined by a dot) equals
    the base's.  The empty string is external, and on a URL that
    [urlparse] rejects the classifier raises what [urlparse] raises.  With
    the libraries' answers on them, [https://shop.example.com/a] is
    internal, [https://example.co.uk] is external and [/relative/path] is
    internal for the base domain [example.com]. *)
Theorem is_internal_link_correct `{WebLibs} (link base_domain : str)
    (parsed : url_parts) :
  link <> [] ->
  urlparse link = Ok parsed ->
  (exists internal,
     is_internal_link link base_domain = Ok internal
     /\ (netloc parsed = [] -> internal = true)
     /\ (netloc parsed <> [] ->
         (internal = true
          <-> dotted (tld_domain (netloc parsed))
                (tld_suffix (netloc parsed)) = base_domain)))
  /\ is_internal_link [] base_domain = Ok false
  /\ (forall rejected e,
        rejected <> [] -> urlparse rejected = Raise e ->
        is_internal_link rejected base_domain = Raise e)
  /\ is_internal_link (L:=ref_weblibs) (pystr "https://shop.example.com/a")
       (pystr "example.com") = Ok true
  /\ is_internal_link (L:=ref_weblibs) (pystr "https://example.co.uk")
       (pystr "example.com") = Ok false
  /\ is_internal_link (L:=ref_weblibs) (pystr "/relative/path")
       (pystr "example.com") = Ok true.
Proof.
  intros Hlink Hparse.
  split; [|split; [done|split; [|by vm_compute]]].
  - destruct (decide (netloc parsed = [])) as [Hloc|Hloc].
    + exists true. split; [by eapply is_internal_link_relative|].
      by split.
    + eexists. split; [by eapply is_internal_link_host|].
      split; [done|]. intros _. apply bool_decide_eq_true.
  - intros rejected e. apply is_internal_link_rejected.
Qed.

(** The URL of the shop, for the reference libraries. *)
Lemma is_internal_link_correct_witness :
  is_internal_link (L:=ref_weblibs) (pystr "https://shop.example.com/a")
    (pystr "example.com") = Ok true.
Proof.
  destruct (is_internal_link_correct (H:=ref_weblibs)
              (pystr "https://shop.example.com/a") (pystr "example.com")
              {| scheme := pystr "https"; netloc := pystr "shop.example.com" |})
    as ((internal & Hreturns & _ & Hhost) & _).
  - done.
  - by vm_compute.
  - rewrite Hreturns. f_equal. apply Hhost; by vm_compute.
Defined.

(** C9, as it is stated, fails on the empty string: it has no host
    component, and it is classified external. *)
Lemma is_internal_link_empty_external :
  (exists parsed,
     urlparse (WebLibs:=ref_weblibs) [] = Ok parsed /\ netloc parsed = [])
  /\ is_internal_link (L:=ref_weblibs) [] (pystr "example.com") = Ok false.
Proof. split; [|done]. eexists. split; by vm_compute. Qed.

(** A URL the parser rejects: the classifier gives no answer. *)
Lemma is_internal_link_bracket :
  is_internal_link (L:=ref_weblibs) (pystr "http://[") (pystr "example.com")
  = Raise (ValueError (pystr "Invalid IPv6 URL")).
Proof. by vm_compute. Qed.

Lemma normalize_base_url_bracket :
  normalize_base_url (L:=ref_weblibs) (pystr "[")
  = Raise (ValueError (pystr "Invalid IPv6 URL")).
Proof. by vm_compute. Qed.

(* ===================================================================== *)
(** * Site crawler *)
(* ===================================================================== *)

Lemma py_max_fold (a : Z) (l : list Z) :
  is_maximum (foldl Z.max a l) (a :: l).
Proof.
  revert a. induction l as [|x l IH]; intros a; cbn [foldl].
  - split; [left|]. intros y ->%list_elem_of_singleton. lia.
  - destruct (IH (Z.max a x)) as [Hin Hle]. split.
    + apply elem_of_cons in Hin as [Heq|Hin]; [|right; by right].
      rewrite Heq.
      destruct (Z.max_spec a x) as [[_ Hm]|[_ Hm]]; rewrite Hm;
        [right; left|left].
    + intros y Hy.
      assert (Z.max a x <= foldl Z.max (Z.max a x) l) as Hmax
        by (apply Hle; left).
      apply elem_of_cons in Hy as [->|Hy]; [lia|].
      apply elem_of_cons in Hy as [->|Hy]; [lia|].
      apply Hle. by right.
Qed.

Lemma py_max_is_maximum (l : list Z) : l <> [] -> is_maximum (py_max l) l.
Proof. destruct l as [|x l]; [done|intros _]. apply py_max_fold. Qed.

(** Looking up a key of the report. *)
Ltac report_lookup :=
  unfold site_report; cbv zeta;
  cbn [list_to_map foldr uncurry fst snd]; dict_lookup.

(** A key is in a set written as a list. *)
Ltac key_in_list :=
  rewrite elem_of_list_to_set; vm_compute;
  repeat first [ by left | right ].

Ltac key_not_in_list :=
  rewrite elem_of_list_to_set; vm_compute;
  let H := fresh in
  intros H;
  repeat (apply elem_of_cons in H as [H|H]; [discriminate H|]);
  by apply elem_of_nil in H.

Section CrawlFacts.
Context {B : Builtins} {L : WebLibs} {N : Network}.

Lemma fetch_page_blank (url ct : str) :
  requests_get url = HttpResponse 200 (Some ct) [] ->
  str_in (pystr "text/html") ct = true ->
  fetch_page url = Some [].
Proof.
  unfold fetch_page. intros -> Hct.
  cbn [default from_option id]. by rewrite Hct.
Qed.

(** ** The record of a page *)

Lemma analyze_page_Ok (html url : str) (p : page_info) :
  analyze_page html url = Ok p ->
  pi_url p = url
  /\ pi_text p = extract_text html
  /\ pi_scores p = analyze_text (pi_text p).
Proof.
  unfold analyze_page. destruct (utf8_len html) as [html_bytes|e];
    cbn [bind]; [|done].
  intros Hp. apply (f_equal (fun r => match r with
                                      | Ok q => q
                                      | Raise _ => p
                                      end)) in Hp.
  cbn beta iota in Hp. subst p. by repeat split.
Qed.

Lemma page_of_url (link : str) (p : page_info) :
  page_of link p -> pi_url p = link.
Proof. intros (html & _ & Hp). by apply analyze_page_Ok in Hp as [? _]. Qed.

Lemma page_of_scores (link : str) (p : page_info) :
  page_of link p -> pi_scores p = analyze_text (pi_text p).
Proof.
  intros (html & _ & Hp). by apply analyze_page_Ok in Hp as (_ & _ & ?).
Qed.

(** ** The loop *)

Lemma crawl_loop_full (max_pages : Z) (candidate_links : list str)
    (visited : gset str) (pages_data : list page_info) :
  max_pages <= Z.of_nat (length pages_data) ->
  crawl_loop max_pages candidate_links visited pages_data = Ok pages_data.
Proof.
  intros Hfull. destruct candidate_links as [|link rest]; [done|].
  cbn [crawl_loop]. by rewrite (proj2 (Z.geb_le _ _) Hfull).
Qed.

Lemma crawl_loop_visited (max_pages : Z) (link : str) (rest : list str)
    (visited : gset str) (pages_data : list page_info) :
  Z.of_nat (length pages_data) < max_pages ->
  link ∈ visited ->
  crawl_loop max_pages (link :: rest) visited pages_data
  = crawl_loop max_pages rest visited pages_data.
Proof.
  intros Hroom Hin. cbn [crawl_loop].
  rewrite Z.geb_leb, (proj2 (Z.leb_gt _ _)) by lia.
  by rewrite bool_decide_eq_true_2.
Qed.

Lemma crawl_loop_unavailable (max_pages : Z) (link : str) (rest : list str)
    (visited : gset str) (pages_data : list page_info) :
  Z.of_nat (length pages_data) < max_pages ->
  link ∉ visited ->
  truthy (fetch_page link) = None ->
  crawl_loop max_pages (link :: rest) visited pages_data
  = crawl_loop max_pages rest ({[link]} ∪ visited) pages_data.
Proof.
  intros Hroom Hin Hfetch. cbn [crawl_loop].
  rewrite Z.geb_leb, (proj2 (Z.leb_gt _ _)) by lia.
  rewrite bool_decide_eq_false_2 by done. by rewrite Hfetch.
Qed.

Lemma crawl_loop_fetched (max_pages : Z) (link html : str) (rest : list str)
    (visited : gset str) (pages_data : list page_info) :
  Z.of_nat (length pages_data) < max_pages ->
  link ∉ visited ->
  truthy (fetch_page link) = Some html ->
  crawl_loop max_pages (link :: rest) visited pages_data
  = (try! page_info := analyze_page html link in
     crawl_loop max_pages rest ({[link]} ∪ visited)
       (pages_data ++ [page_info])).
Proof.
  intros Hroom Hin Hfetch. cbn [crawl_loop].
  rewrite Z.geb_leb, (proj2 (Z.leb_gt _ _)) by lia.
  rewrite bool_decide_eq_false_2 by done. by rewrite Hfetch.
Qed.

Lemma fetched_links_visited (link : str) (rest : list str)
    (visited : gset str) :
  link ∈ visited ->
  fetched_links (link :: rest) visited = fetched_links rest visited.
Proof.
  intros Hin. unfold fetched_links. cbn [fresh_links].
  by rewrite bool_decide_eq_true_2.
Qed.

Lemma fetched_links_unavailable (link : str) (rest : list str)
    (visited : gset str) :
  link ∉ visited ->
  truthy (fetch_page link) = None ->
  fetched_links (link :: rest) visited
  = fetched_links rest ({[link]} ∪ visited).
Proof.
  intros Hin Hfetch. unfold fetched_links. cbn [fresh_links].
  rewrite bool_decide_eq_false_2 by done.
  rewrite filter_cons_False; [done|].
  rewrite Hfetch. by intros [? ?].
Qed.

Lemma fetched_links_fetched (link html : str) (rest : list str)
    (visited : gset str) :
  link ∉ visited ->
  truthy (fetch_page link) = Some html ->
  fetched_links (link :: rest) visited
  = link :: fetched_links rest ({[link]} ∪ visited).
Proof.
  intros Hin Hfetch. unfold fetched_links. cbn [fresh_links].
  rewrite bool_decide_eq_false_2 by done.
  rewrite filter_cons_True; [done|]. rewrite Hfetch. by eexists.
Qed.

(** The loop returns exactly when the candidates it fetches, as far as
    the cap allows, are analysed without error; it appends their records,
    in their order: a candidate that is visited already or cannot be
    fetched takes no place. *)
Lemma crawl_loop_spec (max_pages : Z) (candidate_links : list str)
    (visited : gset str) (pages_data result : list page_info) :
  crawl_loop max_pages candidate_links visited pages_data = Ok result <->
  exists rest,
    result = pages_data ++ rest
    /\ Forall2 page_of
         (take (Z.to_nat (max_pages - Z.of_nat (length pages_data)))
            (fetched_links candidate_links visited))
         rest.
Proof.
  assert (Hstop : forall pages : list page_info,
    Ok pages = Ok result <->
    exists rest, result = pages ++ rest /\ Forall2 page_of [] rest).
  { intros pages. split.
    - intros [= <-]. exists []. split; [by rewrite app_nil_r|constructor].
    - intros (rest & -> & ->%Forall2_nil_inv_l). by rewrite app_nil_r. }
  revert visited pages_data.
  induction candidate_links as [|link rest IH]; intros visited pages_data.
  - cbn [crawl_loop]. unfold fetched_links. cbn [fresh_links].
    rewrite filter_nil, take_nil. apply Hstop.
  - destruct (Z.le_gt_cases max_pages (Z.of_nat (length pages_data)))
      as [Hfull|Hroom].
    { rewrite crawl_loop_full by done.
      replace (Z.to_nat _) with 0%nat by lia. rewrite take_0. apply Hstop. }
    destruct (decide (link ∈ visited)) as [Hin|Hin].
    { rewrite crawl_loop_visited, fetched_links_visited by done. apply IH. }
    destruct (truthy (fetch_page link)) as [html|] eqn:Hfetch.
    + rewrite (crawl_loop_fetched _ _ html),
        (fetched_links_fetched _ html) by done.
      replace (Z.to_nat (max_pages - Z.of_nat (length pages_data)))
        with (S (Z.to_nat (max_pages
                           - Z.of_nat (length pages_data + 1)%nat))) by lia.
      cbn [take]. rewrite bind_Ok. split.
      * intros (p & Hp & Hloop).
        apply IH in Hloop as (rest' & -> & Hrest).
        rewrite length_app in Hrest. cbn [length] in Hrest.
        exists (p :: rest'). split; [by rewrite <- app_assoc|].
        constructor; [by exists html|done].
      * intros (rest0 & -> & Hall).
        apply Forall2_cons_inv_l in Hall
          as (p & rest' & (html' & Hf & Hp) & Hrest & ->).
        rewrite Hfetch in Hf. injection Hf as <-.
        exists p. split; [done|]. apply IH. exists rest'.
        split; [by rewrite <- app_assoc|].
        rewrite length_app. cbn [length]. exact Hrest.
    + rewrite crawl_loop_unavailable, fetched_links_unavailable by done.
      apply IH.
Qed.

Lemma crawl_pages_Ok (base_url html_home : str) (max_pages : Z)
    (pages : list page_info) :
  crawl_pages base_url html_home max_pages = Ok pages <->
  exists home_info candidate_links rest,
    analyze_page html_home base_url = Ok home_info
    /\ find_candidate_links base_url html_home 50 = Ok candidate_links
    /\ pages = home_info :: rest
    /\ Forall2 page_of
         (take (Z.to_nat (max_pages - 1))
            (fetched_links candidate_links {[base_url]}))
         rest.
Proof.
  unfold crawl_pages. rewrite bind_Ok. split.
  - intros (home_info & Hhome & Hrest).
    apply bind_Ok in Hrest as (candidate_links & Hlinks & Hloop).
    apply crawl_loop_spec in Hloop as (rest & -> & Hrest).
    by exists home_info, candidate_links, rest.
  - intros (home_info & candidate_links & rest & Hhome & Hlinks & -> & Hrest).
    exists home_info. split; [done|]. apply bind_Ok.
    exists candidate_links. split; [done|]. apply crawl_loop_spec.
    by exists rest.
Qed.

Lemma crawl_pages_length (base_url html_home : str) (max_pages : Z)
    (pages : list page_info) :
  crawl_pages base_url html_home max_pages = Ok pages ->
  1 <= Z.of_nat (length pages) <= Z.max 1 max_pages.
Proof.
  intros (home_info & candidate_links & rest & _ & _ & -> & Hrest)
    %crawl_pages_Ok.
  apply Forall2_length in Hrest. rewrite length_take in Hrest.
  cbn [length]. lia.
Qed.

Lemma crawl_pages_nonempty (base_url html_home : str) (max_pages : Z)
    (pages : list page_info) :
  crawl_pages base_url html_home max_pages = Ok pages -> pages <> [].
Proof.
  by intros (home_info & candidate_links & rest & _ & _ & -> & _)
       %crawl_pages_Ok.
Qed.

Lemma Forall2_elem_of_r {A C : Type} (P : A -> C -> Prop) (l : list A)
    (k : list C) (y : C) :
  Forall2 P l k -> y ∈ k -> exists x, x ∈ l /\ P x y.
Proof.
  intros Hall [i Hy]%list_elem_of_lookup_1.
  destruct (Forall2_lookup_r _ _ _ _ _ Hall Hy) as (x & Hx & HP).
  exists x. split; [by eapply list_elem_of_lookup_2|done].
Qed.

Lemma crawl_pages_scores (base_url html_home : str) (max_pages : Z)
    (pages : list page_info) :
  crawl_pages base_url html_home max_pages = Ok pages ->
  forall p, p ∈ pages -> pi_scores p = analyze_text (pi_text p).
Proof.
  intros (home_info & candidate_links & rest & Hhome & _ & -> & Hrest)
    %crawl_pages_Ok p [->|Hp]%elem_of_cons.
  - by apply analyze_page_Ok in Hhome as (_ & _ & ?).
  - destruct (Forall2_elem_of_r _ _ _ _ Hrest Hp) as (link & _ & Hpage).
    by eapply page_of_scores.
Qed.

(** ** The two reports *)

Lemma failed_report_Ok (base_url : str) (r : dict) :
  failed_report base_url = Ok r <->
  exists parsed,
    urlparse base_url = Ok parsed
    /\ r = list_to_map [
             ("domain", VStr (netloc parsed));
             ("url", VStr base_url);
             ("error",
              VStr (pystr "Impossible de récupérer la page d'accueil"));
             ("pages_details", VPages [])
           ]%string.
Proof.
  unfold failed_report. rewrite bind_Ok.
  split; intros (parsed & Hparse & Hr); exists parsed; (split; [done|]);
    congruence.
Qed.

Lemma analyze_website_failed (url base_url : str) (max_pages : Z) :
  normalize_base_url url = Ok base_url ->
  truthy (fetch_page base_url) = None ->
  analyze_website url max_pages = failed_report base_url.
Proof.
  unfold analyze_website. intros -> Hfetch. cbn [bind]. by rewrite Hfetch.
Qed.

Lemma analyze_website_crawled (url base_url html_home : str)
    (max_pages : Z) :
  normalize_base_url url = Ok base_url ->
  truthy (fetch_page base_url) = Some html_home ->
  analyze_website url max_pages
  = (try! pages_data := crawl_pages base_url html_home max_pages in
     Ok (site_report base_url
           (dotted (tld_domain base_url) (tld_suffix base_url))
           pages_data)).
Proof.
  unfold analyze_website. intros -> Hfetch. cbn [bind]. by rewrite Hfetch.
Qed.

(** A report that [analyze_website] returns is the failure report of a
    home page that could not be fetched, or the report of a crawl that
    returned its pages. *)
Lemma analyze_website_Ok (url : str) (max_pages : Z) (r : dict) :
  analyze_website url max_pages = Ok r ->
  exists base_url,
    normalize_base_url url = Ok base_url
    /\ ((truthy (fetch_page base_url) = None
         /\ failed_report base_url = Ok r)
        \/ (exists html_home pages,
              truthy (fetch_page base_url) = Some html_home
              /\ crawl_pages base_url html_home max_pages = Ok pages
              /\ r = site_report base_url
                       (dotted (tld_domain base_url) (tld_suffix base_url))
                       pages)).
Proof.
  unfold analyze_website. intros (base_url & Hbase & Hr)%bind_Ok.
  exists base_url. split; [done|].
  destruct (truthy (fetch_page base_url)) as [html_home|]; [|by left].
  right. apply bind_Ok in Hr as (pages & Hpages & Hr).
  exists html_home, pages. split; [done|]. split; [done|]. congruence.
Qed.

Lemma analyze_website_fetched (url base_url html_home : str) (max_pages : Z)
    (r : dict) :
  normalize_base_url url = Ok base_url ->
  truthy (fetch_page base_url) = Some html_home ->
  analyze_website url max_pages = Ok r ->
  exists pages,
    crawl_pages base_url html_home max_pages = Ok pages
    /\ r = site_report base_url
             (dotted (tld_domain base_url) (tld_suffix base_url)) pages.
Proof.
  intros Hbase Hhome. rewrite (analyze_website_crawled _ _ _ _ Hbase Hhome).
  intros (pages & Hpages & Hr)%bind_Ok. exists pages. split; [done|].
  congruence.
Qed.

End CrawlFacts.

(** ** C3 *)

(** C3. For every seed URL whose home-page fetch fails, [analyze_website]
    returns the failure report: the entries [domain], [url], [error] and
    [pages_details] and no other, with an empty page list and a non-empty
    reason; [estimate_site_carbon] on that report raises [ValueError],
    whatever its other arguments.  The seed URL is one that
    [normalize_base_url] accepts, and the report holds the host that
    [urlparse] reads off the base URL. *)
Theorem failed_crawl_report {B : Builtins} {L : WebLibs} {N : Network}
    (url base_url : str) (parsed : url_parts)
    (max_pages monthly_page_views : Z) (wm e ci : float) :
  normalize_base_url url = Ok base_url ->
  fetch_page base_url = None ->
  urlparse base_url = Ok parsed ->
  analyze_website url max_pages = failed_report base_url
  /\ exists r,
       analyze_website url max_pages = Ok r
       /\ dom r
          = list_to_set ["domain"; "url"; "error"; "pages_details"]%string
       /\ r !! "pages_details"%string = Some (VPages [])
       /\ (exists reason,
             r !! "error"%string = Some (VStr reason) /\ reason <> [])
       /\ r !! "domain"%string = Some (VStr (netloc parsed))
       /\ r !! "url"%string = Some (VStr base_url)
       /\ r !! "avg_html_kb"%string = None
       /\ exists msg,
            estimate_site_carbon r monthly_page_views wm e ci
            = Raise (ValueError msg).
Proof.
  intros Hbase Hfetch Hparse.
  assert (Hrun : analyze_website url max_pages = failed_report base_url).
  { apply analyze_website_failed; [done|]. by rewrite Hfetch. }
  split; [exact Hrun|]. rewrite Hrun.
  eexists. split.
  { unfold failed_report. rewrite Hparse. reflexivity. }
  split; [by rewrite dom_list_to_map_L|].
  cbn [list_to_map foldr uncurry fst snd].
  split; [dict_lookup|].
  split; [eexists; split; [dict_lookup|by vm_compute]|].
  split; [dict_lookup|]. split; [dict_lookup|].
  match goal with
  | |- ?d !! "avg_html_kb"%string = None /\ _ =>
      assert (Hnone : d !! "avg_html_kb"%string = None) by dict_lookup
  end.
  split; [exact Hnone|]. eexists. by apply estimate_site_carbon_missing.
Qed.

Lemma failed_crawl_report_witness :
  exists r,
    analyze_website (B:=ref_builtins) (L:=ref_weblibs) (N:=dead_network)
      (pystr "example.com") MAX_PAGES = Ok r
    /\ r !! "domain"%string = Some (VStr (pystr "example.com")).
Proof.
  destruct (failed_crawl_report (B:=ref_builtins) (L:=ref_weblibs)
              (N:=dead_network) (pystr "example.com")
              (pystr "https://example.com")
              {| scheme := pystr "https"; netloc := pystr "example.com" |}
              MAX_PAGES 10000
              DEFAULT_WEIGHT_MULTIPLIER DEFAULT_ENERGY_PER_GB_KWH
              DEFAULT_CARBON_INTENSITY_G_PER_KWH)
    as (_ & r & Hrun & _ & _ & _ & Hdomain & _).
  - by vm_compute.
  - reflexivity.
  - by vm_compute.
  - by exists r.
Defined.

(** ** C10 *)

Section BlankPages.
Context {B : Builtins} {L : WebLibs}.

(** The crawl reads the network through the truth value of [fetch_page]
    only, and an empty body has the truth value of a failure. *)
Lemma truthy_fetch_blank (N : Network) (url : str) :
  truthy (fetch_page (N:=blank_as_failure N) url)
  = truthy (fetch_page (N:=N) url).
Proof.
  unfold fetch_page. cbn [requests_get blank_as_failure].
  destruct (@requests_get N url) as [|status ct [|c text]]; [done| |done].
  by destruct (_ && _).
Qed.

Lemma crawl_loop_blank (N : Network) (max_pages : Z)
    (candidate_links : list str) (visited : gset str)
    (pages_data : list page_info) :
  crawl_loop (N:=blank_as_failure N) max_pages candidate_links visited
    pages_data
  = crawl_loop (N:=N) max_pages candidate_links visited pages_data.
Proof.
  revert visited pages_data.
  induction candidate_links as [|link rest IH]; intros visited pages_data;
    [done|].
  cbn [crawl_loop]. rewrite truthy_fetch_blank.
  destruct (_ >=? _); [done|]. case_bool_decide; [done|].
  destruct (truthy _) as [html|]; [|done].
  destruct (analyze_page html link) as [page_info|e]; cbn [bind]; [|done].
  apply IH.
Qed.

Lemma analyze_website_blank (N : Network) (url : str) (max_pages : Z) :
  analyze_website (N:=blank_as_failure N) url max_pages
  = analyze_website (N:=N) url max_pages.
Proof.
  unfold analyze_website.
  destruct (normalize_base_url url) as [base_url|e]; cbn [bind]; [|done].
  rewrite truthy_fetch_blank.
  destruct (truthy _) as [html_home|]; [|done].
  unfold crawl_pages.
  destruct (analyze_page html_home base_url) as [home_info|e];
    cbn [bind]; [|done].
  destruct (find_candidate_links base_url html_home 50)
    as [candidate_links|e]; cbn [bind]; [|done].
  by rewrite crawl_loop_blank.
Qed.

End BlankPages.

(** C10. A page whose response is HTTP 200 with a [text/html] content
    type and an empty body is returned by [fetch_page] as the empty
    string, not as [None]; the callers test its truth value, so it is
    treated as an unavailable page: as the home page it gives the failure
    report, as a candidate it is skipped (marked visited, no record
    appended), and the whole crawl is the one of the network on which
    empty bodies are failures. *)
Theorem blank_page_is_unavailable {B : Builtins} {L : WebLibs} {N : Network}
    (url u ct : str) (max_pages : Z) :
  requests_get u = HttpResponse 200 (Some ct) [] ->
  str_in (pystr "text/html") ct = true ->
  fetch_page u = Some []
  /\ fetch_page (N:=blank_as_failure N) u = None
  /\ (normalize_base_url url = Ok u ->
      analyze_website url max_pages = failed_report u)
  /\ (forall rest visited pages_data,
        Z.of_nat (length pages_data) < max_pages ->
        u ∉ visited ->
        crawl_loop max_pages (u :: rest) visited pages_data
        = crawl_loop max_pages rest ({[u]} ∪ visited) pages_data)
  /\ analyze_website url max_pages
     = analyze_website (N:=blank_as_failure N) url max_pages.
Proof.
  intros Hget Hct.
  pose proof (fetch_page_blank _ _ Hget Hct) as Hfetch.
  split; [done|].
  split; [unfold fetch_page; cbn [requests_get blank_as_failure];
          by rewrite Hget|].
  split.
  { intros Hbase. apply analyze_website_failed; [done|]. by rewrite Hfetch. }
  split.
  { intros rest visited pages_data Hroom Hin.
    apply crawl_loop_unavailable; [done..|]. by rewrite Hfetch. }
  by rewrite analyze_website_blank.
Qed.

Lemma blank_page_is_unavailable_witness :
  fetch_page (N:=blank_network) (pystr "https://example.com") = Some []
  /\ analyze_website (B:=ref_builtins) (L:=ref_weblibs) (N:=blank_network)
       (pystr "example.com") MAX_PAGES
     = failed_report (L:=ref_weblibs) (pystr "https://example.com").
Proof.
  destruct (blank_page_is_unavailable (B:=ref_builtins) (L:=ref_weblibs)
              (N:=blank_network) (pystr "example.com")
              (pystr "https://example.com")
              (pystr "text/html; charset=utf-8") MAX_PAGES)
    as (Hfetch & _ & Hhome & _).
  - reflexivity.
  - reflexivity.
  - split; [exact Hfetch|]. apply Hhome. by vm_compute.
Defined.

(** ** C6 *)

Section ReportFacts.
Context {B : Builtins} {L : WebLibs}.

Lemma site_report_pages_details (base_url domain : str)
    (pages_data : list page_info) :
  site_report base_url domain pages_data !! "pages_details"%string
  = Some (VPages pages_data).
Proof. report_lookup. Qed.

Lemma site_report_pages_scanned (base_url domain : str)
    (pages_data : list page_info) :
  site_report base_url domain pages_data !! "pages_scanned"%string
  = Some (VInt (Z.of_nat (length pages_data))).
Proof. report_lookup. Qed.

End ReportFacts.

(** C6. For every crawl whose home page is fetched and that returns its
    report, the number of pages scanned is at least 1 and at most the
    page cap of 20, whatever the candidates: the pages are the record of
    the home page followed by the records of the first 19 candidates that
    are new and can be fetched.  In the loop, a candidate already visited
    is skipped, and a candidate whose fetch fails is skipped without a
    record being appended; the loop goes on with the next candidate in
    both cases. *)
Theorem crawl_page_cap {B : Builtins} {L : WebLibs} {N : Network}
    (url base_url html_home : str) (report : dict) :
  normalize_base_url url = Ok base_url ->
  truthy (fetch_page base_url) = Some html_home ->
  analyze_website url MAX_PAGES = Ok report ->
  (exists home_info candidate_links rest,
     analyze_page html_home base_url = Ok home_info
     /\ find_candidate_links base_url html_home 50 = Ok candidate_links
     /\ report !! "pages_details"%string
        = Some (VPages (home_info :: rest))
     /\ report !! "pages_scanned"%string
        = Some (VInt (Z.of_nat (length (home_info :: rest))))
     /\ 1 <= Z.of_nat (length (home_info :: rest)) <= 20
     /\ Forall2 page_of
          (take 19 (fetched_links candidate_links {[base_url]})) rest)
  /\ (forall link rest visited pages,
        Z.of_nat (length pages) < MAX_PAGES ->
        link ∈ visited ->
        crawl_loop MAX_PAGES (link :: rest) visited pages
        = crawl_loop MAX_PAGES rest visited pages)
  /\ (forall link rest visited pages,
        Z.of_nat (length pages) < MAX_PAGES ->
        link ∉ visited ->
        truthy (fetch_page link) = None ->
        crawl_loop MAX_PAGES (link :: rest) visited pages
        = crawl_loop MAX_PAGES rest ({[link]} ∪ visited) pages).
Proof.
  intros Hbase Hhome Hrun.
  split; [|split; [apply crawl_loop_visited|apply crawl_loop_unavailable]].
  destruct (analyze_website_fetched _ _ _ _ _ Hbase Hhome Hrun)
    as (pages & Hpages & ->).
  pose proof (crawl_pages_length _ _ _ _ Hpages) as Hlen.
  apply crawl_pages_Ok in Hpages
    as (home_info & candidate_links & rest & Hhome_info & Hlinks & ->
        & Hrest).
  exists home_info, candidate_links, rest.
  split; [done|]. split; [done|].
  split; [apply site_report_pages_details|].
  split; [apply site_report_pages_scanned|].
  split; [unfold MAX_PAGES in *; lia|exact Hrest].
Qed.

(** On the small site of the examples, two pages are scanned: the home
    page and the page about RSE; the missing page and the empty page take
    no place. *)
Lemma crawl_page_cap_witness :
  exists report,
    analyze_website (B:=ref_builtins) (L:=ref_weblibs) (N:=demo_network)
      (pystr "example.com") MAX_PAGES = Ok report
    /\ report !! "pages_scanned"%string = Some (VInt 2).
Proof.
  assert (Hdemo :
    match analyze_website (B:=ref_builtins) (L:=ref_weblibs)
            (N:=demo_network) (pystr "example.com") MAX_PAGES with
    | Ok r => r !! "pages_scanned"%string
    | Raise _ => None
    end = Some (VInt 2)) by (by vm_compute).
  destruct (analyze_website (B:=ref_builtins) (L:=ref_weblibs)
              (N:=demo_network) (pystr "example.com") MAX_PAGES)
    as [report|e] eqn:Hrun; [|done].
  exists report. split; [done|].
  destruct (crawl_page_cap (B:=ref_builtins) (L:=ref_weblibs)
              (N:=demo_network) (pystr "example.com")
              (pystr "https://example.com")
              (pystr "Bilan Carbone <a href='/rse'>Notre RSE</a><a href='/gone'>Contact</a><a href='/blank'>Vide</a>")
              report)
    as ((home_info & candidate_links & rest & _ & _ & _ & Hscanned & _) & _).
  - by vm_compute.
  - by vm_compute.
  - exact Hrun.
  - rewrite Hscanned in Hdemo |- *. exact Hdemo.
Defined.

(** ** C5 *)

Lemma ltb_bool_decide (a b : Z) : (a <? b) = bool_decide (a < b).
Proof.
  destruct (Z.ltb_spec a b).
  - by rewrite bool_decide_eq_true_2.
  - rewrite bool_decide_eq_false_2; [done|lia].
Qed.

Lemma existsb_elem_of {A} (f : A -> bool) (l : list A) :
  existsb f l = true <-> exists x, x ∈ l /\ f x = true.
Proof.
  rewrite existsb_exists. split; intros (x & Hx & Hf); exists x;
    by rewrite ?list_elem_of_In in *.
Qed.

(** C5, as the code has it. For every crawl whose home page is fetched
    and that returns its report, every page's hit counts and scores are
    those of the keyword scorer on its text; the report's hit totals are
    the sums of the per-page hit counts; its site-level scores are the
    maxima of the per-page scores; [has_rse_content],
    [has_carbon_mentions] and [has_green_it] hold exactly when the
    matching total is positive; and [has_bilan_carbone_explicit] holds
    exactly when the lowercased text of some analysed page contains
    [bilan carbone]. *)
Theorem site_report_aggregates {B : Builtins} {L : WebLibs} {N : Network}
    (url base_url html_home : str) (max_pages : Z) (r : dict) :
  normalize_base_url url = Ok base_url ->
  truthy (fetch_page base_url) = Some html_home ->
  analyze_website url max_pages = Ok r ->
  exists pages total_rse total_carbon total_green_it
         global_rse global_carbon global_green_it explicit,
    r !! "pages_details"%string = Some (VPages pages)
    /\ (forall p, p ∈ pages -> pi_scores p = analyze_text (pi_text p))
    /\ r !! "total_rse_hits"%string = Some (VInt total_rse)
    /\ r !! "total_carbon_hits"%string = Some (VInt total_carbon)
    /\ r !! "total_green_it_hits"%string = Some (VInt total_green_it)
    /\ total_rse = py_sum (map (ts_rse_hits ∘ pi_scores) pages)
    /\ total_carbon = py_sum (map (ts_carbon_hits ∘ pi_scores) pages)
    /\ total_green_it = py_sum (map (ts_green_it_hits ∘ pi_scores) pages)
    /\ r !! "global_rse_score"%string = Some (VInt global_rse)
    /\ r !! "global_carbon_score"%string = Some (VInt global_carbon)
    /\ r !! "global_green_it_score"%string = Some (VInt global_green_it)
    /\ is_maximum global_rse (map (ts_rse_score ∘ pi_scores) pages)
    /\ is_maximum global_carbon (map (ts_carbon_score ∘ pi_scores) pages)
    /\ is_maximum global_green_it
         (map (ts_green_it_score ∘ pi_scores) pages)
    /\ r !! "has_rse_content"%string
       = Some (VBool (bool_decide (0 < total_rse)))
    /\ r !! "has_carbon_mentions"%string
       = Some (VBool (bool_decide (0 < total_carbon)))
    /\ r !! "has_green_it"%string
       = Some (VBool (bool_decide (0 < total_green_it)))
    /\ r !! "has_bilan_carbone_explicit"%string = Some (VBool explicit)
    /\ (explicit = true <->
        exists p, p ∈ pages
                  /\ str_in (pystr "bilan carbone") (str_lower (pi_text p))
                     = true).
Proof.
  intros Hbase Hhome Hrun.
  destruct (analyze_website_fetched _ _ _ _ _ Hbase Hhome Hrun)
    as (pages & Hpages & ->).
  set (domain := dotted _ _).
  pose proof (crawl_pages_nonempty _ _ _ _ Hpages) as Hnonempty.
  pose proof (crawl_pages_scores _ _ _ _ Hpages) as Hscores.
  clear Hpages Hrun.
  assert (Hne : forall f : page_info -> Z, map f pages <> []).
  { intros f Hnil. by destruct pages. }
  exists pages. do 6 eexists.
  exists (existsb
            (fun p => str_in (pystr "bilan carbone") (str_lower (pi_text p)))
            pages).
  split; [report_lookup|]. split; [exact Hscores|].
  do 3 (split; [report_lookup|]).
  do 3 (split; [reflexivity|]).
  do 3 (split; [report_lookup|]).
  do 3 (split; [apply py_max_is_maximum, Hne|]).
  do 3 (split; [rewrite <- ltb_bool_decide; report_lookup|]).
  split; [report_lookup|]. apply existsb_elem_of.
Qed.

(** On the small site of the examples the carbon total is 1. *)
Lemma site_report_aggregates_witness :
  exists r,
    analyze_website (B:=ref_builtins) (L:=ref_weblibs) (N:=demo_network)
      (pystr "example.com") MAX_PAGES = Ok r
    /\ r !! "total_carbon_hits"%string = Some (VInt 1).
Proof.
  assert (Hdemo :
    match analyze_website (B:=ref_builtins) (L:=ref_weblibs)
            (N:=demo_network) (pystr "example.com") MAX_PAGES with
    | Ok r => r !! "total_carbon_hits"%string
    | Raise _ => None
    end = Some (VInt 1)) by (by vm_compute).
  destruct (analyze_website (B:=ref_builtins) (L:=ref_weblibs)
              (N:=demo_network) (pystr "example.com") MAX_PAGES)
    as [r|e] eqn:Hrun; [|done].
  exists r. split; [done|].
  destruct (site_report_aggregates (B:=ref_builtins) (L:=ref_weblibs)
              (N:=demo_network) (pystr "example.com")
              (pystr "https://example.com")
              (pystr "Bilan Carbone <a href='/rse'>Notre RSE</a><a href='/gone'>Contact</a><a href='/blank'>Vide</a>")
              MAX_PAGES r)
    as (pages & t1 & t2 & t3 & g1 & g2 & g3 & e & _ & _ & _ & Ht2 & _).
  - by vm_compute.
  - by vm_compute.
  - exact Hrun.
  - rewrite Ht2 in Hdemo |- *. exact Hdemo.
Defined.

(** C5, as it is stated, fails on the explicit-accounting flag: the home
    page of the small site reads [Bilan Carbone], capitalised; no page's
    extracted text contains the phrase [bilan carbone] itself, and the
    flag is set. *)
Lemma explicit_flag_ignores_case :
  exists r pages,
    analyze_website (B:=ref_builtins) (L:=ref_weblibs) (N:=demo_network)
      (pystr "example.com") MAX_PAGES = Ok r
    /\ r !! "pages_details"%string = Some (VPages pages)
    /\ r !! "has_bilan_carbone_explicit"%string = Some (VBool true)
    /\ map pi_text pages
       = [pystr "Bilan Carbone Notre RSE Contact Vide"; pystr "rse rse"]
    /\ existsb (fun p => str_in (pystr "bilan carbone") (pi_text p)) pages
       = false.
Proof.
  assert (Hdemo :
    match analyze_website (B:=ref_builtins) (L:=ref_weblibs)
            (N:=demo_network) (pystr "example.com") MAX_PAGES with
    | Ok r =>
        match r !! "pages_details"%string,
              r !! "has_bilan_carbone_explicit"%string with
        | Some (VPages pages), Some (VBool true) =>
            bool_decide
              (map pi_text pages
               = [pystr "Bilan Carbone Notre RSE Contact Vide";
                  pystr "rse rse"])
            && negb (existsb
                       (fun p => str_in (pystr "bilan carbone") (pi_text p))
                       pages)
        | _, _ => false
        end
    | Raise _ => false
    end = true) by (by vm_compute).
  destruct (analyze_website (B:=ref_builtins) (L:=ref_weblibs)
              (N:=demo_network) (pystr "example.com") MAX_PAGES)
    as [r|e] eqn:Hrun; [|done].
  destruct (r !! "pages_details"%string) as [[| | | | |pages|]|] eqn:Hpages;
    try discriminate Hdemo.
  destruct (r !! "has_bilan_carbone_explicit"%string)
    as [[|[|]| | | | |]|] eqn:Hflag; try discriminate Hdemo.
  apply andb_true_iff in Hdemo
    as [Htexts%bool_decide_eq_true Hnone%negb_true_iff].
  exists r, pages. split; [reflexivity|]. split; [exact Hpages|].
  split; [exact Hflag|]. split; [exact Htexts|exact Hnone].
Qed.

(** A crawl that does not return: the home page is fetched, and one of
    its anchors is rejected by [urljoin]. *)
Lemma analyze_website_bracket :
  analyze_website (B:=ref_builtins) (L:=ref_weblibs) (N:=bracket_network)
    (pystr "example.com") MAX_PAGES
  = Raise (ValueError (pystr "Invalid IPv6 URL")).
Proof. by vm_compute. Qed.

(* ===================================================================== *)
(** * Link discoverer *)
(* ===================================================================== *)

(** ** The stable sort *)

Lemma insert_by_score_perm (x : str * Z) (l : list (str * Z)) :
  insert_by_score x l ≡ₚ x :: l.
Proof.
  induction l as [|y l IH]; [done|]. cbn [insert_by_score].
  destruct (x.2 <? y.2); [|done].
  by rewrite IH, Permutation_swap.
Qed.

Lemma sorted_by_score_perm (links : list (str * Z)) :
  sorted_by_score links ≡ₚ links.
Proof.
  induction links as [|x l IH]; [done|].
  unfold sorted_by_score in *. cbn [foldr].
  by rewrite insert_by_score_perm, IH.
Qed.

Lemma insert_by_score_sorted (x : str * Z) (l : list (str * Z)) :
  StronglySorted by_score_desc l ->
  StronglySorted by_score_desc (insert_by_score x l).
Proof.
  induction 1 as [|y l Hl IH Hy]; cbn [insert_by_score].
  - repeat constructor.
  - destruct (Z.ltb_spec x.2 y.2) as [Hlt|Hge].
    + constructor; [done|].
      rewrite insert_by_score_perm. constructor; [|done].
      unfold by_score_desc. lia.
    + constructor; [by constructor|].
      constructor; [done|].
      eapply Forall_impl; [exact Hy|]. unfold by_score_desc.
      intros z Hz. lia.
Qed.

Lemma sorted_by_score_sorted (links : list (str * Z)) :
  StronglySorted by_score_desc (sorted_by_score links).
Proof.
  induction links as [|x l IH]; [constructor|].
  unfold sorted_by_score in *. cbn [foldr]. by apply insert_by_score_sorted.
Qed.

(** Stability: the links of one score keep their order. *)
Lemma insert_by_score_stable (v : Z) (x : str * Z) (l : list (str * Z)) :
  filter (fun p => p.2 = v) (insert_by_score x l)
  = filter (fun p => p.2 = v) (x :: l).
Proof.
  induction l as [|y l IH]; [done|]. cbn [insert_by_score].
  destruct (Z.ltb_spec x.2 y.2) as [Hlt|Hge]; [|done].
  rewrite (filter_cons _ y), IH, !(filter_cons _ x), (filter_cons _ y).
  repeat case_decide; try done. lia.
Qed.

Lemma sorted_by_score_stable (v : Z) (links : list (str * Z)) :
  filter (fun p => p.2 = v) (sorted_by_score links)
  = filter (fun p => p.2 = v) links.
Proof.
  induction links as [|x l IH]; [done|].
  unfold sorted_by_score in *. cbn [foldr].
  by rewrite insert_by_score_stable, !(filter_cons _ x), IH.
Qed.

(** A list sorted by decreasing score splits at any threshold. *)
Lemma sorted_split (t : Z) (l : list (str * Z)) :
  StronglySorted by_score_desc l ->
  l = filter (fun p => t < p.2) l ++ filter (fun p => p.2 <= t) l.
Proof.
  induction 1 as [|x l Hl IH Hx]; [done|].
  rewrite !(filter_cons _ x).
  destruct (decide (t < x.2)) as [Hgt|Hle].
  - rewrite decide_False by lia. cbn. by rewrite <- IH.
  - rewrite decide_True by lia.
    assert (Hall : Forall (fun p => p.2 <= t) l).
    { eapply Forall_impl; [exact Hx|]. unfold by_score_desc.
      intros z Hz. lia. }
    clear IH Hl Hx.
    assert (filter (fun p : str * Z => t < p.2) l = []) as ->.
    { induction Hall as [|y l Hy _ IH]; [done|].
      rewrite filter_cons, decide_False by lia. exact IH. }
    assert (filter (fun p : str * Z => p.2 <= t) l = l) as ->; [|done].
    induction Hall as [|y l Hy _ IH]; [done|].
    by rewrite filter_cons, decide_True, IH.
Qed.

(** ** First occurrences *)

Lemma elem_of_fresh_links (l : list str) (seen : gset str) (x : str) :
  x ∈ fresh_links l seen <-> x ∈ l /\ x ∉ seen.
Proof.
  revert seen. induction l as [|y l IH]; intros seen; cbn [fresh_links].
  - set_solver.
  - case_bool_decide as Hy.
    + rewrite IH. set_solver.
    + rewrite elem_of_cons, IH. destruct (decide (x = y)); set_solver.
Qed.

Lemma NoDup_fresh_links (l : list str) (seen : gset str) :
  NoDup (fresh_links l seen).
Proof.
  revert seen. induction l as [|y l IH]; intros seen; cbn [fresh_links].
  - constructor.
  - case_bool_decide; [apply IH|].
    constructor; [|apply IH]. rewrite elem_of_fresh_links. set_solver.
Qed.

Lemma fresh_links_app (l1 l2 : list str) (seen : gset str) :
  fresh_links (l1 ++ l2) seen
  = fresh_links l1 seen ++ fresh_links l2 (list_to_set l1 ∪ seen).
Proof.
  revert seen. induction l1 as [|y l1 IH]; intros seen.
  - cbn. f_equal. set_solver.
  - cbn [app fresh_links]. case_bool_decide as Hy.
    + rewrite IH. do 2 f_equal. set_solver.
    + rewrite IH. cbn [app]. do 3 f_equal. set_solver.
Qed.

(** ** The ranking loop *)

Lemma rank_loop_room (max_links : Z) (links : list (str * Z))
    (seen : gset str) (ranked_links : list str) :
  Z.of_nat (length ranked_links) < max_links ->
  rank_loop max_links links seen ranked_links
  = ranked_links
    ++ take (Z.to_nat (max_links - Z.of_nat (length ranked_links)))
         (fresh_links links.*1 seen).
Proof.
  revert seen ranked_links.
  induction links as [|[url sc] rest IH]; intros seen ranked_links Hroom.
  - cbn. by rewrite take_nil, app_nil_r.
  - cbn [rank_loop fmap list_fmap fst fresh_links].
    destruct (decide (url ∈ seen)) as [Hin|Hin].
    + rewrite (bool_decide_eq_false_2 (url ∉ seen)) by tauto.
      rewrite (bool_decide_eq_true_2 (url ∈ seen)) by done.
      rewrite Z.geb_leb, (proj2 (Z.leb_gt _ _)) by lia. by apply IH.
    + rewrite (bool_decide_eq_true_2 (url ∉ seen)) by done.
      rewrite (bool_decide_eq_false_2 (url ∈ seen)) by done.
      rewrite length_app. cbn [length].
      replace (Z.to_nat (max_links - Z.of_nat (length ranked_links)))
        with (S (Z.to_nat (max_links
                           - Z.of_nat (length ranked_links + 1)%nat)))
        by lia.
      cbn [take]. rewrite Z.geb_leb.
      destruct (Z.leb_spec max_links
                  (Z.of_nat (length ranked_links + 1)%nat)) as [Hfull|Hlt].
      * replace (Z.to_nat _) with 0%nat by lia. by rewrite take_0.
      * rewrite IH by (rewrite length_app; cbn [length]; lia).
        rewrite length_app. cbn [length]. by rewrite <- app_assoc.
Qed.

(** From the empty state the loop returns the first occurrences, cut at
    [max_links], and at one link when [max_links] is below 1: the length
    is tested after the first link is appended. *)
Lemma rank_loop_spec (max_links : Z) (links : list (str * Z)) :
  rank_loop max_links links ∅ []
  = take (Z.to_nat (Z.max 1 max_links)) (fresh_links links.*1 ∅).
Proof.
  destruct (Z.lt_ge_cases 0 max_links) as [Hpos|Hneg].
  - rewrite rank_loop_room by (cbn; lia). cbn [app length].
    do 2 f_equal. lia.
  - replace (Z.to_nat (Z.max 1 max_links)) with 1%nat by lia.
    destruct links as [|[url sc] rest]; [done|].
    cbn [rank_loop fmap list_fmap fst fresh_links].
    rewrite (bool_decide_eq_true_2 (url ∉ ∅)) by set_solver.
    rewrite (bool_decide_eq_false_2 (url ∈ ∅)) by set_solver.
    cbn [app length take]. rewrite take_0.
    by rewrite Z.geb_leb, (proj2 (Z.leb_le _ _)) by lia.
Qed.

(** ** Scores and the links collected *)

Lemma link_score_loop_count (url_lower text : str) (stems : list str)
    (score : Z) :
  link_score_loop url_lower text stems score
  = score
    + 5 * Z.of_nat (length (filter (stem_matches url_lower text) stems)).
Proof.
  revert score. induction stems as [|kw rest IH]; intros score.
  - cbn. lia.
  - cbn [link_score_loop]. rewrite IH, filter_cons.
    destruct (str_in kw url_lower || str_in kw text) eqn:Hm.
    + rewrite decide_True by (by apply Is_true_true_2).
      cbn [length]. lia.
    + rewrite decide_False by (by apply Is_true_false_2). lia.
Qed.

Lemma link_score_stem (url_lower text kw : str) :
  kw ∈ link_stems -> stem_matches url_lower text kw = true ->
  5 <= link_score_loop url_lower text link_stems 0.
Proof.
  intros Hkw Hm. rewrite link_score_loop_count.
  assert (Hin : kw ∈ filter (stem_matches url_lower text) link_stems).
  { apply list_elem_of_filter. split; [by apply Is_true_true_2|done]. }
  destruct (filter _ _); [by apply elem_of_nil in Hin|]. cbn [length]. lia.
Qed.

Lemma link_score_none (url_lower text : str) :
  (forall kw, kw ∈ link_stems -> stem_matches url_lower text kw = false) ->
  link_score_loop url_lower text link_stems 0 = 0.
Proof.
  intros Hnone. rewrite link_score_loop_count.
  assert (Hnil : filter (stem_matches url_lower text) link_stems = []);
    [|by rewrite Hnil].
  induction link_stems as [|kw rest IH]; [done|].
  rewrite filter_cons, decide_False.
  - apply IH. intros kw' Hkw'. apply Hnone. by right.
  - apply Is_true_false_2, Hnone. left.
Qed.

Section DiscovererFacts.
Context {B : Builtins} {L : WebLibs}.

(** The links of a loop that returned: one for each anchor whose joined
    URL is internal. *)
Lemma elem_of_collect_links (base_url base_domain : str)
    (anchors : list (str * str)) (links : list (str * Z)) (u : str) (s : Z) :
  collect_links base_url base_domain anchors = Ok links ->
  (u, s) ∈ links <->
  exists href a_text,
    (href, a_text) ∈ anchors
    /\ urljoin base_url href = Ok u
    /\ is_internal_link u base_domain = Ok true
    /\ s = link_score_loop (str_lower u) (str_lower a_text) link_stems 0.
Proof.
  revert links.
  induction anchors as [|[href a_text] rest IH]; intros links;
    cbn [collect_links].
  - intros [= <-]. split; [by intros ?%elem_of_nil|].
    by intros (? & ? & ?%elem_of_nil & _).
  - intros (full_url & Hjoin & Hrest)%bind_Ok.
    apply bind_Ok in Hrest as (internal & Hint & Hrest).
    destruct internal; cbn [negb] in Hrest.
    + apply bind_Ok in Hrest as (links' & Hlinks' & [= <-]).
      rewrite elem_of_cons, (IH _ Hlinks'). split.
      * intros [[= -> ->]|(h & t & Hin & Heq)].
        -- exists href, a_text. split; [left|done].
        -- exists h, t. split; [by right|done].
      * intros (h & t & [[= -> ->]|Hin]%elem_of_cons & Hj & Hi & ->).
        -- left. rewrite Hjoin in Hj. by injection Hj as ->.
        -- right. by exists h, t.
    + rewrite (IH _ Hrest). split.
      * intros (h & t & Hin & Heq). exists h, t. split; [by right|done].
      * intros (h & t & [[= -> ->]|Hin]%elem_of_cons & Hj & Hi & ->).
        -- rewrite Hjoin in Hj. injection Hj as ->. congruence.
        -- by exists h, t.
Qed.

(** The loop returns exactly when every anchor of the page is joined and
    classified without an exception. *)
Lemma collect_links_returns (base_url base_domain : str)
    (anchors : list (str * str)) :
  (exists links, collect_links base_url base_domain anchors = Ok links) <->
  forall href a_text,
    (href, a_text) ∈ anchors ->
    exists u internal,
      urljoin base_url href = Ok u
      /\ is_internal_link u base_domain = Ok internal.
Proof.
  induction anchors as [|[href a_text] rest IH]; cbn [collect_links].
  - split; [|by exists []]. by intros _ h t ?%elem_of_nil.
  - split.
    + intros (links & (full_url & Hjoin & Hrest)%bind_Ok).
      apply bind_Ok in Hrest as (internal & Hint & Hrest).
      assert (Hreturns :
        exists links', collect_links base_url base_domain rest = Ok links').
      { destruct internal; cbn [negb] in Hrest; [|by exists links].
        apply bind_Ok in Hrest as (links' & Hlinks' & _). by exists links'. }
      intros h t [[= -> ->]|Hin]%elem_of_cons.
      * by exists full_url, internal.
      * exact (proj1 IH Hreturns h t Hin).
    + intros Hall.
      destruct (Hall href a_text) as (u & internal & Hjoin & Hint); [left|].
      destruct (proj2 IH) as [links' Hlinks'].
      { intros h t Hin. apply (Hall h t). by right. }
      rewrite Hjoin. cbn [bind]. rewrite Hint. cbn [bind].
      destruct internal; cbn [negb]; [|by exists links'].
      rewrite Hlinks'. cbn [bind]. by eexists.
Qed.

Lemma find_candidate_links_Ok (base_url html : str) (max_links : Z)
    (ranked : list str) :
  find_candidate_links base_url html max_links = Ok ranked <->
  exists links,
    collect_links base_url
      (dotted (tld_domain base_url) (tld_suffix base_url))
      (soup_anchors html) = Ok links
    /\ ranked
       = take (Z.to_nat (Z.max 1 max_links))
           (fresh_links (sorted_by_score links).*1 ∅).
Proof.
  unfold find_candidate_links. rewrite bind_Ok.
  split; intros (links & Hlinks & Hranked); exists links; (split; [done|]).
  - rewrite <- rank_loop_spec. congruence.
  - rewrite rank_loop_spec. congruence.
Qed.

Lemma find_candidate_links_elem (base_url html : str) (max_links : Z)
    (ranked : list str) :
  find_candidate_links base_url html max_links = Ok ranked ->
  forall u, u ∈ ranked ->
  exists href a_text,
    (href, a_text) ∈ soup_anchors html
    /\ urljoin base_url href = Ok u
    /\ is_internal_link u
         (dotted (tld_domain base_url) (tld_suffix base_url)) = Ok true.
Proof.
  intros (links & Hlinks & ->)%find_candidate_links_Ok u
    (i & Hu%list_elem_of_lookup_2 & _)%elem_of_take.
  apply elem_of_fresh_links in Hu as [Hu _].
  apply list_elem_of_fmap in Hu as ([u' s] & -> & Hu).
  rewrite sorted_by_score_perm in Hu.
  apply (elem_of_collect_links _ _ _ _ _ _ Hlinks) in Hu
    as (href & a_text & Hin & Hjoin & Hint & _).
  by exists href, a_text.
Qed.

Lemma find_candidate_links_NoDup (base_url html : str) (max_links : Z)
    (ranked : list str) :
  find_candidate_links base_url html max_links = Ok ranked -> NoDup ranked.
Proof.
  intros (links & _ & ->)%find_candidate_links_Ok.
  eapply sublist_NoDup; [apply NoDup_fresh_links|apply sublist_take].
Qed.

End DiscovererFacts.

(** ** C4 *)

Section Ranking.
Context {B : Builtins} {L : WebLibs}.

(** A link with a positive score comes before every link whose score is
    0 throughout. *)
Lemma ranked_before (links : list (str * Z)) (n : nat) (u v : str) (s : Z) :
  (u, s) ∈ links -> 0 < s ->
  (forall s', (v, s') ∈ links -> s' = 0) ->
  v ∈ take n (fresh_links (sorted_by_score links).*1 ∅) ->
  exists i j,
    take n (fresh_links (sorted_by_score links).*1 ∅) !! i = Some u
    /\ take n (fresh_links (sorted_by_score links).*1 ∅) !! j = Some v
    /\ (i < j)%nat.
Proof.
  intros Hu Hs Hv Hranked.
  pose proof (sorted_split 0 _ (sorted_by_score_sorted links)) as Hsplit.
  set (S1 := filter (fun p : str * Z => 0 < p.2) (sorted_by_score links))
    in *.
  set (S2 := filter (fun p : str * Z => p.2 <= 0) (sorted_by_score links))
    in *.
  rewrite Hsplit, fmap_app, fresh_links_app in Hranked |- *.
  set (A := fresh_links S1.*1 ∅) in *.
  set (F2 := fresh_links S2.*1 _) in *.
  assert (HuA : u ∈ A).
  { apply elem_of_fresh_links. split; [|set_solver].
    apply list_elem_of_fmap. exists (u, s). split; [done|].
    apply list_elem_of_filter. split; [done|].
    by rewrite sorted_by_score_perm. }
  assert (HvA : v ∉ A).
  { intros [Hin _]%elem_of_fresh_links.
    apply list_elem_of_fmap in Hin as ([v' s'] & -> & Hin).
    apply list_elem_of_filter in Hin as [Hpos Hin].
    rewrite sorted_by_score_perm in Hin. apply Hv in Hin. cbn in *. lia. }
  apply list_elem_of_lookup_1 in HuA as [i Hi].
  apply elem_of_take in Hranked as (j & Hj & Hjn).
  pose proof (lookup_lt_Some _ _ _ Hi) as Hlen.
  assert (length A <= j)%nat as Hge.
  { destruct (Nat.le_gt_cases (length A) j) as [|Hlt]; [done|].
    rewrite lookup_app_l in Hj by done.
    apply list_elem_of_lookup_2 in Hj. contradiction. }
  exists i, j. split; [|split; [|lia]].
  - rewrite lookup_take_lt by lia. by apply lookup_app_l_Some.
  - by rewrite lookup_take_lt.
Qed.

End Ranking.

(** ** X1 *)

(** The link discoverer, for a maximum of at least 1. For every base URL
    and page on which [find_candidate_links] returns, it returns distinct
    URLs, at most [max_links] of them; each is the absolute URL of an
    anchor of the page and is internal; the score of a link is 5 for each
    stem found in its lowercased URL or its lowercased anchor text; the
    result lists the first occurrences of the URLs in the links sorted by
    decreasing score, a sort that keeps the discovery order among links
    of one score; and a link whose lowercased URL contains [carbone]
    comes strictly before any link that matches no stem. *)
Theorem find_candidate_links_ranked {B : Builtins} {L : WebLibs}
    (base_url html : str) (max_links : Z) (ranked : list str) :
  1 <= max_links ->
  find_candidate_links base_url html max_links = Ok ranked ->
  let base_domain := dotted (tld_domain base_url) (tld_suffix base_url) in
  exists links,
    collect_links base_url base_domain (soup_anchors html) = Ok links
    /\ NoDup ranked
    /\ Z.of_nat (length ranked) <= max_links
    /\ (forall u, u ∈ ranked ->
          exists href a_text,
            (href, a_text) ∈ soup_anchors html
            /\ urljoin base_url href = Ok u
            /\ is_internal_link u base_domain = Ok true)
    /\ (forall u s, (u, s) ∈ links <->
          exists href a_text,
            (href, a_text) ∈ soup_anchors html
            /\ urljoin base_url href = Ok u
            /\ is_internal_link u base_domain = Ok true
            /\ s = 5 * Z.of_nat
                         (length (filter
                                    (stem_matches (str_lower u)
                                       (str_lower a_text))
                                    link_stems)))
    /\ ranked
       = take (Z.to_nat max_links) (fresh_links (sorted_by_score links).*1 ∅)
    /\ StronglySorted by_score_desc (sorted_by_score links)
    /\ sorted_by_score links ≡ₚ links
    /\ (forall v, filter (fun p => p.2 = v) (sorted_by_score links)
                  = filter (fun p => p.2 = v) links)
    /\ (forall href a_text u v,
          (href, a_text) ∈ soup_anchors html ->
          urljoin base_url href = Ok u ->
          is_internal_link u base_domain = Ok true ->
          str_in (pystr "carbone") (str_lower u) = true ->
          (forall s, (v, s) ∈ links -> s = 0) ->
          v ∈ ranked ->
          exists i j,
            ranked !! i = Some u /\ ranked !! j = Some v /\ (i < j)%nat).
Proof.
  intros Hmax Hrun base_domain.
  pose proof (find_candidate_links_NoDup _ _ _ _ Hrun) as Hnodup.
  pose proof (find_candidate_links_elem _ _ _ _ Hrun) as Helem.
  apply find_candidate_links_Ok in Hrun as (links & Hcollect & Hranked).
  fold base_domain in Hcollect, Helem.
  replace (Z.to_nat (Z.max 1 max_links)) with (Z.to_nat max_links)
    in Hranked by lia.
  assert (Hlinks : forall u s, (u, s) ∈ links <->
    exists href a_text,
      (href, a_text) ∈ soup_anchors html
      /\ urljoin base_url href = Ok u
      /\ is_internal_link u base_domain = Ok true
      /\ s = 5 * Z.of_nat
                   (length (filter
                              (stem_matches (str_lower u) (str_lower a_text))
                              link_stems))).
  { intros u s. rewrite (elem_of_collect_links _ _ _ _ _ _ Hcollect).
    by setoid_rewrite link_score_loop_count. }
  exists links. split; [exact Hcollect|]. split; [exact Hnodup|].
  split; [rewrite Hranked, length_take; lia|].
  split; [intros u Hu; by apply Helem|].
  split; [exact Hlinks|]. split; [exact Hranked|].
  split; [apply sorted_by_score_sorted|].
  split; [apply sorted_by_score_perm|].
  split; [intros v; apply sorted_by_score_stable|].
  intros href a_text u v Hin Hjoin Hint Hcarbone Hv Hvranked.
  rewrite Hranked in Hvranked |- *.
  apply (ranked_before links _ u v
           (link_score_loop (str_lower u) (str_lower a_text) link_stems 0));
    [|eapply Z.lt_le_trans; [|eapply (link_score_stem _ _ (pystr "carbone"))]
     |done|done].
  - apply (elem_of_collect_links _ _ _ _ _ _ Hcollect).
    by exists href, a_text.
  - lia.
  - by vm_compute; set_solver.
  - unfold stem_matches. by rewrite Hcarbone.
Qed.

(** On the page of the ranking examples, [/bilan-carbone] comes first,
    then the other link that matches a stem, then the others. *)
Lemma find_candidate_links_ranked_witness :
  exists links,
    collect_links (B:=ref_builtins) (L:=ref_weblibs)
      (pystr "https://example.com") (pystr "example.com")
      (soup_anchors (WebLibs:=ref_weblibs) demo_links) = Ok links
    /\ map pystr [ "https://example.com/bilan-carbone";
                   "https://example.com/b";
                   "https://example.com/a";
                   "https://example.com/c" ]%string
       = take 50 (fresh_links (sorted_by_score links).*1 ∅).
Proof.
  destruct (find_candidate_links_ranked (B:=ref_builtins) (L:=ref_weblibs)
              (pystr "https://example.com") demo_links 50
              (map pystr [ "https://example.com/bilan-carbone";
                           "https://example.com/b";
                           "https://example.com/a";
                           "https://example.com/c" ]%string))
    as (links & Hcollect & _ & _ & _ & _ & Hranked & _).
  - lia.
  - by vm_compute.
  - exists links. split; [|exact Hranked].
    rewrite <- Hcollect. by vm_compute.
Defined.

(** ** C4 *)

(** C4, at a maximum of 0. The claim holds for a maximum of at least 1
    ([find_candidate_links_ranked]); asked for at most 0 links,
    [find_candidate_links] still returns one, because the length is
    compared with [max_links] only after a link is appended. *)
Theorem find_candidate_links_max_zero :
  find_candidate_links (B:=ref_builtins) (L:=ref_weblibs)
    (pystr "https://example.com") (pystr "<a href='/a'>x</a>") 0
  = Ok [pystr "https://example.com/a"].
Proof. by vm_compute. Qed.

(** A page one of whose anchors [urljoin] rejects: no link is returned. *)
Lemma find_candidate_links_bracket :
  find_candidate_links (B:=ref_builtins) (L:=ref_weblibs)
    (pystr "https://example.com") (pystr "<a href='//['>x</a>") 50
  = Raise (ValueError (pystr "Invalid IPv6 URL")).
Proof. by vm_compute. Qed.

(** ** X12 *)

Lemma fresh_links_head (l : list str) : head (fresh_links l ∅) = head l.
Proof.
  destruct l as [|x l]; [done|]. cbn [fresh_links].
  by rewrite bool_decide_eq_false_2 by set_solver.
Qed.

(** For every maximum, zero and negative ones included, a call of
    [find_candidate_links] that returns gives distinct URLs, at most
    [max(1, max_links)] of them, and none only when the page has no
    internal link; for a maximum of 1 or less it gives exactly the URL of
    the best-ranked link, as soon as the page has an internal link: the
    maximum never empties the result.  Every anchor of the page was then
    joined by [urljoin] and classified by [is_internal_link] without an
    exception, and the loop over the anchors returns exactly in that
    case. *)
Theorem find_candidate_links_any_max {B : Builtins} {L : WebLibs}
    (base_url html : str) (max_links : Z) (ranked : list str) :
  find_candidate_links base_url html max_links = Ok ranked ->
  let base_domain := dotted (tld_domain base_url) (tld_suffix base_url) in
  (exists links,
     collect_links base_url base_domain (soup_anchors html) = Ok links
     /\ NoDup ranked
     /\ Z.of_nat (length ranked) <= Z.max 1 max_links
     /\ (ranked = [] <-> links = [])
     /\ head ranked = fst <$> head (sorted_by_score links)
     /\ (max_links <= 1 -> ranked = option_list (head ranked)))
  /\ (forall href a_text,
        (href, a_text) ∈ soup_anchors html ->
        exists u internal,
          urljoin base_url href = Ok u
          /\ is_internal_link u base_domain = Ok internal)
  /\ (forall anchors,
        (exists links, collect_links base_url base_domain anchors = Ok links)
        <-> forall href a_text,
              (href, a_text) ∈ anchors ->
              exists u internal,
                urljoin base_url href = Ok u
                /\ is_internal_link u base_domain = Ok internal).
Proof.
  intros Hrun base_domain.
  pose proof (find_candidate_links_NoDup _ _ _ _ Hrun) as Hnodup.
  apply find_candidate_links_Ok in Hrun as (links & Hcollect & Hranked).
  fold base_domain in Hcollect.
  split; [|split; [|intros anchors; apply collect_links_returns]].
  2: { apply collect_links_returns. by exists links. }
  exists links. split; [exact Hcollect|].
  assert (Hhead : head ranked = fst <$> head (sorted_by_score links)).
  { rewrite Hranked.
    replace (Z.to_nat (Z.max 1 max_links))
      with (S (Z.to_nat (Z.max 1 max_links - 1))) by lia.
    pose proof (fresh_links_head (sorted_by_score links).*1) as Hfresh.
    destruct (fresh_links _ ∅) as [|u l]; cbn [take head] in *;
      rewrite Hfresh; by destruct (sorted_by_score links). }
  split; [exact Hnodup|].
  split; [rewrite Hranked, length_take; lia|].
  split.
  { split.
    - intros Hnil. rewrite Hnil in Hhead. cbn in Hhead.
      destruct (sorted_by_score links) as [|p l] eqn:Hs; [|done].
      apply Permutation_nil_r. by rewrite <- sorted_by_score_perm, Hs.
    - intros Hnil. rewrite Hranked, Hnil. cbn. by rewrite take_nil. }
  split; [exact Hhead|].
  intros Hmax. rewrite Hranked.
  replace (Z.to_nat (Z.max 1 max_links)) with 1%nat by lia.
  by destruct (fresh_links _ ∅).
Qed.

(** Asked for no link at all, the page with one link still gives it. *)
Lemma find_candidate_links_any_max_witness :
  [pystr "https://example.com/a"]
  = option_list (head [pystr "https://example.com/a"]).
Proof.
  destruct (find_candidate_links_any_max (B:=ref_builtins) (L:=ref_weblibs)
              (pystr "https://example.com") (pystr "<a href='/a'>x</a>") 0
              [pystr "https://example.com/a"])
    as ((links & _ & _ & _ & _ & _ & Hone) & _).
  - by vm_compute.
  - apply Hone. lia.
Defined.

(* ===================================================================== *)
(** * Further properties *)
(* ===================================================================== *)

Section LoopFacts.
Context {B : Builtins} {L : WebLibs} {N : Network}.

(** Records paired with the links they were fetched at: the URLs of the
    records are the links. *)
Lemma Forall2_page_of (links : list str) (pages : list page_info) :
  Forall2 page_of links pages <->
  map pi_url pages = links /\ Forall (fun p => page_of (pi_url p) p) pages.
Proof.
  split.
  - induction 1 as [|link p links pages Hp _ [IHurls IHall]]; [done|].
    pose proof (page_of_url _ _ Hp) as Hurl.
    split; [cbn [map]; by rewrite Hurl, IHurls|].
    constructor; [by rewrite Hurl|done].
  - intros [<- Hall]. induction Hall as [|p pages Hp _ IH]; constructor;
      done.
Qed.

Lemma fetched_links_sublist (candidate_links : list str)
    (visited : gset str) :
  fetched_links candidate_links visited
  `sublist_of` fresh_links candidate_links visited.
Proof. apply sublist_filter. Qed.

End LoopFacts.

(** ** X2 *)

(** For every page cap, [analyze_website]'s loop returns exactly when
    the candidates it fetches are analysed without an exception; it then
    appends to the pages it starts from the records of the candidates
    that are new and whose fetch gives a page, in their rank order, as
    far as the cap allows.  A crawl that returns from a home page scans
    between 1 and [max(1, max_pages)] pages. *)
Theorem crawl_in_rank_order {B : Builtins} {L : WebLibs} {N : Network}
    (max_pages : Z) (candidate_links : list str) (visited : gset str)
    (pages_data result : list page_info) (base_url html_home : str) :
  (crawl_loop max_pages candidate_links visited pages_data = Ok result
   <-> exists rest,
         result = pages_data ++ rest
         /\ map pi_url rest
            = take (Z.to_nat (max_pages - Z.of_nat (length pages_data)))
                (fetched_links candidate_links visited)
         /\ Forall (fun p => page_of (pi_url p) p) rest)
  /\ (crawl_pages base_url html_home max_pages = Ok result ->
      1 <= Z.of_nat (length result) <= Z.max 1 max_pages).
Proof.
  split; [|apply crawl_pages_length].
  rewrite crawl_loop_spec. by setoid_rewrite Forall2_page_of.
Qed.

(** For every text, the three hit counts of [analyze_text] are not
    negative and its three scores lie between 0 and 100. *)
Theorem analyze_text_ranges {B : Builtins} (text : str) :
  let s := analyze_text text in
  0 <= ts_rse_hits s /\ 0 <= ts_carbon_hits s /\ 0 <= ts_green_it_hits s
  /\ 0 <= ts_rse_score s <= 100
  /\ 0 <= ts_carbon_score s <= 100
  /\ 0 <= ts_green_it_score s <= 100.
Proof.
  unfold analyze_text.
  cbn [ts_rse_hits ts_carbon_hits ts_green_it_hits
       ts_rse_score ts_carbon_score ts_green_it_score].
  repeat split;
    first [apply count_keywords_nonneg | apply score_from_hits_range].
Qed.

(* ===================================================================== *)
(** * The two variants of the report *)
(* ===================================================================== *)

Section Variants.
Context {B : Builtins} {L : WebLibs} {N : Network}.

Lemma dom_site_report (base_url domain : str) (pages_data : list page_info) :
  dom (site_report base_url domain pages_data) = list_to_set REPORT_KEYS.
Proof. unfold site_report. cbv zeta. by rewrite dom_list_to_map_L. Qed.

Lemma site_report_avg_html_kb (base_url domain : str)
    (pages_data : list page_info) :
  pages_data <> [] ->
  site_report base_url domain pages_data !! "avg_html_kb"%string
  = Some (VFloat
            (py_round
               (fdiv (sum_floats (map pi_html_kb pages_data))
                  (to_float (Z.of_nat (length pages_data)))) 1)).
Proof.
  intros Hne.
  assert (Hpos : (0 <? Z.of_nat (length pages_data)) = true).
  { apply Z.ltb_lt. destruct pages_data; [done|]. cbn [length]. lia. }
  unfold site_report. cbv zeta. rewrite Hpos.
  cbn [list_to_map foldr uncurry fst snd]. dict_lookup.
Qed.

Lemma site_report_no_error (base_url domain : str)
    (pages_data : list page_info) :
  site_report base_url domain pages_data !! "error"%string = None.
Proof. apply not_elem_of_dom. rewrite dom_site_report. key_not_in_list. Qed.

(** The entries of a failure report. *)
Lemma failed_report_entries (base_url : str) (r : dict) :
  failed_report base_url = Ok r ->
  dom r = list_to_set FAILURE_KEYS
  /\ r !! "error"%string
     = Some (VStr (pystr "Impossible de récupérer la page d'accueil"))
  /\ r !! "pages_details"%string = Some (VPages [])
  /\ r !! "avg_html_kb"%string = None.
Proof.
  intros (parsed & _ & ->)%failed_report_Ok.
  split; [by rewrite dom_list_to_map_L|].
  cbn [list_to_map foldr uncurry fst snd]. repeat split; dict_lookup.
Qed.

(** The two reports [analyze_website] returns, told apart by the home
    page. *)
Lemma analyze_website_variants (url : str) (max_pages : Z) (r : dict) :
  analyze_website url max_pages = Ok r ->
  exists base_url,
    normalize_base_url url = Ok base_url
    /\ ((truthy (fetch_page base_url) = None
         /\ dom r = list_to_set FAILURE_KEYS
         /\ r !! "error"%string
            = Some (VStr (pystr "Impossible de récupérer la page d'accueil"))
         /\ r !! "pages_details"%string = Some (VPages [])
         /\ r !! "avg_html_kb"%string = None)
        \/ (exists html_home pages,
              truthy (fetch_page base_url) = Some html_home
              /\ crawl_pages base_url html_home max_pages = Ok pages
              /\ pages <> []
              /\ r = site_report base_url
                       (dotted (tld_domain base_url) (tld_suffix base_url))
                       pages
              /\ r !! "error"%string = None)).
Proof.
  intros (base_url & Hbase & [[Hhome Hr]|Hr])%analyze_website_Ok;
    exists base_url; (split; [done|]).
  - left. split; [done|]. by apply (failed_report_entries base_url).
  - right. destruct Hr as (html_home & pages & Hhome & Hpages & ->).
    exists html_home, pages. split; [done|]. split; [done|].
    split; [by eapply crawl_pages_nonempty|]. split; [done|].
    apply site_report_no_error.
Qed.

End Variants.

(** ** X5 *)

(** A report that [analyze_website] returns is of one of two kinds, and
    each of three tests tells which: the key [error] is present exactly
    when the page list is empty, exactly when [avg_html_kb] is absent,
    and exactly when the home page could not be fetched or was empty.
    A failure report has the four keys of its kind and a crawl report
    the 24 of its kind; a crawl report holds at least one page, and its
    [avg_html_kb] is the rounded mean: the guard against a division by
    zero pages is never taken. *)
Theorem report_variants {B : Builtins} {L : WebLibs} {N : Network}
    (url : str) (max_pages : Z) (r : dict) :
  analyze_website url max_pages = Ok r ->
  exists base_url pages,
    normalize_base_url url = Ok base_url
    /\ r !! "pages_details"%string = Some (VPages pages)
    /\ (is_Some (r !! "error"%string) <-> pages = [])
    /\ (is_Some (r !! "error"%string) <-> r !! "avg_html_kb"%string = None)
    /\ (is_Some (r !! "error"%string)
        <-> truthy (fetch_page base_url) = None)
    /\ (pages = [] -> dom r = list_to_set FAILURE_KEYS)
    /\ (pages <> [] ->
        dom r = list_to_set REPORT_KEYS
        /\ r !! "pages_scanned"%string
           = Some (VInt (Z.of_nat (length pages)))
        /\ r !! "avg_html_kb"%string
           = Some (VFloat
                     (py_round
                        (fdiv (sum_floats (map pi_html_kb pages))
                           (to_float (Z.of_nat (length pages)))) 1))).
Proof.
  intros (base_url & Hbase & [Hfailed|Hcrawled])%analyze_website_variants.
  - destruct Hfailed as (Hhome & Hdom & Herror & Hpages & Havg).
    exists base_url, []. split; [done|]. split; [done|].
    rewrite Herror, Havg, Hhome. by repeat split.
  - destruct Hcrawled as (html_home & pages & Hhome & _ & Hne & -> & Herror).
    exists base_url, pages. split; [done|].
    split; [apply site_report_pages_details|].
    rewrite Herror, Hhome, (site_report_avg_html_kb _ _ _ Hne).
    split; [split; [by intros [? ?]|done]|].
    split; [split; [by intros [? ?]|done]|].
    split; [split; [by intros [? ?]|done]|].
    split; [done|]. intros _.
    split; [apply dom_site_report|].
    split; [apply site_report_pages_scanned|done].
Qed.

Lemma report_variants_witness :
  exists r pages,
    analyze_website (B:=ref_builtins) (L:=ref_weblibs) (N:=demo_network)
      (pystr "example.com") MAX_PAGES = Ok r
    /\ r !! "pages_details"%string = Some (VPages pages).
Proof.
  assert (Hdemo :
    match analyze_website (B:=ref_builtins) (L:=ref_weblibs)
            (N:=demo_network) (pystr "example.com") MAX_PAGES with
    | Ok _ => true
    | Raise _ => false
    end = true) by (by vm_compute).
  destruct (analyze_website (B:=ref_builtins) (L:=ref_weblibs)
              (N:=demo_network) (pystr "example.com") MAX_PAGES)
    as [r|e] eqn:Hrun; [|discriminate Hdemo].
  destruct (report_variants (B:=ref_builtins) (L:=ref_weblibs)
              (N:=demo_network) (pystr "example.com") MAX_PAGES r Hrun)
    as (base_url & pages & _ & Hpages & _).
  exists r, pages. split; [reflexivity|exact Hpages].
Defined.

(* ===================================================================== *)
(** * The estimator after the crawl *)
(* ===================================================================== *)

Lemma dom_carbon_result (l : carbon_locals) (views : Z) (wm e ci : float) :
  dom (carbon_result l views wm e ci) = list_to_set ESTIMATE_KEYS.
Proof. unfold carbon_result. by rewrite dom_list_to_map_L. Qed.

Lemma carbon_chain_float (x : float) (views : Z) (v wm e ci : float) :
  float_of_int views = Ok v ->
  exists l, carbon_chain (VFloat x) views wm e ci = Ok l
            /\ avg_kb_per_page l = fmul x wm.
Proof.
  intros Hv. unfold carbon_chain. cbn [value_times_float bind].
  rewrite Hv. cbn [bind]. eexists. split; reflexivity.
Qed.

(** ** X7 *)

(** The estimator after the crawl: for page views a float can hold, the
    estimate of a report that [analyze_website] returned raises
    [ValueError] exactly when the report is a failure report (it holds
    the key [error]); on a crawl report it returns the five keys, the
    displayed page weight being the report's [avg_html_kb] times the
    weight multiplier, rounded to one decimal. *)
Theorem estimate_after_crawl {B : Builtins} {L : WebLibs} {N : Network}
    (url : str) (max_pages monthly_page_views : Z) (views : float)
    (report : dict) :
  analyze_website url max_pages = Ok report ->
  float_of_int monthly_page_views = Ok views ->
  let out := estimate_site_carbon_default report monthly_page_views in
  match report !! "error"%string with
  | Some _ => exists msg, out = Raise (ValueError msg)
  | None =>
      exists r avg,
        report !! "avg_html_kb"%string = Some (VFloat avg)
        /\ out = Ok r
        /\ dom r = list_to_set ESTIMATE_KEYS
        /\ r !! "avg_kb_per_page"%string
           = Some (VFloat (py_round (fmul avg DEFAULT_WEIGHT_MULTIPLIER) 1))
  end.
Proof.
  intros (base_url & Hbase & [Hfailed|Hcrawled])%analyze_website_variants
    Hviews out; subst out.
  - destruct Hfailed as (_ & _ & -> & _ & Havg). eexists.
    by apply estimate_site_carbon_missing.
  - destruct Hcrawled as (html_home & pages & _ & _ & Hne & Hr & ->).
    pose proof (site_report_avg_html_kb base_url
                  (dotted (tld_domain base_url) (tld_suffix base_url))
                  pages Hne) as Hkb.
    rewrite <- Hr in Hkb. clear Hr.
    set (avg := py_round _ 1) in Hkb.
    destruct (carbon_chain_float avg monthly_page_views views
                DEFAULT_WEIGHT_MULTIPLIER DEFAULT_ENERGY_PER_GB_KWH
                DEFAULT_CARBON_INTENSITY_G_PER_KWH Hviews)
      as (l & Hl & Havg).
    exists (carbon_result l monthly_page_views DEFAULT_WEIGHT_MULTIPLIER
              DEFAULT_ENERGY_PER_GB_KWH DEFAULT_CARBON_INTENSITY_G_PER_KWH),
           avg.
    split; [exact Hkb|].
    unfold estimate_site_carbon_default.
    rewrite (estimate_site_carbon_float _ _ _ _ _ _ Hkb), Hl.
    cbn [bind]. split; [reflexivity|]. split; [apply dom_carbon_result|].
    unfold carbon_result. cbn [list_to_map foldr uncurry fst snd].
    rewrite Havg. dict_lookup.
Qed.

Lemma estimate_after_crawl_witness :
  exists report r,
    analyze_website (B:=ref_builtins) (L:=ref_weblibs) (N:=demo_network)
      (pystr "example.com") MAX_PAGES = Ok report
    /\ estimate_site_carbon_default report 10000 = Ok r.
Proof.
  assert (Hdemo :
    match analyze_website (B:=ref_builtins) (L:=ref_weblibs)
            (N:=demo_network) (pystr "example.com") MAX_PAGES with
    | Ok r => r !! "error"%string
    | Raise _ => Some VNone
    end = None) by (by vm_compute).
  destruct (analyze_website (B:=ref_builtins) (L:=ref_weblibs)
              (N:=demo_network) (pystr "example.com") MAX_PAGES)
    as [report|e] eqn:Hrun; [|done].
  pose proof (estimate_after_crawl (B:=ref_builtins) (L:=ref_weblibs)
                (N:=demo_network) (pystr "example.com") MAX_PAGES 10000
                (to_float 10000) report Hrun eq_refl) as Hest.
  cbv zeta in Hest. rewrite Hdemo in Hest.
  destruct Hest as (r & avg & _ & Hout & _).
  exists report, r. split; [reflexivity|exact Hout].
Defined.

(* ===================================================================== *)
(** * Where the pages of a report come from *)
(* ===================================================================== *)

Lemma fresh_links_sublist (l : list str) (seen : gset str) :
  fresh_links l seen `sublist_of` l.
Proof.
  revert seen. induction l as [|x l IH]; intros seen; cbn [fresh_links].
  - constructor.
  - case_bool_decide; [by apply sublist_cons|by apply sublist_skip].
Qed.

Section Provenance.
Context {B : Builtins} {L : WebLibs} {N : Network}.

Lemma truthy_fetch_page_Some (url html : str) :
  truthy (fetch_page url) = Some html ->
  html <> []
  /\ exists content_type,
       requests_get url = HttpResponse 200 (Some content_type) html
       /\ str_in (pystr "text/html") content_type = true.
Proof.
  unfold fetch_page.
  destruct (requests_get url) as [|status [ct|] text]; cbn [default from_option id];
    [done| |].
  - destruct (Z.eqb_spec status 200) as [->|]; cbn [andb]; [|done].
    destruct (str_in _ ct) eqn:Hct; [|done].
    destruct text as [|c text]; [done|]. intros [= <-].
    split; [done|]. by exists ct.
  - by rewrite andb_false_r.
Qed.

Lemma page_of_served (link : str) (p : page_info) :
  page_of link p ->
  exists content_type body,
    requests_get (pi_url p) = HttpResponse 200 (Some content_type) body
    /\ str_in (pystr "text/html") content_type = true
    /\ body <> []
    /\ analyze_page body (pi_url p) = Ok p.
Proof.
  intros Hpage. pose proof (page_of_url _ _ Hpage) as ->.
  destruct Hpage as (body & Hfetch & Hp).
  apply truthy_fetch_page_Some in Hfetch as (Hne & ct & Hget & Hct).
  by exists ct, body.
Qed.

End Provenance.

(** ** X8 *)

(** The pages of a crawl report. Their URLs are distinct: the base URL
    first, then candidates of the home page in their rank order.  Every
    page was served with status 200, a content type containing
    [text/html] and a non-empty body, and its record is the analysis of
    that body; every page but the home page is the target of an anchor of
    the home page that [is_internal_link] accepts. *)
Theorem crawled_pages_provenance {B : Builtins} {L : WebLibs} {N : Network}
    (url base_url html_home : str) (max_pages : Z) (report : dict) :
  normalize_base_url url = Ok base_url ->
  truthy (fetch_page base_url) = Some html_home ->
  analyze_website url max_pages = Ok report ->
  let base_domain := dotted (tld_domain base_url) (tld_suffix base_url) in
  exists home_info candidate_links rest,
    analyze_page html_home base_url = Ok home_info
    /\ find_candidate_links base_url html_home 50 = Ok candidate_links
    /\ report !! "pages_details"%string = Some (VPages (home_info :: rest))
    /\ NoDup (map pi_url (home_info :: rest))
    /\ pi_url home_info = base_url
    /\ map pi_url rest `sublist_of` candidate_links
    /\ (forall p, p ∈ home_info :: rest ->
          exists content_type body,
            requests_get (pi_url p)
            = HttpResponse 200 (Some content_type) body
            /\ str_in (pystr "text/html") content_type = true
            /\ body <> []
            /\ analyze_page body (pi_url p) = Ok p)
    /\ (forall p, p ∈ rest ->
          exists href a_text,
            (href, a_text) ∈ soup_anchors html_home
            /\ urljoin base_url href = Ok (pi_url p)
            /\ is_internal_link (pi_url p) base_domain = Ok true).
Proof.
  intros Hbase Hhome Hrun base_domain.
  destruct (analyze_website_fetched _ _ _ _ _ Hbase Hhome Hrun)
    as (pages & Hpages & ->).
  apply crawl_pages_Ok in Hpages
    as (home_info & candidate_links & rest & Hhome_info & Hlinks & ->
        & Hrest).
  pose proof (proj1 (analyze_page_Ok _ _ _ Hhome_info)) as Hurl.
  pose proof Hrest as Hpaired.
  apply Forall2_page_of in Hrest as [Hurls Hall].
  assert (Hsub : map pi_url rest
                 `sublist_of` fresh_links candidate_links {[base_url]}).
  { rewrite Hurls. etransitivity; [apply sublist_take|].
    apply fetched_links_sublist. }
  exists home_info, candidate_links, rest.
  split; [done|]. split; [done|].
  split; [apply site_report_pages_details|].
  split.
  { cbn [map]. rewrite Hurl. constructor.
    - intros Hin. eapply elem_of_sublist in Hin; [|exact Hsub].
      apply elem_of_fresh_links in Hin. set_solver.
    - eapply sublist_NoDup; [apply NoDup_fresh_links|exact Hsub]. }
  split; [exact Hurl|].
  split; [etransitivity; [exact Hsub|apply fresh_links_sublist]|].
  split.
  - intros p [->|Hp]%elem_of_cons.
    + apply (page_of_served base_url). by exists html_home.
    + rewrite Forall_forall in Hall. by eapply page_of_served, Hall.
  - intros p Hp.
    assert (Hin : pi_url p ∈ candidate_links).
    { eapply elem_of_sublist;
        [|etransitivity; [exact Hsub|apply fresh_links_sublist]].
      apply list_elem_of_fmap. by exists p. }
    by apply (find_candidate_links_elem _ _ _ _ Hlinks).
Qed.

Lemma crawled_pages_provenance_witness :
  exists report home_info rest,
    analyze_website (B:=ref_builtins) (L:=ref_weblibs) (N:=demo_network)
      (pystr "example.com") MAX_PAGES = Ok report
    /\ report !! "pages_details"%string = Some (VPages (home_info :: rest))
    /\ NoDup (map pi_url (home_info :: rest)).
Proof.
  assert (Hdemo :
    match analyze_website (B:=ref_builtins) (L:=ref_weblibs)
            (N:=demo_network) (pystr "example.com") MAX_PAGES with
    | Ok _ => true
    | Raise _ => false
    end = true) by (by vm_compute).
  destruct (analyze_website (B:=ref_builtins) (L:=ref_weblibs)
              (N:=demo_network) (pystr "example.com") MAX_PAGES)
    as [report|e] eqn:Hrun; [|discriminate Hdemo].
  destruct (crawled_pages_provenance (B:=ref_builtins) (L:=ref_weblibs)
              (N:=demo_network) (pystr "example.com")
              (pystr "https://example.com")
              (pystr "Bilan Carbone <a href='/rse'>Notre RSE</a><a href='/gone'>Contact</a><a href='/blank'>Vide</a>")
              MAX_PAGES report)
    as (home_info & candidate_links & rest & _ & _ & Hpages & Hnodup & _).
  - by vm_compute.
  - by vm_compute.
  - exact Hrun.
  - exists report, home_info, rest.
    split; [reflexivity|]. split; [exact Hpages|exact Hnodup].
Defined.

(* ===================================================================== *)
(** * Flags, totals and scores of a report *)
(* ===================================================================== *)

Lemma score_from_hits_pos (hits : Z) :
  0 < score_from_hits hits 20 <-> 0 < hits.
Proof.
  rewrite score_from_hits_20.
  destruct (Z.leb_spec hits 0); [lia|].
  destruct (Z.leb_spec 20 hits); [lia|].
  replace (hits * 100) with (5 * hits * 20) by lia.
  rewrite Z.div_mul by lia. lia.
Qed.

Lemma score_from_hits_mono (h1 h2 : Z) :
  h1 <= h2 -> score_from_hits h1 20 <= score_from_hits h2 20.
Proof.
  intros Hle. rewrite !score_from_hits_20.
  destruct (Z.leb_spec h1 0), (Z.leb_spec h2 0); try lia;
    destruct (Z.leb_spec 20 h1), (Z.leb_spec 20 h2); try lia.
  - pose proof (Z.div_pos (h2 * 100) 20). lia.
  - apply Z.div_le_upper_bound; lia.
  - apply Z.div_le_mono; lia.
Qed.

Lemma py_sum_elem_le (l : list Z) (x : Z) :
  Forall (fun y => 0 <= y) l -> x ∈ l -> x <= py_sum l.
Proof.
  induction 1 as [|y l Hy Hl IH]; [by intros ?%elem_of_nil|].
  rewrite py_sum_cons. pose proof (py_sum_nonneg l Hl).
  intros [->|Hx]%elem_of_cons; [lia|]. specialize (IH Hx). lia.
Qed.

Lemma py_sum_pos (l : list Z) :
  Forall (fun y => 0 <= y) l ->
  0 < py_sum l <-> exists x, x ∈ l /\ 0 < x.
Proof.
  intros Hl. split.
  - induction Hl as [|y l Hy Hl IH]; [unfold py_sum; cbn; lia|].
    rewrite py_sum_cons. intros Hpos.
    destruct (decide (0 < y)) as [Hy'|Hy'].
    + exists y. split; [left|done].
    + destruct IH as (x & Hx & Hx'); [lia|].
      exists x. split; [by right|done].
  - intros (x & Hx & Hpos). pose proof (py_sum_elem_le l x Hl Hx). lia.
Qed.

Lemma is_maximum_pos (m : Z) (l : list Z) :
  is_maximum m l -> 0 < m <-> exists x, x ∈ l /\ 0 < x.
Proof.
  intros [Hin Hle]. split.
  - intros Hpos. by exists m.
  - intros (x & Hx & Hpos). specialize (Hle x Hx). lia.
Qed.

Lemma is_maximum_unique (m1 m2 : Z) (l : list Z) :
  is_maximum m1 l -> is_maximum m2 l -> m1 = m2.
Proof.
  intros [Hin1 Hle1] [Hin2 Hle2].
  specialize (Hle1 m2 Hin2). specialize (Hle2 m1 Hin1). lia.
Qed.

(** The maximum of the scores is the score of the maximum of the hits. *)
Lemma py_max_scores (hits : list Z) :
  hits <> [] ->
  py_max (map (fun h => score_from_hits h 20) hits)
  = score_from_hits (py_max hits) 20.
Proof.
  intros Hne.
  apply (is_maximum_unique _ _ (map (fun h => score_from_hits h 20) hits)).
  - apply py_max_is_maximum. by destruct hits.
  - destruct (py_max_is_maximum hits Hne) as [Hin Hle]. split.
    + apply list_elem_of_fmap. by exists (py_max hits).
    + intros s (h & -> & Hh)%list_elem_of_fmap.
      by apply score_from_hits_mono, Hle.
Qed.

(** One taxonomy of a report: [hits] and [score] read the hit count and
    the score of that taxonomy off a page. *)
Lemma taxonomy_flag (hits score : page_info -> Z) (pages : list page_info) :
  pages <> [] ->
  (forall p, p ∈ pages -> 0 <= hits p) ->
  (forall p, p ∈ pages -> score p = score_from_hits (hits p) 20) ->
  (0 <? py_sum (map hits pages)) = bool_decide (0 < py_max (map score pages))
  /\ py_max (map score pages) = score_from_hits (py_max (map hits pages)) 20
  /\ 0 <= py_max (map score pages) <= 100.
Proof.
  intros Hne Hnonneg Hscore.
  assert (Hmap : map score pages
                 = map (fun h => score_from_hits h 20) (map hits pages)).
  { rewrite map_map. apply map_ext_in. intros p Hp%list_elem_of_In.
    by apply Hscore. }
  assert (Hne' : map hits pages <> []) by by destruct pages.
  rewrite Hmap, py_max_scores by done.
  split; [|split; [done|apply score_from_hits_range]].
  rewrite ltb_bool_decide. apply bool_decide_ext.
  rewrite score_from_hits_pos.
  rewrite py_sum_pos, (is_maximum_pos _ _ (py_max_is_maximum _ Hne')); [done|].
  apply Forall_forall. intros h (p & -> & Hp)%list_elem_of_fmap.
  by apply Hnonneg.
Qed.

(** ** X9 *)

(** In a crawl report that [analyze_website] returned, each presence flag
    says that the matching site-level score is positive:
    [has_rse_content] with [global_rse_score], [has_carbon_mentions] with
    [global_carbon_score], [has_green_it] with [global_green_it_score];
    each site-level score lies between 0 and 100 and is the score of the
    largest per-page hit count of its taxonomy. *)
Theorem flags_match_scores {B : Builtins} {L : WebLibs} {N : Network}
    (url : str) (max_pages : Z) (r : dict) :
  analyze_website url max_pages = Ok r ->
  r !! "error"%string = None ->
  exists pages g_rse g_carbon g_green_it,
    r !! "pages_details"%string = Some (VPages pages)
    /\ r !! "global_rse_score"%string = Some (VInt g_rse)
    /\ r !! "global_carbon_score"%string = Some (VInt g_carbon)
    /\ r !! "global_green_it_score"%string = Some (VInt g_green_it)
    /\ r !! "has_rse_content"%string = Some (VBool (bool_decide (0 < g_rse)))
    /\ r !! "has_carbon_mentions"%string
       = Some (VBool (bool_decide (0 < g_carbon)))
    /\ r !! "has_green_it"%string
       = Some (VBool (bool_decide (0 < g_green_it)))
    /\ g_rse
       = score_from_hits (py_max (map (ts_rse_hits ∘ pi_scores) pages)) 20
    /\ g_carbon
       = score_from_hits (py_max (map (ts_carbon_hits ∘ pi_scores) pages)) 20
    /\ g_green_it
       = score_from_hits
           (py_max (map (ts_green_it_hits ∘ pi_scores) pages)) 20
    /\ 0 <= g_rse <= 100 /\ 0 <= g_carbon <= 100 /\ 0 <= g_green_it <= 100.
Proof.
  intros (base_url & Hbase & [Hfailed|Hcrawled])%analyze_website_variants
    Hnoerror.
  { destruct Hfailed as (_ & _ & Herror & _). congruence. }
  destruct Hcrawled as (html_home & pages & _ & Hpages & Hne & -> & _).
  clear Hnoerror.
  set (domain := dotted _ _).
  pose proof (crawl_pages_scores _ _ _ _ Hpages) as Hscores.
  clear Hpages.
  destruct (taxonomy_flag (ts_rse_hits ∘ pi_scores)
              (ts_rse_score ∘ pi_scores) pages Hne) as (Hf1 & Hg1 & Hr1).
  { intros p Hp. unfold compose. rewrite (Hscores p Hp).
    apply count_keywords_nonneg. }
  { intros p Hp. unfold compose. by rewrite (Hscores p Hp). }
  destruct (taxonomy_flag (ts_carbon_hits ∘ pi_scores)
              (ts_carbon_score ∘ pi_scores) pages Hne) as (Hf2 & Hg2 & Hr2).
  { intros p Hp. unfold compose. rewrite (Hscores p Hp).
    apply count_keywords_nonneg. }
  { intros p Hp. unfold compose. by rewrite (Hscores p Hp). }
  destruct (taxonomy_flag (ts_green_it_hits ∘ pi_scores)
              (ts_green_it_score ∘ pi_scores) pages Hne) as (Hf3 & Hg3 & Hr3).
  { intros p Hp. unfold compose. rewrite (Hscores p Hp).
    apply count_keywords_nonneg. }
  { intros p Hp. unfold compose. by rewrite (Hscores p Hp). }
  exists pages. do 3 eexists.
  split; [report_lookup|].
  do 3 (split; [report_lookup|]).
  split; [rewrite <- Hf1; report_lookup|].
  split; [rewrite <- Hf2; report_lookup|].
  split; [rewrite <- Hf3; report_lookup|].
  split; [exact Hg1|]. split; [exact Hg2|]. split; [exact Hg3|].
  split; [exact Hr1|]. split; [exact Hr2|exact Hr3].
Qed.

Lemma flags_match_scores_witness :
  exists r,
    analyze_website (B:=ref_builtins) (L:=ref_weblibs) (N:=demo_network)
      (pystr "example.com") MAX_PAGES = Ok r
    /\ r !! "has_green_it"%string = Some (VBool false).
Proof.
  assert (Hdemo :
    match analyze_website (B:=ref_builtins) (L:=ref_weblibs)
            (N:=demo_network) (pystr "example.com") MAX_PAGES with
    | Ok r =>
        match r !! "error"%string, r !! "global_green_it_score"%string with
        | None, Some (VInt 0) => true
        | _, _ => false
        end
    | Raise _ => false
    end = true) by (by vm_compute).
  destruct (analyze_website (B:=ref_builtins) (L:=ref_weblibs)
              (N:=demo_network) (pystr "example.com") MAX_PAGES)
    as [r|e] eqn:Hrun; [|discriminate Hdemo].
  destruct (r !! "error"%string) as [v|] eqn:Herror; [discriminate Hdemo|].
  destruct (flags_match_scores (B:=ref_builtins) (L:=ref_weblibs)
              (N:=demo_network) (pystr "example.com") MAX_PAGES r Hrun Herror)
    as (pages & g1 & g2 & g3 & _ & _ & _ & Hg3 & _ & _ & Hflag & _).
  exists r. split; [reflexivity|]. rewrite Hflag.
  rewrite Hg3 in Hdemo.
  destruct g3 as [|g3|g3]; [reflexivity|discriminate Hdemo..].
Defined.

(* ===================================================================== *)
(** * The explicit-accounting flag *)
(* ===================================================================== *)

Lemma str_in_count (p s : str) :
  p <> [] -> str_in p s = true -> 1 <= str_count s p.
Proof.
  destruct p as [|a p]; [done|intros _]. unfold str_count.
  induction s as [|c s IH]; [done|].
  cbn [str_in count_from].
  destruct (startswith (c :: s) (a :: p)) eqn:Hsw.
  - intros _. pose proof (count_from_nonneg (a :: p) s
                            (length (a :: p) - 1)). lia.
  - cbn [orb]. exact IH.
Qed.

Lemma str_in_startswith (p s : str) :
  startswith s p = true -> str_in p s = true.
Proof. intros Hsw. destruct s; cbn [str_in]; by rewrite Hsw. Qed.

Lemma str_in_app (p a b : str) : str_in p (a ++ p ++ b) = true.
Proof.
  induction a as [|c a IH].
  - change ([] ++ p ++ b) with (p ++ b).
    apply str_in_startswith, startswith_app.
  - cbn [app str_in]. rewrite IH. apply orb_true_r.
Qed.

Lemma Some_VBool_inj (a b : bool) : Some (VBool a) = Some (VBool b) -> a = b.
Proof. congruence. Qed.

Section ExplicitFlag.
Context {B : Builtins}.

Lemma count_keywords_ge (text kw : str) (keywords : list str) :
  kw ∈ keywords ->
  str_count (str_lower text) (str_lower kw) <= count_keywords text keywords.
Proof.
  intros Hkw. rewrite count_keywords_sum. apply py_sum_elem_le.
  - apply Forall_forall. intros n (k & -> & _)%list_elem_of_fmap.
    apply str_count_nonneg.
  - apply list_elem_of_fmap. by exists kw.
Qed.

Lemma explicit_phrase_counts (text : str) :
  str_lower (pystr "bilan carbone") = pystr "bilan carbone" ->
  str_in (pystr "bilan carbone") (str_lower text) = true ->
  1 <= count_keywords text CARBON_KEYWORDS.
Proof.
  intros Hlower Hin.
  etransitivity; [|apply (count_keywords_ge _ (pystr "bilan carbone"))].
  - rewrite Hlower. by apply str_in_count.
  - by vm_compute; left.
Qed.

End ExplicitFlag.

(** ** X10 *)

(** When lowercasing leaves the phrase [bilan carbone] as it is, a report
    that [analyze_website] returned and whose
    [has_bilan_carbone_explicit] flag is set also has
    [has_carbon_mentions] set, a positive [total_carbon_hits], and a
    summary that contains the sentence about an explicit carbon
    balance. *)
Theorem explicit_implies_carbon {B : Builtins} {L : WebLibs} {N : Network}
    (url : str) (max_pages : Z) (r : dict) :
  str_lower (pystr "bilan carbone") = pystr "bilan carbone" ->
  analyze_website url max_pages = Ok r ->
  r !! "has_bilan_carbone_explicit"%string = Some (VBool true) ->
  r !! "has_carbon_mentions"%string = Some (VBool true)
  /\ (exists total, r !! "total_carbon_hits"%string = Some (VInt total)
                    /\ 0 < total)
  /\ exists summary,
       r !! "summary"%string = Some (VStr summary)
       /\ str_in (pystr "Mention explicite d'un bilan carbone.") summary
          = true.
Proof.
  intros Hlower
    (base_url & Hbase & [Hfailed|Hcrawled])%analyze_website_variants.
  { destruct Hfailed as (_ & Hdom & _).
    assert (Hnone : r !! "has_bilan_carbone_explicit"%string = None).
    { apply not_elem_of_dom. rewrite Hdom. key_not_in_list. }
    rewrite Hnone. discriminate. }
  destruct Hcrawled as (html_home & pages & _ & Hpages & _ & -> & _).
  set (domain := dotted _ _).
  pose proof (crawl_pages_scores _ _ _ _ Hpages) as Hscores.
  clear Hpages.
  assert (Hflag :
    site_report base_url domain pages !! "has_bilan_carbone_explicit"%string
    = Some (VBool
              (existsb
                 (fun p => str_in (pystr "bilan carbone")
                             (str_lower (pi_text p))) pages)))
    by report_lookup.
  rewrite Hflag. intros Hexplicit%Some_VBool_inj.
  assert (Htotal : 0 < py_sum (map (ts_carbon_hits ∘ pi_scores) pages)).
  { apply existsb_elem_of in Hexplicit as (p & Hp & Hin).
    pose proof (explicit_phrase_counts _ Hlower Hin) as Hone.
    assert (Hle : count_keywords (pi_text p) CARBON_KEYWORDS
                  <= py_sum (map (ts_carbon_hits ∘ pi_scores) pages));
      [|lia].
    apply py_sum_elem_le.
    - apply Forall_forall. intros n (q & -> & Hq)%list_elem_of_fmap.
      unfold compose. rewrite (Hscores q Hq). apply count_keywords_nonneg.
    - apply list_elem_of_fmap. exists p. split; [|done].
      unfold compose. by rewrite (Hscores p Hp). }
  assert (Hcarbon :
    site_report base_url domain pages !! "has_carbon_mentions"%string
    = Some (VBool (0 <? py_sum (map (ts_carbon_hits ∘ pi_scores) pages))))
    by report_lookup.
  assert (Hsummary : exists tail,
    site_report base_url domain pages !! "summary"%string
    = Some (VStr
              ((if 0 <? py_sum (map (ts_rse_hits ∘ pi_scores) pages)
                then pystr "L'entreprise communique sur la RSE / l'environnement."
                else pystr "Aucun contenu RSE clair trouvé sur les pages analysées.")
               ++ pystr " "
               ++ (if 0 <? py_sum (map (ts_carbon_hits ∘ pi_scores) pages)
                   then
                     if existsb
                          (fun p => str_in (pystr "bilan carbone")
                                      (str_lower (pi_text p))) pages
                     then pystr "Mention explicite d'un bilan carbone."
                     else pystr "Mention d'émissions carbone / CO2, sans bilan carbone clairement identifié."
                   else pystr "Aucune mention significative de carbone / CO2 trouvée.")
               ++ tail))).
  { eexists. unfold site_report. cbv zeta. cbn [str_join].
    cbn [list_to_map foldr uncurry fst snd]. dict_lookup. }
  destruct Hsummary as [tail Hsummary].
  apply Z.ltb_lt in Htotal. rewrite Htotal in Hcarbon, Hsummary.
  rewrite Hexplicit in Hsummary.
  split; [exact Hcarbon|].
  split.
  { eexists. split; [report_lookup|]. by apply Z.ltb_lt. }
  eexists. split; [exact Hsummary|].
  match goal with
  | |- str_in ?p (?a ++ ?s ++ ?p ++ ?b) = true =>
      rewrite (app_assoc a s); apply str_in_app
  end.
Qed.

Lemma explicit_implies_carbon_witness :
  exists r,
    analyze_website (B:=ref_builtins) (L:=ref_weblibs) (N:=demo_network)
      (pystr "example.com") MAX_PAGES = Ok r
    /\ r !! "has_carbon_mentions"%string = Some (VBool true).
Proof.
  assert (Hdemo :
    match analyze_website (B:=ref_builtins) (L:=ref_weblibs)
            (N:=demo_network) (pystr "example.com") MAX_PAGES with
    | Ok r =>
        match r !! "has_bilan_carbone_explicit"%string with
        | Some (VBool true) => true
        | _ => false
        end
    | Raise _ => false
    end = true) by (by vm_compute).
  destruct (analyze_website (B:=ref_builtins) (L:=ref_weblibs)
              (N:=demo_network) (pystr "example.com") MAX_PAGES)
    as [r|e] eqn:Hrun; [|discriminate Hdemo].
  exists r. split; [reflexivity|].
  apply (explicit_implies_carbon (B:=ref_builtins) (L:=ref_weblibs)
           (N:=demo_network) (pystr "example.com") MAX_PAGES r);
    [by vm_compute|exact Hrun|].
  destruct (r !! "has_bilan_carbone_explicit"%string)
    as [[|[|]| | | | |]|]; (reflexivity || discriminate Hdemo).
Defined.

(* ===================================================================== *)
(** * Text extraction *)
(* ===================================================================== *)

Lemma collapse_spaces_single (in_run : bool) (s : str) :
  single_spaced in_run (collapse_spaces in_run s) = true.
Proof.
  revert in_run. induction s as [|c s IH]; intros in_run; [done|].
  cbn [collapse_spaces]. destruct (is_space c) eqn:Hc.
  - destruct in_run; [apply IH|].
    cbn [single_spaced]. change (is_space 32) with true. cbn. apply IH.
  - cbn [single_spaced]. rewrite Hc. apply IH.
Qed.

Lemma single_spaced_weaken (prev : bool) (t : str) :
  single_spaced prev t = true -> single_spaced false t = true.
Proof.
  destruct t as [|c t]; [done|]. cbn [single_spaced].
  destruct (is_space c); [|done]. destruct prev; [|done].
  by rewrite andb_false_r.
Qed.

Lemma single_spaced_app (prev : bool) (a t : str) :
  single_spaced prev (a ++ t) = true ->
  single_spaced prev a = true /\ single_spaced false t = true.
Proof.
  revert prev. induction a as [|c a IH]; intros prev; cbn [app].
  - intros Ht. split; [done|]. by eapply single_spaced_weaken.
  - cbn [single_spaced]. destruct (is_space c).
    + intros [Hc Hrest]%andb_true_iff. apply IH in Hrest as [Ha Ht].
      by rewrite Hc, Ha.
    + apply IH.
Qed.

Lemma single_spaced_lookup (prev : bool) (t : str) :
  single_spaced prev t = true ->
  (forall c, c ∈ t -> is_space c = true -> c = 32%N)
  /\ (forall i a b, t !! i = Some a -> t !! S i = Some b ->
        is_space a && is_space b = false).
Proof.
  revert prev. induction t as [|c t IH]; intros prev.
  - intros _. split; [by intros c ?%elem_of_nil|by intros [|i] a b].
  - cbn [single_spaced]. destruct (is_space c) eqn:Hc.
    + intros [[Hc32%N.eqb_eq _]%andb_true_iff Hrest]%andb_true_iff.
      pose proof Hrest as Hrest'. apply IH in Hrest as [Hall Hadj].
      split.
      * intros d [->|Hd]%elem_of_cons; [done|]. by apply Hall.
      * intros [|i] a b.
        -- cbn. intros [= <-] Hb. destruct t as [|d t]; [done|].
           cbn in Hb. injection Hb as <-. cbn [single_spaced] in Hrest'.
           destruct (is_space d); [|by rewrite andb_false_r].
           by rewrite andb_false_r in Hrest'.
        -- cbn. apply Hadj.
    + intros Hrest. apply IH in Hrest as [Hall Hadj]. split.
      * intros d [->|Hd]%elem_of_cons; [congruence|]. by apply Hall.
      * intros [|i] a b; [|apply Hadj].
        cbn. intros [= <-] _. by rewrite Hc.
Qed.

Lemma lstrip_suffix (s : str) : exists a, s = a ++ lstrip s.
Proof.
  induction s as [|c s [a IH]]; [by exists []|]. cbn [lstrip].
  destruct (is_space c); [|by exists []].
  exists (c :: a). cbn. by rewrite <- IH.
Qed.

Lemma lstrip_head (s : str) (c : N) :
  head (lstrip s) = Some c -> is_space c = false.
Proof.
  induction s as [|d s IH]; [done|]. cbn [lstrip].
  destruct (is_space d) eqn:Hd; [done|]. cbn. by intros [= <-].
Qed.

(** [strip] keeps a middle part of the text. *)
Lemma strip_infix (s : str) : exists a b, s = a ++ strip s ++ b.
Proof.
  unfold strip. destruct (lstrip_suffix s) as [a Ha].
  destruct (lstrip_suffix (rev (lstrip s))) as [b Hb].
  exists a, (rev b).
  apply (f_equal (@rev N)) in Hb.
  rewrite rev_involutive, rev_app_distr in Hb. by rewrite <- Hb.
Qed.

Lemma last_rev (s : str) : last (rev s) = head s.
Proof. destruct s as [|c s]; [done|]. cbn [rev]. apply last_snoc. Qed.

Lemma strip_ends (s : str) (c : N) :
  (head (strip s) = Some c -> is_space c = false)
  /\ (last (strip s) = Some c -> is_space c = false).
Proof.
  unfold strip. split.
  - destruct (lstrip_suffix (rev (lstrip s))) as [b Hb].
    apply (f_equal (@rev N)) in Hb.
    rewrite rev_involutive, rev_app_distr in Hb.
    destruct (rev (lstrip (rev (lstrip s)))) as [|d t]; [done|].
    cbn. intros [= ->]. apply (lstrip_head s). by rewrite Hb.
  - rewrite last_rev. apply lstrip_head.
Qed.

(** The text [extract_text] returns is in normal form: its only white
    space is the space U+0020, never twice in a row, and neither at its
    start nor at its end. *)
Theorem extract_text_normalized {L : WebLibs} (html : str) :
  let text := extract_text html in
  (forall c, c ∈ text -> is_space c = true -> c = 32%N)
  /\ (forall i a b, text !! i = Some a -> text !! S i = Some b ->
        is_space a && is_space b = false)
  /\ (forall c, head text = Some c -> is_space c = false)
  /\ (forall c, last text = Some c -> is_space c = false).
Proof.
  intros text. subst text. unfold extract_text.
  set (u := collapse_spaces false (soup_visible_text html)).
  pose proof (collapse_spaces_single false (soup_visible_text html)) as Hu.
  fold u in Hu. destruct (strip_infix u) as (a & b & Hinfix).
  rewrite Hinfix in Hu.
  apply single_spaced_app in Hu as [_ Hu].
  apply single_spaced_app in Hu as [Hu _].
  apply single_spaced_lookup in Hu as [Hall Hadj].
  split; [exact Hall|]. split; [exact Hadj|].
  split; intros c; apply strip_ends.
Qed.

(* ===================================================================== *)
(** * A bound on the hits *)
(* ===================================================================== *)

Lemma startswith_length (s p : str) :
  startswith s p = true -> (length p <= length s)%nat.
Proof.
  revert s. induction p as [|a p IH]; intros s; cbn; [lia|].
  destruct s as [|b s]; [done|]. intros [_ Hsw]%andb_true_iff.
  apply IH in Hsw. cbn. lia.
Qed.

(** Matches do not overlap: they all fit in the text. *)
Lemma count_from_fits (p s : str) (k : nat) :
  p <> [] ->
  Z.of_nat (length p) * count_from p k s
  <= Z.max 0 (Z.of_nat (length s) - Z.of_nat k).
Proof.
  intros Hp. revert k. induction s as [|c s IH]; intros k.
  - cbn [count_from length]. lia.
  - cbn [count_from]. destruct k as [|k].
    + destruct (startswith (c :: s) p) eqn:Hsw.
      * apply startswith_length in Hsw. cbn [length] in *.
        specialize (IH (length p - 1)%nat).
        destruct p as [|a p]; [done|]. cbn [length] in *. lia.
      * specialize (IH 0%nat). cbn [length]. lia.
    + specialize (IH k). cbn [length]. lia.
Qed.

Lemma str_count_fits (s p : str) :
  p <> [] -> Z.of_nat (length p) * str_count s p <= Z.of_nat (length s).
Proof.
  intros Hp. pose proof (count_from_fits p s 0 Hp).
  destruct p as [|a p]; [done|]. unfold str_count. lia.
Qed.

(** When no keyword of the list is empty once lowercased, the hits of
    [count_keywords] are at most the length of the lowercased text for
    each keyword of the list: the occurrences of one keyword do not
    overlap, those of different keywords are counted separately. *)
Theorem count_keywords_bounded {B : Builtins} (text : str)
    (keywords : list str) :
  (forall kw, kw ∈ keywords -> str_lower kw <> []) ->
  0 <= count_keywords text keywords
    <= Z.of_nat (length keywords) * Z.of_nat (length (str_lower text)).
Proof.
  intros Hne. split; [apply count_keywords_nonneg|].
  rewrite count_keywords_sum.
  induction keywords as [|kw rest IH]; [unfold py_sum; cbn; lia|].
  cbn [map length]. rewrite py_sum_cons.
  assert (Hkw : str_count (str_lower text) (str_lower kw)
                <= Z.of_nat (length (str_lower text))).
  { pose proof (str_count_fits (str_lower text) (str_lower kw)
                  (Hne kw ltac:(left))) as Hfit.
    pose proof (str_count_nonneg (str_lower text) (str_lower kw)).
    destruct (str_lower kw) as [|a p] eqn:Hp; [by destruct (Hne kw); [left|]|].
    cbn [length] in Hfit. nia. }
  assert (Hrest : forall kw', kw' ∈ rest -> str_lower kw' <> []).
  { intros kw' Hkw'. apply Hne. by right. }
  specialize (IH Hrest). lia.
Qed.

Lemma count_keywords_bounded_witness :
  0 <= count_keywords (B:=ref_builtins) (pystr "RSE et bilan carbone")
         RSE_KEYWORDS
    <= 20 * 20.
Proof.
  apply (count_keywords_bounded (B:=ref_builtins)
           (pystr "RSE et bilan carbone") RSE_KEYWORDS).
  intros kw Hkw. vm_compute in Hkw.
  repeat (apply elem_of_cons in Hkw as [->|Hkw]; [by vm_compute|]).
  by apply elem_of_nil in Hkw.
Defined.

(* ===================================================================== *)
(** * The record of a page *)
(* ===================================================================== *)

Lemma startswith_prefix (s p : str) :
  startswith s p = true -> exists b, s = p ++ b.
Proof.
  revert s. induction p as [|a p IH]; intros s; [by exists s|].
  destruct s as [|c s]; [done|]. cbn [startswith].
  intros [Heq Hsw]%andb_true_iff. apply N.eqb_eq in Heq as ->.
  destruct (IH _ Hsw) as [b ->]. by exists b.
Qed.

Lemma str_in_infix (p s : str) :
  str_in p s = true -> exists a b, s = a ++ p ++ b.
Proof.
  induction s as [|c s IH]; cbn [str_in].
  - rewrite orb_false_r. intros [b ->]%startswith_prefix. by exists [], b.
  - intros [Hsw|Hin]%orb_true_iff.
    + destruct (startswith_prefix _ _ Hsw) as [b ->]. by exists [], b.
    + destruct (IH Hin) as (a & b & ->). by exists (c :: a), b.
Qed.

(** A substring of a substring is a substring. *)
Lemma str_in_trans (q p s : str) :
  str_in q p = true -> str_in p s = true -> str_in q s = true.
Proof.
  intros (a & b & ->)%str_in_infix (a' & b' & ->)%str_in_infix.
  replace (a' ++ (a ++ q ++ b) ++ b') with ((a' ++ a) ++ q ++ (b ++ b'))
    by (by rewrite <- !app_assoc).
  apply str_in_app.
Qed.

Lemma size_list_to_set_le (l : list str) :
  (size (list_to_set (C:=gset str) l) <= length l)%nat.
Proof.
  induction l as [|x l IH]; cbn [list_to_set length].
  - by rewrite size_empty.
  - rewrite size_union_alt, size_singleton.
    pose proof (subseteq_size (list_to_set (C:=gset str) l ∖ {[x]})
                  (list_to_set l) ltac:(set_solver)).
    lia.
Qed.

Lemma length_omap_le {A C : Type} (f : A -> option C) (l : list A) :
  (length (omap f l) <= length l)%nat.
Proof.
  induction l as [|x l IH]; [done|]. cbn [omap list_omap length].
  destruct (f x); cbn [length]; lia.
Qed.

(** The bytes of an encoding: between one and four for each code point,
    and one for each exactly when the text is ASCII. *)
Lemma utf8_bytes_bounds (s : str) :
  let n := fold_right (fun c n => utf8_width c + n) 0 s in
  Z.of_nat (length s) <= n <= 4 * Z.of_nat (length s)
  /\ (n = Z.of_nat (length s) <-> forall c, c ∈ s -> (c < 128)%N).
Proof.
  induction s as [|c s [IHle IHeq]]; cbn zeta in *.
  - split; [done|]. split; [by intros _ c ?%elem_of_nil|done].
  - cbn [fold_right length].
    set (n := fold_right (fun c n => utf8_width c + n) 0 s) in *.
    assert (Hw : 1 <= utf8_width c <= 4
                 /\ (utf8_width c = 1 <-> (c < 128)%N)).
    { unfold utf8_width. destruct (N.ltb_spec c 128); [split; [lia|done]|].
      repeat case_match; split; lia. }
    destruct Hw as [Hw Hone]. split; [lia|]. split.
    + intros Hsum d [->|Hd]%elem_of_cons.
      * apply Hone. lia.
      * apply IHeq; [lia|done].
    + intros Hall.
      assert (utf8_width c = 1) by (apply Hone, Hall; left).
      assert (n = Z.of_nat (length s)); [|lia].
      apply IHeq. intros d Hd. apply Hall. by right.
Qed.

Lemma utf8_len_Ok (s : str) (n : Z) :
  utf8_len s = Ok n ->
  (forall c, c ∈ s -> is_surrogate c = false)
  /\ Z.of_nat (length s) <= n <= 4 * Z.of_nat (length s)
  /\ (n = Z.of_nat (length s) <-> forall c, c ∈ s -> (c < 128)%N).
Proof.
  unfold utf8_len. destruct (existsb is_surrogate s) eqn:Hsur; [done|].
  intros [= <-]. split; [|apply utf8_bytes_bounds].
  intros c Hc. destruct (is_surrogate c) eqn:Hcs; [|done].
  assert (Htrue : existsb is_surrogate s = true)
    by (apply existsb_elem_of; by exists c).
  congruence.
Qed.

Section PageFacts.
Context {B : Builtins} {L : WebLibs}.

(** ** X14 *)

(** The record of a call of [analyze_page] that returns.  The page holds
    no surrogate code point, which [encode] would reject.  The record
    counts at most one style sheet per [link] element with a [rel] and at
    most one font family per element with a [style].  Its font resources
    are the [href]s of the [link] elements whose lowercased [href]
    contains [font]: the test for [fonts.googleapis.com] adds nothing.
    Its [html_kb] is the rounded quotient by 1024 of the length of the
    encoding, which is between one and four bytes per code point and one
    byte per code point exactly for an ASCII page. *)
Theorem analyze_page_invariants (html url : str) (p : page_info) :
  analyze_page html url = Ok p ->
  (forall c, c ∈ html -> is_surrogate c = false)
  /\ 0 <= pi_num_stylesheets p <= Z.of_nat (length (soup_link_rels html))
  /\ 0 <= pi_num_inline_fonts p <= Z.of_nat (length (soup_styles html))
  /\ (forall href,
        href ∈ pi_font_resources p
        <-> href ∈ soup_link_hrefs html
            /\ str_in (pystr "font") (str_lower href) = true)
  /\ (size (pi_font_resources p) <= length (soup_link_hrefs html))%nat
  /\ exists html_bytes,
       utf8_len html = Ok html_bytes
       /\ pi_html_kb p = py_round (int_truediv html_bytes 1024) 1
       /\ Z.of_nat (length html) <= html_bytes <= 4 * Z.of_nat (length html)
       /\ (html_bytes = Z.of_nat (length html)
           <-> forall c, c ∈ html -> (c < 128)%N).
Proof.
  unfold analyze_page.
  destruct (utf8_len html) as [html_bytes|e] eqn:Hlen; cbn [bind]; [|done].
  intros Hp. apply (f_equal (fun r => match r with
                                      | Ok q => q
                                      | Raise _ => p
                                      end)) in Hp.
  cbn beta iota in Hp. subst p.
  cbn [pi_num_stylesheets pi_num_inline_fonts pi_font_resources pi_html_kb].
  destruct (utf8_len_Ok _ _ Hlen) as (Hsur & Hbounds & Hascii).
  split; [exact Hsur|]. split.
  { pose proof (length_filter
                  (fun rel => pystr "stylesheet" ∈ map str_lower rel)
                  (soup_link_rels html)). lia. }
  split.
  { pose proof (size_list_to_set_le
                  (omap (fun style => strip <$> re_font_family
                                                  (str_lower style))
                     (soup_styles html))).
    pose proof (length_omap_le
                  (fun style => strip <$> re_font_family (str_lower style))
                  (soup_styles html)).
    lia. }
  split.
  { intros href. rewrite elem_of_list_to_set, list_elem_of_filter.
    split.
    - intros [Htest Hin]. split; [done|].
      apply Is_true_true_1, orb_true_iff in Htest as [Hgoogle|Hfont];
        [|done].
      by apply (str_in_trans _ (pystr "fonts.googleapis.com")).
    - intros [Hin Hfont]. split; [|done].
      apply Is_true_true_2. rewrite Hfont. apply orb_true_r. }
  split.
  { etransitivity; [apply size_list_to_set_le|apply length_filter]. }
  by exists html_bytes.
Qed.

End PageFacts.

(** The page [rse rse] of the examples: seven bytes for seven code
    points. *)
Lemma analyze_page_invariants_witness :
  exists p html_bytes,
    analyze_page (B:=ref_builtins) (L:=ref_weblibs) (pystr "rse rse")
      (pystr "https://example.com/rse") = Ok p
    /\ utf8_len (pystr "rse rse") = Ok html_bytes
    /\ html_bytes = 7.
Proof.
  assert (Hdemo :
    match analyze_page (B:=ref_builtins) (L:=ref_weblibs) (pystr "rse rse")
            (pystr "https://example.com/rse") with
    | Ok _ => true
    | Raise _ => false
    end = true) by (by vm_compute).
  destruct (analyze_page (B:=ref_builtins) (L:=ref_weblibs) (pystr "rse rse")
              (pystr "https://example.com/rse")) as [p|e] eqn:Hrun;
    [|discriminate Hdemo].
  destruct (analyze_page_invariants (B:=ref_builtins) (L:=ref_weblibs)
              (pystr "rse rse") (pystr "https://example.com/rse") p Hrun)
    as (_ & _ & _ & _ & _ & html_bytes & Hlen & _ & _ & Hascii).
  exists p, html_bytes. split; [reflexivity|]. split; [exact Hlen|].
  apply Hascii. intros c Hc. vm_compute in Hc.
  repeat (apply elem_of_cons in Hc as [->|Hc]; [reflexivity|]).
  by apply elem_of_nil in Hc.
Defined.

(** A page with a lone surrogate: [encode] raises, and no record is
    built. *)
Lemma analyze_page_surrogate :
  analyze_page (B:=ref_builtins) (L:=ref_weblibs) [55296%N]
    (pystr "https://example.com")
  = Raise UnicodeEncodeError.
Proof. by vm_compute. Qed.

(* ===================================================================== *)
(** * The submit handler *)
(* ===================================================================== *)

Lemma digits2_pos_iter_xO (p k : positive) :
  digits2_pos (Pos.iter xO p k) = (digits2_pos p + k)%positive.
Proof.
  induction k as [|k IH] using Pos.peano_ind.
  - cbn. lia.
  - rewrite Pos.iter_succ. cbn. rewrite IH. lia.
Qed.

Lemma digits2_pos_size (p : positive) : digits2_pos p = Pos.size p.
Proof. induction p as [p IH|p IH|]; cbn; by rewrite ?IH. Qed.

(** A mantissa of 53 bits with an exponent in range is a float as it is. *)
Lemma binary_round_aux_exact (m : positive) (e : Z) :
  Z.pos (digits2_pos m) = prec -> 3 - emax - prec <= e <= emax - prec ->
  binary_round_aux prec emax false (Z.pos m) e loc_Exact
  = S754_finite false m e.
Proof.
  intros Hd He. unfold prec, emax in *.
  assert (Hshr : shr_fexp 53 1024 (Z.pos m) e loc_Exact
                 = ({| shr_m := Z.pos m; shr_r := false; shr_s := false |},
                    e)).
  { unfold shr_fexp, fexp, emin. cbn [Zdigits2]. rewrite Hd.
    replace (Z.max (53 + e - 53) (3 - 1024 - 53) - e) with 0 by lia.
    reflexivity. }
  unfold binary_round_aux. rewrite Hshr.
  cbn [shr_m loc_of_shr_record round_nearest_even].
  rewrite Hshr. cbn [shr_m].
  by rewrite (proj2 (Z.leb_le _ _)) by lia.
Qed.

(** [float(n)] does not overflow for an [int] of at most 53 bits. *)
Lemma to_float_finite (n : Z) :
  0 <= n < 2 ^ 53 -> is_finite (to_float n) = true.
Proof.
  intros Hn. destruct n as [|p|p]; [done| |lia].
  unfold to_float. cbn [binary_normalize]. unfold binary_round, shl_align.
  assert (Hd : Z.pos (digits2_pos p) <= 53).
  { rewrite digits2_pos_size.
    pose proof (Pos.size_le p) as Hle.
    assert (Hlt : 2 ^ Z.pos (Pos.size p) < 2 ^ 54).
    { rewrite <- Pos2Z.inj_pow. lia. }
    apply Z.pow_lt_mono_r_iff in Hlt; lia. }
  unfold fexp, emin, prec, emax.
  destruct (Z.max (Z.pos (digits2_pos p) + 0 - 53) (3 - 1024 - 53) - 0)
    as [|d|d] eqn:Hsub; [|lia|].
  - rewrite binary_round_aux_exact; [done| |unfold prec, emax; lia].
    unfold prec. lia.
  - rewrite binary_round_aux_exact; [done| |unfold prec, emax; lia].
    rewrite digits2_pos_iter_xO. unfold prec. lia.
Qed.

Lemma getitem_dom (d : dict) (key : string) :
  key ∈ dom d -> exists v, d !! key = Some v /\ getitem d key = inr v.
Proof.
  intros [v Hv]%elem_of_dom. exists v. split; [done|].
  unfold getitem. by rewrite Hv.
Qed.

Section SubmitFacts.
Context {B : Builtins} {L : WebLibs} {N : Network}.

(** ** X15 *)


End SubmitFacts.


(** A URL that [urlparse] rejects: the handler raises its [ValueError]. *)
Lemma on_submit_bracket :
  on_submit (B:=ref_builtins) (L:=ref_weblibs) (N:=demo_network)
    (pystr "[") 10000
  = inl (Other (ValueError (pystr "Invalid IPv6 URL"))).
Proof. by vm_compute. Qed.
